(** * FoodHub backend: order lifecycle, pricing and payment reconciliation

    A shallow embedding of the Express/Mongoose code under
    [Backend/models] ([Order.js], [Restaurant.js], [MenuItem.js],
    [User.js]) and [Backend/routes] ([orders.js], [menu.js],
    [users.js], the payment routes and the admin routes), followed by
    the properties of the order lifecycle, of the catalog routes and
    of the address book.

    Conventions.
    - A JavaScript [Number] is an IEEE 754 binary64 value: Rocq's
      primitive [float].  Arithmetic is written with the primitive
      operations in the order in which the source evaluates it.
    - A Mongoose [enum] of strings is an inductive type; free-form
      [String] paths stay strings.
    - A path that may be [undefined] is an [option].
    - The collection of orders is a list of documents in insertion
      order; [findById] and [findOne] return the first match and
      [save] writes a document back under its [_id].
    - A route handler is a function from the database and the request
      to the response and the new database.  The [try]/[catch] around
      every handler body turns a thrown error into the handler's 500
      response; nothing is written unless [save] is reached.
    - [save] validates the document, then runs the schema's own
      [pre('save')] hooks and stores it.  Validation comes first, so a
      required path that only a hook assigns is missing when a new
      document is validated.  The collections hold documents that
      satisfy their schema, and the handlers write to a loaded order
      only values its validators admit, so validation decides for new
      orders and for the address sub-documents a request writes.
      Failures of the database itself are not modelled.
    - A request reads the clock once: every [new Date()] and
      [Date.now()] of one request is the same [now].
    - Socket.IO pushes change neither the database nor the response and
      are left out. *)

From Stdlib Require Import List String Ascii Bool ZArith Lia.
From Stdlib Require Import Floats.
Import ListNotations.

Set Warnings "-inexact-float".

Local Open Scope string_scope.
Local Open Scope bool_scope.

(* ================================================================= *)
(** ** JavaScript values used by the handlers *)

Abbreviation Number := float (only parsing).

(** A [Date] is its time value (milliseconds since the epoch, a
    [Number]); what its string-valued methods return depends on the
    host's locale and time zone and is carried along with it. *)
Record Date := mkDate {
  getTime : Number;
  rendering : string -> string;   (* method name to the string it returns *)
}.

(** [d.toTimeString()], "HH:MM:SS GMT+hhmm (zone)". *)
Definition toTimeString (d : Date) : string := d.(rendering) "toTimeString".

Definition ObjectId := string.

Inductive JsError :=
| TypeError (msg : string)
| StripeError (msg : string)
| ValidationError (msg : string).

(** The outcome of evaluating an expression that may throw. *)
Inductive result (A : Type) :=
| Ret (a : A)
| Throw (e : JsError).
Arguments Ret {A} a.
Arguments Throw {A} e.

Definition bind {A B} (m : result A) (k : A -> result B) : result B :=
  match m with
  | Ret a => k a
  | Throw e => Throw e
  end.

Notation "x <- m ;; k" := (bind m (fun x => k))
  (at level 61, m at next level, right associativity).

(** The zero-argument, string-valued methods a [Date] answers to: the
    own properties of [Date.prototype] (ECMAScript, Date objects) and
    those inherited from [Object.prototype]. *)
Definition Date_prototype : list string :=
  [ "constructor"; "toString"; "toDateString"; "toTimeString";
    "toISOString"; "toUTCString"; "toGMTString"; "toJSON";
    "toLocaleString"; "toLocaleDateString"; "toLocaleTimeString";
    "valueOf"; "getTime"; "getDate"; "getDay"; "getFullYear";
    "getHours"; "getMilliseconds"; "getMinutes"; "getMonth";
    "getSeconds"; "getTimezoneOffset"; "getUTCDate"; "getUTCDay";
    "getUTCFullYear"; "getUTCHours"; "getUTCMilliseconds";
    "getUTCMinutes"; "getUTCMonth"; "getUTCSeconds"; "getYear";
    "setDate"; "setFullYear"; "setHours"; "setMilliseconds";
    "setMinutes"; "setMonth"; "setSeconds"; "setTime"; "setUTCDate";
    "setUTCFullYear"; "setUTCHours"; "setUTCMilliseconds";
    "setUTCMinutes"; "setUTCMonth"; "setUTCSeconds"; "setYear";
    "hasOwnProperty"; "isPrototypeOf"; "propertyIsEnumerable" ].

(** [now.name()] for a [Date] receiver.  Calling a property that the
    prototype chain does not define calls [undefined] and throws. *)
Definition Date_invoke (now : Date) (name : string) : result string :=
  if existsb (String.eqb name) Date_prototype
  then Ret (now.(rendering) name)
  else Throw (TypeError ("now." ++ name ++ " is not a function")).

(** [Math.round]: the integral Number closest to [x], ties towards
    positive infinity; NaN, the infinities and the zeros are returned
    as they are, and a negative [x] that rounds to zero gives [-0]. *)
Definition Math_round (x : Number) : Number :=
  match Prim2SF x with
  | S754_finite s m e =>
      if (0 <=? e)%Z then x
      else
        let k := Z.opp e in
        let q := Z.shiftr (Zpos m) k in
        let r := Z.land (Zpos m) (Z.ones k) in
        let half := Z.shiftl 1 (k - 1) in
        if s then
          let n := if (half <? r)%Z then (q + 1)%Z else q in
          (- of_uint63 (Uint63.of_Z n))%float
        else
          let n := if (half <=? r)%Z then (q + 1)%Z else q in
          of_uint63 (Uint63.of_Z n)
  | _ => x
  end.

(** [Math.max] on two Numbers: NaN if either is NaN. *)
Definition Math_max (x y : Number) : Number :=
  if PrimFloat.is_nan x then x
  else if PrimFloat.is_nan y then y
  else if (x <? y)%float then y
  else if (y <? x)%float then x
  else if PrimFloat.get_sign x then y else x.

Definition Number_of_nat (n : nat) : Number :=
  of_uint63 (Uint63.of_Z (Z.of_nat n)).

(** [s.slice(-n)]: the last [n] characters of [s]. *)
Definition slice_last (n : nat) (s : string) : string :=
  substring (String.length s - n) n s.

Fixpoint repeat_string (n : nat) (c : string) : string :=
  match n with
  | O => ""
  | S k => c ++ repeat_string k c
  end.

(** [s.padStart(n, "0")]. *)
Definition padStart0 (n : nat) (s : string) : string :=
  repeat_string (n - String.length s) "0" ++ s.

(* ================================================================= *)
(** ** models/Order.js *)

(** The [enum] of the [status] path. *)
Inductive Status :=
| pending | confirmed | preparing | ready_for_pickup
| picked_up | on_the_way | delivered | cancelled | refunded.

(** The [enum] of [payment.status]. *)
Inductive PaymentStatus :=
| pay_pending | pay_processing | pay_completed | pay_failed | pay_refunded.

Inductive OrderType := delivery | pickup.

Inductive PaymentMethod := card | cash | digital_wallet.

(** The [enum] of [deliveryTracking.status]. *)
Inductive TrackingStatus :=
| trk_assigned | trk_picked_up | trk_on_the_way | trk_delivered.

Definition Status_eqb (a b : Status) : bool :=
  match a, b with
  | pending, pending | confirmed, confirmed | preparing, preparing
  | ready_for_pickup, ready_for_pickup | picked_up, picked_up
  | on_the_way, on_the_way | delivered, delivered
  | cancelled, cancelled | refunded, refunded => true
  | _, _ => false
  end.

Definition PaymentStatus_eqb (a b : PaymentStatus) : bool :=
  match a, b with
  | pay_pending, pay_pending | pay_processing, pay_processing
  | pay_completed, pay_completed | pay_failed, pay_failed
  | pay_refunded, pay_refunded => true
  | _, _ => false
  end.

Definition OrderType_eqb (a b : OrderType) : bool :=
  match a, b with
  | delivery, delivery | pickup, pickup => true
  | _, _ => false
  end.

(** The string stored for each enum value. *)
Definition Status_str (s : Status) : string :=
  match s with
  | pending => "pending"
  | confirmed => "confirmed"
  | preparing => "preparing"
  | ready_for_pickup => "ready_for_pickup"
  | picked_up => "picked_up"
  | on_the_way => "on_the_way"
  | delivered => "delivered"
  | cancelled => "cancelled"
  | refunded => "refunded"
  end.

Definition all_statuses : list Status :=
  [pending; confirmed; preparing; ready_for_pickup; picked_up;
   on_the_way; delivered; cancelled; refunded].

(** Reading a status out of a request body: the enum value whose
    string it is, if any. *)
Definition Status_of_string (s : string) : option Status :=
  find (fun v => String.eqb (Status_str v) s) all_statuses.

Definition TrackingStatus_of (s : Status) : option TrackingStatus :=
  match s with
  | picked_up => Some trk_picked_up
  | on_the_way => Some trk_on_the_way
  | delivered => Some trk_delivered
  | _ => None
  end.

Record Coordinates := mkCoordinates {
  lat : Number;
  lng : Number;
}.

Record Customization := mkCustomization {
  cust_name : string;
  selectedOptions : list string;
}.

(** [orderItemSchema]. *)
Record OrderItem := mkOrderItem {
  oi_menuItem : ObjectId;
  oi_name : string;
  oi_price : Number;
  oi_quantity : Number;
  oi_customizations : list Customization;
  oi_specialInstructions : string;
  oi_subtotal : Number;
}.

Record Location := mkLocation {
  loc_lat : Number;
  loc_lng : Number;
  loc_timestamp : Date;
}.

(** [deliveryTrackingSchema]. *)
Record DeliveryTracking := mkDeliveryTracking {
  dt_status : TrackingStatus;
  dt_deliveryPerson : option ObjectId;
  dt_estimatedDeliveryTime : option Date;
  dt_actualDeliveryTime : option Date;
  dt_currentLocation : option Location;
  dt_deliveryNotes : option string;
  dt_deliveryPhoto : option string;
}.

Record Address := mkAddress {
  addr_street : string;
  addr_city : string;
  addr_coordinates : option Coordinates;
}.

Record Pricing := mkPricing {
  subtotal : Number;
  tax : Number;
  deliveryFee : Number;
  serviceFee : Number;
  tip : Number;
  discount : Number;
  total : Number;
}.

Record Payment := mkPayment {
  pay_method : PaymentMethod;
  pay_status : PaymentStatus;
  stripePaymentIntentId : option string;
  stripeChargeId : option string;
  paidAt : option Date;
  refundedAt : option Date;
  refundAmount : option Number;
}.

(** An element of the [timeline] array.  Its [status] is a plain
    [String] path: the handlers also store labels that are not order
    statuses there. *)
Record TimelineEntry := mkTimelineEntry {
  tl_status : string;
  tl_timestamp : Date;
  tl_message : string;
  tl_updatedBy : option ObjectId;
}.

Record PromoCode := mkPromoCode {
  promo_code : string;
}.

(** [orderSchema] (the [rating] sub-document and the time stamps added
    by [timestamps: true] are not touched by the handlers below). *)
Record Order := mkOrder {
  _id : ObjectId;
  orderNumber : string;
  customer : ObjectId;
  restaurant : ObjectId;
  items : list OrderItem;
  status : Status;
  orderType : OrderType;
  deliveryAddress : option Address;
  pricing : Pricing;
  payment : Payment;
  deliveryTracking : option DeliveryTracking;
  timeline : list TimelineEntry;
  estimatedPreparationTime : Number;
  estimatedDeliveryTime : option Date;
  actualDeliveryTime : option Date;
  customerNotes : option string;
  restaurantNotes : option string;
  promoCode : option PromoCode;
  isScheduled : bool;
  scheduledFor : option Date;
  cancellationReason : option string;
  cancelledBy : option ObjectId;
  cancelledAt : option Date;
  refundReason : option string;
  refundedBy : option ObjectId;
}.

(** Field writes. *)
Definition with_status (v : Status) (o : Order) : Order :=
  mkOrder o.(_id) o.(orderNumber) o.(customer) o.(restaurant) o.(items) v
    o.(orderType) o.(deliveryAddress) o.(pricing) o.(payment)
    o.(deliveryTracking) o.(timeline) o.(estimatedPreparationTime)
    o.(estimatedDeliveryTime) o.(actualDeliveryTime) o.(customerNotes)
    o.(restaurantNotes) o.(promoCode) o.(isScheduled) o.(scheduledFor)
    o.(cancellationReason) o.(cancelledBy) o.(cancelledAt)
    o.(refundReason) o.(refundedBy).

Definition with_orderNumber (v : string) (o : Order) : Order :=
  mkOrder o.(_id) v o.(customer) o.(restaurant) o.(items) o.(status)
    o.(orderType) o.(deliveryAddress) o.(pricing) o.(payment)
    o.(deliveryTracking) o.(timeline) o.(estimatedPreparationTime)
    o.(estimatedDeliveryTime) o.(actualDeliveryTime) o.(customerNotes)
    o.(restaurantNotes) o.(promoCode) o.(isScheduled) o.(scheduledFor)
    o.(cancellationReason) o.(cancelledBy) o.(cancelledAt)
    o.(refundReason) o.(refundedBy).

Definition with_payment (v : Payment) (o : Order) : Order :=
  mkOrder o.(_id) o.(orderNumber) o.(customer) o.(restaurant) o.(items)
    o.(status) o.(orderType) o.(deliveryAddress) o.(pricing) v
    o.(deliveryTracking) o.(timeline) o.(estimatedPreparationTime)
    o.(estimatedDeliveryTime) o.(actualDeliveryTime) o.(customerNotes)
    o.(restaurantNotes) o.(promoCode) o.(isScheduled) o.(scheduledFor)
    o.(cancellationReason) o.(cancelledBy) o.(cancelledAt)
    o.(refundReason) o.(refundedBy).

Definition with_deliveryTracking (v : option DeliveryTracking) (o : Order) : Order :=
  mkOrder o.(_id) o.(orderNumber) o.(customer) o.(restaurant) o.(items)
    o.(status) o.(orderType) o.(deliveryAddress) o.(pricing) o.(payment)
    v o.(timeline) o.(estimatedPreparationTime)
    o.(estimatedDeliveryTime) o.(actualDeliveryTime) o.(customerNotes)
    o.(restaurantNotes) o.(promoCode) o.(isScheduled) o.(scheduledFor)
    o.(cancellationReason) o.(cancelledBy) o.(cancelledAt)
    o.(refundReason) o.(refundedBy).

Definition with_timeline (v : list TimelineEntry) (o : Order) : Order :=
  mkOrder o.(_id) o.(orderNumber) o.(customer) o.(restaurant) o.(items)
    o.(status) o.(orderType) o.(deliveryAddress) o.(pricing) o.(payment)
    o.(deliveryTracking) v o.(estimatedPreparationTime)
    o.(estimatedDeliveryTime) o.(actualDeliveryTime) o.(customerNotes)
    o.(restaurantNotes) o.(promoCode) o.(isScheduled) o.(scheduledFor)
    o.(cancellationReason) o.(cancelledBy) o.(cancelledAt)
    o.(refundReason) o.(refundedBy).

Definition with_estimatedDeliveryTime (v : option Date) (o : Order) : Order :=
  mkOrder o.(_id) o.(orderNumber) o.(customer) o.(restaurant) o.(items)
    o.(status) o.(orderType) o.(deliveryAddress) o.(pricing) o.(payment)
    o.(deliveryTracking) o.(timeline) o.(estimatedPreparationTime)
    v o.(actualDeliveryTime) o.(customerNotes)
    o.(restaurantNotes) o.(promoCode) o.(isScheduled) o.(scheduledFor)
    o.(cancellationReason) o.(cancelledBy) o.(cancelledAt)
    o.(refundReason) o.(refundedBy).

Definition with_actualDeliveryTime (v : option Date) (o : Order) : Order :=
  mkOrder o.(_id) o.(orderNumber) o.(customer) o.(restaurant) o.(items)
    o.(status) o.(orderType) o.(deliveryAddress) o.(pricing) o.(payment)
    o.(deliveryTracking) o.(timeline) o.(estimatedPreparationTime)
    o.(estimatedDeliveryTime) v o.(customerNotes)
    o.(restaurantNotes) o.(promoCode) o.(isScheduled) o.(scheduledFor)
    o.(cancellationReason) o.(cancelledBy) o.(cancelledAt)
    o.(refundReason) o.(refundedBy).

Definition with_restaurantNotes (v : option string) (o : Order) : Order :=
  mkOrder o.(_id) o.(orderNumber) o.(customer) o.(restaurant) o.(items)
    o.(status) o.(orderType) o.(deliveryAddress) o.(pricing) o.(payment)
    o.(deliveryTracking) o.(timeline) o.(estimatedPreparationTime)
    o.(estimatedDeliveryTime) o.(actualDeliveryTime) o.(customerNotes)
    v o.(promoCode) o.(isScheduled) o.(scheduledFor)
    o.(cancellationReason) o.(cancelledBy) o.(cancelledAt)
    o.(refundReason) o.(refundedBy).

Definition with_cancellation (reason : option string) (by_ : option ObjectId)
    (at_ : option Date) (o : Order) : Order :=
  mkOrder o.(_id) o.(orderNumber) o.(customer) o.(restaurant) o.(items)
    o.(status) o.(orderType) o.(deliveryAddress) o.(pricing) o.(payment)
    o.(deliveryTracking) o.(timeline) o.(estimatedPreparationTime)
    o.(estimatedDeliveryTime) o.(actualDeliveryTime) o.(customerNotes)
    o.(restaurantNotes) o.(promoCode) o.(isScheduled) o.(scheduledFor)
    reason by_ at_
    o.(refundReason) o.(refundedBy).

Definition with_refund (reason : option string) (by_ : option ObjectId)
    (o : Order) : Order :=
  mkOrder o.(_id) o.(orderNumber) o.(customer) o.(restaurant) o.(items)
    o.(status) o.(orderType) o.(deliveryAddress) o.(pricing) o.(payment)
    o.(deliveryTracking) o.(timeline) o.(estimatedPreparationTime)
    o.(estimatedDeliveryTime) o.(actualDeliveryTime) o.(customerNotes)
    o.(restaurantNotes) o.(promoCode) o.(isScheduled) o.(scheduledFor)
    o.(cancellationReason) o.(cancelledBy) o.(cancelledAt)
    reason by_.

(** [orderSchema.methods.canBeCancelled]. *)
Definition nonCancellableStatuses : list Status :=
  [picked_up; on_the_way; delivered; cancelled; refunded].

Definition canBeCancelled (this : Order) : bool :=
  negb (existsb (Status_eqb this.(status)) nonCancellableStatuses).

(** [orderSchema.methods.getProgressPercentage]. *)
Definition getProgressPercentage (this : Order) : nat :=
  match this.(status) with
  | pending => 10
  | confirmed => 25
  | preparing => 50
  | ready_for_pickup => 75
  | picked_up => 85
  | on_the_way => 95
  | delivered => 100
  | cancelled => 0
  | refunded => 0
  end.

(** A hydrated document: the order together with Mongoose's change
    tracking, as far as the hooks consult it. *)
Record Doc := mkDoc {
  doc_order : Order;
  isNew : bool;
  isModified_status : bool;
}.

(** A document returned by a query. *)
Definition hydrate (o : Order) : Doc := mkDoc o false false.

(** A write to a path other than [status]. *)
Definition modify (f : Order -> Order) (d : Doc) : Doc :=
  mkDoc (f d.(doc_order)) d.(isNew) d.(isModified_status).

(** [doc.status = v]: the path is marked modified when the value
    written differs from the one the document holds. *)
Definition set_status (v : Status) (d : Doc) : Doc :=
  if Status_eqb v d.(doc_order).(status) then d
  else mkDoc (with_status v d.(doc_order)) d.(isNew) true.

(** [doc.timeline.push(e)]. *)
Definition timeline_push (e : TimelineEntry) (d : Doc) : Doc :=
  modify (fun o => with_timeline (o.(timeline) ++ [e]) o) d.

(* ================================================================= *)
(** ** models/Restaurant.js *)

Inductive Day :=
| monday | tuesday | wednesday | thursday | friday | saturday | sunday.

Definition Day_str (d : Day) : string :=
  match d with
  | monday => "monday"
  | tuesday => "tuesday"
  | wednesday => "wednesday"
  | thursday => "thursday"
  | friday => "friday"
  | saturday => "saturday"
  | sunday => "sunday"
  end.

(** [hoursSchema]. *)
Record Hours := mkHours {
  day : Day;
  open : string;    (* "09:00" *)
  close : string;   (* "22:00" *)
  isClosed : bool;
}.

Record Restaurant := mkRestaurant {
  r_id : ObjectId;
  r_owner : ObjectId;
  r_coordinates : Coordinates;
  r_deliveryFee : Number;
  minimumOrder : Number;
  deliveryRadius : Number;
  operatingHours : list Hours;
  isActive : bool;
  isOpen : bool;
}.

(** [restaurantSchema.methods.isCurrentlyOpen], with [now] the Date
    that [new Date()] yields.  The source asks the Date for
    [toLocaleLowerCase()]. *)
Definition isCurrentlyOpen (this : Restaurant) (now : Date) : result bool :=
  if negb this.(isOpen) || negb this.(isActive) then Ret false
  else
    lowered <- Date_invoke now "toLocaleLowerCase" ;;
    let currentDay := substring 0 3 lowered in
    time <- Date_invoke now "toTimeString" ;;
    let currentTime := substring 0 5 time in
    let todayHours :=
      find (fun h => prefix currentDay (Day_str h.(day))) this.(operatingHours) in
    match todayHours with
    | None => Ret false
    | Some h =>
        if h.(isClosed) then Ret false
        else Ret (String.leb h.(open) currentTime && String.leb currentTime h.(close))
    end.

(* ================================================================= *)
(** ** models/MenuItem.js *)

(** [optionSchema]. *)
Record Option_ := mkOption {
  opt_name : string;
  opt_price : Number;
}.

(** [customizationSchema]. *)
Record CustomizationConfig := mkCustomizationConfig {
  cfg_name : string;
  options : list Option_;
}.

Record MenuItem := mkMenuItem {
  mi_id : ObjectId;
  mi_name : string;
  mi_restaurant : ObjectId;
  price : Number;
  customizations : list CustomizationConfig;
  preparationTime : Number;
  isAvailable : bool;
  discountPercentage : Number;
}.

(** A customization as it arrives in a request body: [selectedOptions]
    may be missing. *)
Record ReqCustomization := mkReqCustomization {
  rc_name : string;
  rc_selectedOptions : option (list string);
}.

(** The virtual [discountedPrice]. *)
Definition discountedPrice (this : MenuItem) : Number :=
  if (0 <? this.(discountPercentage))%float
  then (this.(price) * (1 - this.(discountPercentage) / 100))%float
  else this.(price).

(** The inner [forEach] of [calculatePrice]: every selected option
    that the configuration knows adds its price. *)
Definition addSelectedOptions (config : CustomizationConfig)
    (selected : list string) (totalPrice : Number) : Number :=
  fold_left
    (fun acc optionName =>
       match find (fun o => String.eqb o.(opt_name) optionName) config.(options) with
       | Some option => (acc + option.(opt_price))%float
       | None => acc
       end)
    selected totalPrice.

(** The outer [forEach] of [calculatePrice], threading [totalPrice]. *)
Fixpoint addCustomizations (this : MenuItem) (cs : list ReqCustomization)
    (totalPrice : Number) : result Number :=
  match cs with
  | [] => Ret totalPrice
  | customization :: rest =>
      match find (fun c => String.eqb c.(cfg_name) customization.(rc_name))
                 this.(customizations) with
      | Some customizationConfig =>
          match customization.(rc_selectedOptions) with
          | Some selected =>
              addCustomizations this rest
                (addSelectedOptions customizationConfig selected totalPrice)
          | None =>
              Throw (TypeError "Cannot read properties of undefined (reading 'forEach')")
          end
      | None => addCustomizations this rest totalPrice
      end
  end.

(** [menuItemSchema.methods.calculatePrice]. *)
Definition calculatePrice (this : MenuItem) (cs : list ReqCustomization)
    : result Number :=
  totalPrice <- addCustomizations this cs (discountedPrice this) ;;
  Ret (Math_round (totalPrice * 100) / 100)%float.

(* ================================================================= *)
(** ** The database, requests and responses *)

Inductive Role := role_customer | role_restaurant | role_delivery | role_admin.

Definition Role_eqb (a b : Role) : bool :=
  match a, b with
  | role_customer, role_customer | role_restaurant, role_restaurant
  | role_delivery, role_delivery | role_admin, role_admin => true
  | _, _ => false
  end.

(** [req.user] as the handlers read it. *)
Record User := mkUser {
  u_id : ObjectId;
  role : Role;
  restaurantId : option string;
}.

Record DB := mkDB {
  orders : list Order;
  restaurants : list Restaurant;
  menuItems : list MenuItem;
}.

Definition with_orders (v : list Order) (db : DB) : DB :=
  mkDB v db.(restaurants) db.(menuItems).

(** [Order.findById(id)]. *)
Definition Order_findById (db : DB) (id : ObjectId) : option Order :=
  find (fun o => String.eqb o.(_id) id) db.(orders).

(** The filter [{'payment.stripePaymentIntentId': intent}]. *)
Definition byIntent (intent : string) (o : Order) : bool :=
  match o.(payment).(stripePaymentIntentId) with
  | Some i => String.eqb i intent
  | None => false
  end.

(** [Order.findOne({'payment.stripePaymentIntentId': intent})]. *)
Definition Order_findByIntent (db : DB) (intent : string) : option Order :=
  find (byIntent intent) db.(orders).

Definition Restaurant_findById (db : DB) (id : ObjectId) : option Restaurant :=
  find (fun r => String.eqb r.(r_id) id) db.(restaurants).

(** [Restaurant.findOne({ owner })]. *)
Definition Restaurant_findByOwner (db : DB) (owner : ObjectId) : option Restaurant :=
  find (fun r => String.eqb r.(r_owner) owner) db.(restaurants).

Definition MenuItem_findById (db : DB) (id : ObjectId) : option MenuItem :=
  find (fun m => String.eqb m.(mi_id) id) db.(menuItems).

(** Writing a document back: the stored document with the same [_id]
    is replaced. *)
Definition replace_order (o : Order) (os : list Order) : list Order :=
  map (fun o' => if String.eqb o'.(_id) o.(_id) then o else o') os.

(** The JSON envelope [{success, message, data}] with its HTTP status;
    [res_order] is the order the response carries, if any. *)
Record Response := mkResponse {
  http_status : nat;
  success : bool;
  message : string;
  res_order : option Order;
}.

Definition fail (code : nat) (msg : string) : Response :=
  mkResponse code false msg None.

Definition ok (code : nat) (msg : string) (o : option Order) : Response :=
  mkResponse code true msg o.

(** A request: the user the bearer token identifies (if any), the
    [:id] route parameter and the parsed body. *)
Record Request (B : Type) := mkRequest {
  req_user : option User;
  params_id : string;
  body : B;
}.
Arguments mkRequest {B} _ _ _.
Arguments req_user {B} _.
Arguments params_id {B} _.
Arguments body {B} _.

(** Truthiness of an optional string ([if (notes)]). *)
Definition truthy (s : option string) : bool :=
  match s with
  | Some v => negb (String.eqb v "")
  | None => false
  end.

(** express-validator's [isIn]: the field is present and its value is
    one of the allowed strings. *)
Definition isIn (v : option string) (allowed : list string) : bool :=
  match v with
  | Some s => existsb (String.eqb s) allowed
  | None => false
  end.

(** Modelled from the spec: [middleware/auth.js] ([protect] and
    [authorize]) is not among the sources.  Every mutating endpoint
    requires a bearer token identifying the acting user, and
    authorization checks the user's role against the roles the route
    names. *)
Definition protect {B} (req : Request B) : option User := req.(req_user).

Definition authorize (roles : list Role) (user : User) : bool :=
  existsb (Role_eqb user.(role)) roles.

Definition notAuthenticated : Response := fail 401 "Not authorized".
Definition notAuthorized : Response := fail 403 "Not authorized for this role".
Definition validationFailed : Response := fail 400 "Validation failed".

(** What the payment processor returns for a refund. *)
Record StripeRefund := mkStripeRefund {
  refund_id : string;
  refund_payment_intent : string;
  refund_amount : Number;      (* in cents *)
}.

Record Charge := mkCharge { charge_id : string }.

(** A payment intent as the webhook receives it; [charges_data] is
    [paymentIntent.charges.data], absent when the event carries no
    charge list. *)
Record PaymentIntent := mkPaymentIntent {
  pi_id : string;
  charges_data : option (list Charge);
}.

Inductive StripeEvent :=
| payment_intent_succeeded (paymentIntent : PaymentIntent)
| payment_intent_payment_failed (paymentIntent : PaymentIntent)
| refund_created (refund : StripeRefund)
| other_event (type : string).

(** The host and the services the handlers call. *)
Class Host := {
  Number_toString : Number -> string;            (* Number::toString *)
  new_Date : Number -> Date;                     (* new Date(timeValue) *)
  Math_sin : Number -> Number;
  Math_cos : Number -> Number;
  Math_atan2 : Number -> Number -> Number;
  (** [stripe.refunds.create({payment_intent, amount, ...})]. *)
  stripe_refunds_create : option string -> option Number -> result StripeRefund;
}.

Section Runtime.

Context {host : Host}.

Definition Math_PI : Number := 3.141592653589793%float.

(** [restaurantSchema.methods.distanceFrom]. *)
Definition distanceFrom (this : Restaurant) (lat_ lng_ : Number) : Number :=
  let R := 6371%float in
  let here := this.(r_coordinates) in
  let dLat := ((lat_ - here.(lat)) * Math_PI / 180)%float in
  let dLng := ((lng_ - here.(lng)) * Math_PI / 180)%float in
  let a :=
    (Math_sin (dLat / 2) * Math_sin (dLat / 2) +
     Math_cos (here.(lat) * Math_PI / 180) * Math_cos (lat_ * Math_PI / 180) *
     Math_sin (dLng / 2) * Math_sin (dLng / 2))%float in
  let c := (2 * Math_atan2 (sqrt a) (sqrt (1 - a)))%float in
  (R * c)%float.

(** [restaurantSchema.methods.deliversTo]. *)
Definition deliversTo (this : Restaurant) (lat_ lng_ : Number) : bool :=
  (distanceFrom this lat_ lng_ <=? this.(deliveryRadius))%float.

(** [orderSchema.methods.calculateEstimatedDeliveryTime];
    [x || 30] takes 30 when [x] is 0 or NaN. *)
Definition calculateEstimatedDeliveryTime (this : Order) (now : Date) : Date :=
  let ept := this.(estimatedPreparationTime) in
  let preparationTime :=
    if PrimFloat.is_nan ept || PrimFloat.is_zero ept then 30%float else ept in
  let deliveryTime :=
    match this.(orderType) with delivery => 20%float | pickup => 0%float end in
  new_Date (now.(getTime) + (preparationTime + deliveryTime) * 60000)%float.

(** First [pre('save')] hook: a new order gets its order number from
    the current time and the number of stored orders. *)
Definition pre_save_orderNumber (now : Date) (count : nat) (d : Doc) : Doc :=
  if d.(isNew)
  then modify (with_orderNumber
                 ("FH" ++ slice_last 6 (Number_toString now.(getTime))
                       ++ padStart0 3 (Number_toString (Number_of_nat count + 1)%float)))
              d
  else d.

(** The entry the second [pre('save')] hook pushes for a status [v]. *)
Definition hookEntry (now : Date) (v : Status) : TimelineEntry :=
  mkTimelineEntry (Status_str v) now
    ("Order status changed to " ++ Status_str v) None.

(** Second [pre('save')] hook: "Add timeline entry when status
    changes". *)
Definition pre_save_timeline (now : Date) (d : Doc) : Doc :=
  if d.(isModified_status) && negb d.(isNew)
  then timeline_push (hookEntry now d.(doc_order).(status)) d
  else d.

(** Validation, which [save] runs before the [pre('save')] hooks.  A
    new document is checked against the required paths of the schema;
    [orderNumber] is one of them, and it is what decides: the only
    place that assigns it is the first hook, which runs afterwards.
    The collection holds documents that satisfy the schema, and the
    handlers write to a loaded document only values its validators
    admit (members of the enums, strings, dates, Numbers), so a loaded
    document passes. *)
Definition validate (d : Doc) : result unit :=
  if d.(isNew) && String.eqb d.(doc_order).(orderNumber) ""
  then Throw (ValidationError
                "Order validation failed: orderNumber: Path `orderNumber` is required.")
  else Ret tt.

(** What [save] does once validation has passed: the hooks run in the
    order of their registration, then the document is inserted or
    written back.  Returns the document as stored. *)
Definition persist (now : Date) (d : Doc) (db : DB) : Order * DB :=
  let d1 := pre_save_orderNumber now (List.length db.(orders)) d in
  let d2 := pre_save_timeline now d1 in
  let o := d2.(doc_order) in
  (o, if d.(isNew)
      then with_orders (db.(orders) ++ [o]) db
      else with_orders (replace_order o db.(orders)) db).

(** [await doc.save()]: rejects with the validation error, or runs the
    hooks and stores the document. *)
Definition save (now : Date) (d : Doc) (db : DB) : result (Order * DB) :=
  bind (validate d) (fun _ => Ret (persist now d db)).

(* --------------------------------------------------------------- *)
(** *** routes/orders.js: PUT /api/orders/:id/status *)

Record StatusBody := mkStatusBody {
  sb_status : option string;
  sb_notes : option string;
}.

Definition restaurantStatuses : list string :=
  ["confirmed"; "preparing"; "ready_for_pickup"; "cancelled"].

(** The part of a status handler after the order has been loaded and
    the caller admitted: write the status and notes, push the
    handler's timeline entry, save. *)
Definition applyStatus (now : Date) (db : DB) (user : User) (order : Order)
    (v : Status) (notes : option string) (msg : string) : result (Order * DB) :=
  let d := set_status v (hydrate order) in
  let d := if truthy notes then modify (with_restaurantNotes notes) d else d in
  let d := timeline_push (mkTimelineEntry (Status_str v) now msg (Some user.(u_id))) d in
  save now d db.

Definition updateOrderStatus (now : Date) (db : DB) (req : Request StatusBody)
    : Response * DB :=
  match protect req with
  | None => (notAuthenticated, db)
  | Some user =>
  if negb (authorize [role_restaurant; role_admin] user) then (notAuthorized, db)
  else if negb (isIn req.(body).(sb_status) restaurantStatuses)
  then (validationFailed, db)
  else
  match Order_findById db req.(params_id) with
  | None => (fail 404 "Order not found", db)
  | Some order =>
  let denied :=
    Role_eqb user.(role) role_restaurant &&
    match Restaurant_findByOwner db user.(u_id) with
    | None => true
    | Some owned => negb (String.eqb order.(restaurant) owned.(r_id))
    end in
  if denied then (fail 403 "Access denied", db)
  else
  match req.(body).(sb_status) with
  | None => (fail 500 "Failed to update order status", db)
  | Some s =>
  match Status_of_string s with
  | None => (fail 500 "Failed to update order status", db)
  | Some v =>
      match applyStatus now db user order v req.(body).(sb_notes)
              ("Order status updated to " ++ s) with
      | Throw _ => (fail 500 "Failed to update order status", db)
      | Ret (saved, db') =>
          (ok 200 "Order status updated successfully" (Some saved), db')
      end
  end end end end.

(* --------------------------------------------------------------- *)
(** *** admin routes: PUT /api/admin/orders/:id/status *)

Definition adminStatuses : list string :=
  ["pending"; "confirmed"; "preparing"; "ready_for_pickup";
   "picked_up"; "on_the_way"; "delivered"; "cancelled"; "refunded"].

Definition adminUpdateOrderStatus (now : Date) (db : DB) (req : Request StatusBody)
    : Response * DB :=
  match protect req with
  | None => (notAuthenticated, db)
  | Some user =>
  if negb (authorize [role_admin] user) then (notAuthorized, db)
  else if negb (isIn req.(body).(sb_status) adminStatuses)
  then (validationFailed, db)
  else
  match Order_findById db req.(params_id) with
  | None => (fail 404 "Order not found", db)
  | Some order =>
  match req.(body).(sb_status) with
  | None => (fail 500 "Failed to update order status", db)
  | Some s =>
  match Status_of_string s with
  | None => (fail 500 "Failed to update order status", db)
  | Some v =>
      match applyStatus now db user order v req.(body).(sb_notes)
              ("Order status updated to " ++ s ++ " by admin") with
      | Throw _ => (fail 500 "Failed to update order status", db)
      | Ret (saved, db') =>
          (ok 200 "Order status updated successfully" (Some saved), db')
      end
  end end end end.

(* --------------------------------------------------------------- *)
(** *** routes/orders.js: PUT /api/orders/:id/assign-delivery *)

Definition assignDelivery (now : Date) (db : DB) (req : Request unit)
    : Response * DB :=
  match protect req with
  | None => (notAuthenticated, db)
  | Some user =>
  if negb (authorize [role_admin; role_delivery] user) then (notAuthorized, db)
  else
  match Order_findById db req.(params_id) with
  | None => (fail 404 "Order not found", db)
  | Some order =>
  if negb (OrderType_eqb order.(orderType) delivery)
  then (fail 400 "This is not a delivery order", db)
  else if negb (Status_eqb order.(status) ready_for_pickup)
  then (fail 400 "Order is not ready for pickup", db)
  else
  match order.(deliveryTracking) with
  | None =>
      (* writing a property of [undefined] throws *)
      (fail 500 "Failed to assign delivery person", db)
  | Some t =>
      let t' :=
        mkDeliveryTracking trk_assigned (Some user.(u_id))
          (Some (new_Date (now.(getTime) + 20 * 60000)%float))
          t.(dt_actualDeliveryTime) t.(dt_currentLocation)
          t.(dt_deliveryNotes) t.(dt_deliveryPhoto) in
      let d := modify (with_deliveryTracking (Some t')) (hydrate order) in
      let d := set_status picked_up d in
      let d := timeline_push
                 (mkTimelineEntry "assigned_delivery" now
                    "Delivery person assigned" (Some user.(u_id))) d in
      match save now d db with
      | Throw _ => (fail 500 "Failed to assign delivery person", db)
      | Ret (_, db') => (ok 200 "Delivery person assigned successfully" None, db')
      end
  end end end.

(* --------------------------------------------------------------- *)
(** *** routes/orders.js: PUT /api/orders/:id/delivery-status *)

Record DeliveryBody := mkDeliveryBody {
  db_status : option string;
  db_location : option Coordinates;
  db_notes : option string;
  db_deliveryPhoto : option string;
}.

Definition deliveryStatuses : list string :=
  ["picked_up"; "on_the_way"; "delivered"].

Definition updateDeliveryStatus (now : Date) (db : DB) (req : Request DeliveryBody)
    : Response * DB :=
  let failed := (fail 500 "Failed to update delivery status", db) in
  match protect req with
  | None => (notAuthenticated, db)
  | Some user =>
  if negb (authorize [role_delivery] user) then (notAuthorized, db)
  else if negb (isIn req.(body).(db_status) deliveryStatuses)
  then (validationFailed, db)
  else
  match Order_findById db req.(params_id) with
  | None => (fail 404 "Order not found", db)
  | Some order =>
  match order.(deliveryTracking) with
  | None => failed
  | Some t =>
  match t.(dt_deliveryPerson) with
  | None => failed
  | Some person =>
  if negb (String.eqb person user.(u_id))
  then (fail 403 "You are not assigned to this order", db)
  else
  match req.(body).(db_status) with
  | None => failed
  | Some s =>
  match Status_of_string s with
  | None => failed
  | Some v =>
  match TrackingStatus_of v with
  | None => failed
  | Some tv =>
      let isDelivered := Status_eqb v delivered in
      let t' :=
        mkDeliveryTracking tv t.(dt_deliveryPerson)
          t.(dt_estimatedDeliveryTime)
          (if isDelivered then Some now else t.(dt_actualDeliveryTime))
          (match req.(body).(db_location) with
           | Some l => Some (mkLocation l.(lat) l.(lng) now)
           | None => t.(dt_currentLocation)
           end)
          (if truthy req.(body).(db_notes) then req.(body).(db_notes)
           else t.(dt_deliveryNotes))
          (if truthy req.(body).(db_deliveryPhoto) then req.(body).(db_deliveryPhoto)
           else t.(dt_deliveryPhoto)) in
      let d := modify (with_deliveryTracking (Some t')) (hydrate order) in
      let d := set_status v d in
      let d := if isDelivered
               then modify (with_actualDeliveryTime (Some now)) d else d in
      let d := timeline_push
                 (mkTimelineEntry s now ("Delivery status: " ++ s)
                    (Some user.(u_id))) d in
      match save now d db with
      | Throw _ => failed
      | Ret (_, db') => (ok 200 "Delivery status updated successfully" None, db')
      end
  end end end end end end end.

(* --------------------------------------------------------------- *)
(** *** routes/orders.js: PUT /api/orders/:id/cancel *)

Record CancelBody := mkCancelBody {
  cb_reason : option string;
}.

Definition canCancel (user : User) (order : Order) : bool :=
  String.eqb order.(customer) user.(u_id)
  || Role_eqb user.(role) role_admin
  || (Role_eqb user.(role) role_restaurant &&
      match user.(restaurantId) with
      | Some rid => String.eqb order.(restaurant) rid
      | None => false
      end).

Definition cancelOrder (now : Date) (db : DB) (req : Request CancelBody)
    : Response * DB :=
  match protect req with
  | None => (notAuthenticated, db)
  | Some user =>
  match req.(body).(cb_reason) with
  | None => (validationFailed, db)
  | Some reason =>
  if String.eqb reason "" then (validationFailed, db)
  else
  match Order_findById db req.(params_id) with
  | None => (fail 404 "Order not found", db)
  | Some order =>
  if negb (canCancel user order) then (fail 403 "Access denied", db)
  else if negb (canBeCancelled order)
  then (fail 400 "Order cannot be cancelled at this stage", db)
  else
    let d := set_status cancelled (hydrate order) in
    let d := modify (with_cancellation (Some reason) (Some user.(u_id)) (Some now)) d in
    let d := timeline_push
               (mkTimelineEntry "cancelled" now ("Order cancelled: " ++ reason)
                  (Some user.(u_id))) d in
    match save now d db with
    | Throw _ => (fail 500 "Failed to cancel order", db)
    | Ret (_, db') => (ok 200 "Order cancelled successfully" None, db')
    end
  end end end.

(* --------------------------------------------------------------- *)
(** *** payment routes: POST /api/payments/refund *)

Record RefundBody := mkRefundBody {
  rb_orderId : option string;
  rb_amount : option Number;
  rb_reason : option string;
}.

Definition canRefund (user : User) (order : Order) : bool :=
  String.eqb order.(customer) user.(u_id) || Role_eqb user.(role) role_admin.

(** [amount ? Math.round(amount * 100) : undefined]. *)
Definition refundAmountCents (amount : option Number) : option Number :=
  match amount with
  | Some a =>
      if PrimFloat.is_nan a || PrimFloat.is_zero a then None
      else Some (Math_round (a * 100)%float)
  | None => None
  end.

Definition processRefund (now : Date) (db : DB) (req : Request RefundBody)
    : Response * DB :=
  match protect req with
  | None => (notAuthenticated, db)
  | Some user =>
  match req.(body).(rb_orderId) with
  | None => (validationFailed, db)
  | Some orderId =>
  if String.eqb orderId "" then (validationFailed, db)
  else
  match Order_findById db orderId with
  | None => (fail 404 "Order not found", db)
  | Some order =>
  if negb (canRefund user order) then (fail 403 "Access denied", db)
  else if negb (PaymentStatus_eqb order.(payment).(pay_status) pay_completed)
  then (fail 400 "Cannot refund unpaid order", db)
  else
  match stripe_refunds_create order.(payment).(stripePaymentIntentId)
          (refundAmountCents req.(body).(rb_amount)) with
  | Throw _ => (fail 500 "Failed to process refund", db)
  | Ret refund =>
      let p := order.(payment) in
      let p' := mkPayment p.(pay_method) pay_refunded p.(stripePaymentIntentId)
                  p.(stripeChargeId) p.(paidAt) (Some now)
                  (Some (refund.(refund_amount) / 100)%float) in
      let d := modify (with_payment p') (hydrate order) in
      let d := set_status refunded d in
      let d := modify (with_refund req.(body).(rb_reason) (Some user.(u_id))) d in
      let d := timeline_push
                 (mkTimelineEntry "refunded" now
                    ("Refund processed: $" ++
                     Number_toString (refund.(refund_amount) / 100)%float)
                    (Some user.(u_id))) d in
      match save now d db with
      | Throw _ => (fail 500 "Failed to process refund", db)
      | Ret (_, db') => (ok 200 "Refund processed successfully" None, db')
      end
  end end end end.

(* --------------------------------------------------------------- *)
(** *** payment routes: POST /api/payments/webhook and its helpers *)

Definition handlePaymentSuccess (now : Date) (db : DB)
    (paymentIntent : PaymentIntent) : result DB :=
  match Order_findByIntent db paymentIntent.(pi_id) with
  | None => Ret db
  | Some order =>
      match paymentIntent.(charges_data) with
      | None =>
          Throw (TypeError "Cannot read properties of undefined (reading 'data')")
      | Some data =>
          let p := order.(payment) in
          let p' := mkPayment p.(pay_method) pay_completed
                      p.(stripePaymentIntentId)
                      (match data with
                       | c :: _ => Some c.(charge_id)
                       | [] => None
                       end)
                      (Some now) p.(refundedAt) p.(refundAmount) in
          let d := modify (with_payment p') (hydrate order) in
          let d := if Status_eqb order.(status) pending
                   then set_status confirmed d else d in
          bind (save now d db) (fun saved => Ret (snd saved))
      end
  end.

Definition handlePaymentFailure (now : Date) (db : DB)
    (paymentIntent : PaymentIntent) : result DB :=
  match Order_findByIntent db paymentIntent.(pi_id) with
  | None => Ret db
  | Some order =>
      let p := order.(payment) in
      let p' := mkPayment p.(pay_method) pay_failed p.(stripePaymentIntentId)
                  p.(stripeChargeId) p.(paidAt) p.(refundedAt) p.(refundAmount) in
      let d := modify (with_payment p') (hydrate order) in
      let d := set_status cancelled d in
      let d := modify (fun o => with_cancellation (Some "Payment failed")
                                  o.(cancelledBy) o.(cancelledAt) o) d in
      bind (save now d db) (fun saved => Ret (snd saved))
  end.

Definition handleRefundCreated (now : Date) (db : DB)
    (refund : StripeRefund) : result DB :=
  match Order_findByIntent db refund.(refund_payment_intent) with
  | None => Ret db
  | Some order =>
      let p := order.(payment) in
      let p' := mkPayment p.(pay_method) pay_refunded p.(stripePaymentIntentId)
                  p.(stripeChargeId) p.(paidAt) (Some now)
                  (Some (refund.(refund_amount) / 100)%float) in
      let d := modify (with_payment p') (hydrate order) in
      let d := set_status refunded d in
      bind (save now d db) (fun saved => Ret (snd saved))
  end.

(** The webhook route; [constructed] is the outcome of
    [stripe.webhooks.constructEvent], which verifies the signature. *)
Definition webhook (now : Date) (db : DB) (constructed : result StripeEvent)
    : Response * DB :=
  match constructed with
  | Throw _ => (fail 400 "Webhook Error", db)
  | Ret event =>
      let handled :=
        match event with
        | payment_intent_succeeded paymentIntent =>
            handlePaymentSuccess now db paymentIntent
        | payment_intent_payment_failed failedPayment =>
            handlePaymentFailure now db failedPayment
        | refund_created refund =>
            handleRefundCreated now db refund
        | other_event _ => Ret db
        end in
      match handled with
      | Ret db' => (ok 200 "received" None, db')
      | Throw _ => (fail 500 "Webhook handler failed", db)
      end
  end.

(* --------------------------------------------------------------- *)
(** *** routes/orders.js: POST /api/orders *)

Record ReqItem := mkReqItem {
  ri_menuItem : ObjectId;
  ri_name : option string;
  ri_quantity : Number;
  ri_customizations : option (list ReqCustomization);
  ri_specialInstructions : option string;
}.

Record OrderBody := mkOrderBody {
  ob_restaurant : option string;
  ob_items : list ReqItem;
  ob_orderType : option string;
  ob_deliveryAddress : option Address;
  ob_customerNotes : option string;
  ob_scheduledFor : option Date;
  ob_promoCode : option PromoCode;
}.

Definition OrderType_of_string (s : string) : option OrderType :=
  if String.eqb s "delivery" then Some delivery
  else if String.eqb s "pickup" then Some pickup
  else None.

(** A step of a handler body: go on with a value, [return] a
    response, or throw. *)
Inductive step (A : Type) :=
| Continue (a : A)
| Respond (r : Response)
| Raise (e : JsError).
Arguments Continue {A} a.
Arguments Respond {A} r.
Arguments Raise {A} e.

(** The three variables the item loop updates. *)
Record ItemsAcc := mkItemsAcc {
  acc_subtotal : Number;
  acc_totalPreparationTime : Number;
  acc_validatedItems : list OrderItem;
}.

Definition storedCustomization (c : ReqCustomization) : Customization :=
  mkCustomization c.(rc_name)
    (match c.(rc_selectedOptions) with Some l => l | None => [] end).

(** [item.customizations || []]. *)
Definition customizationsOf (item : ReqItem) : list ReqCustomization :=
  match item.(ri_customizations) with Some l => l | None => [] end.

(** The loop [for (const item of items)] ("Validate and calculate
    items"). *)
Fixpoint validateItems (db : DB) (restaurantId : string)
    (items : list ReqItem) (acc : ItemsAcc) : step ItemsAcc :=
  match items with
  | [] => Continue acc
  | item :: rest =>
      let unavailable :=
        Respond (fail 400 ("Menu item " ++
                           (if truthy item.(ri_name)
                            then match item.(ri_name) with Some n => n | None => "" end
                            else "unknown") ++ " is not available")) in
      match MenuItem_findById db item.(ri_menuItem) with
      | None => unavailable
      | Some menuItem =>
          if negb menuItem.(isAvailable) then unavailable
          else if negb (String.eqb menuItem.(mi_restaurant) restaurantId)
          then Respond (fail 400 ("Menu item " ++ menuItem.(mi_name) ++
                                  " does not belong to this restaurant"))
          else
            match calculatePrice menuItem (customizationsOf item) with
            | Throw e => Raise e
            | Ret itemPrice =>
                let itemSubtotal := (itemPrice * item.(ri_quantity))%float in
                validateItems db restaurantId rest
                  (mkItemsAcc
                     (acc.(acc_subtotal) + itemSubtotal)%float
                     (Math_max acc.(acc_totalPreparationTime) menuItem.(preparationTime))
                     (acc.(acc_validatedItems) ++
                      [mkOrderItem menuItem.(mi_id) menuItem.(mi_name) itemPrice
                         item.(ri_quantity)
                         (map storedCustomization (customizationsOf item))
                         (match item.(ri_specialInstructions) with
                          | Some s => s | None => "" end)
                         itemSubtotal]))
            end
      end
  end.

(** "Calculate pricing". *)
Definition computePricing (subtotal : Number) (orderType : OrderType)
    (rst : Restaurant) (promoCode : option PromoCode) : Pricing :=
  let tax := (subtotal * 0.08)%float in
  let deliveryFee :=
    match orderType with delivery => rst.(r_deliveryFee) | pickup => 0%float end in
  let serviceFee := (subtotal * 0.02)%float in
  let discount :=
    match promoCode with
    | Some pc =>
        if String.eqb pc.(promo_code) "WELCOME10" then (subtotal * 0.1)%float
        else 0%float
    | None => 0%float
    end in
  let total := (subtotal + tax + deliveryFee + serviceFee - discount)%float in
  mkPricing subtotal tax deliveryFee serviceFee 0%float discount total.

(** "Validate delivery address if delivery order": the response that
    ends the request, if any. *)
Definition checkDeliveryAddress (rst : Restaurant) (orderType : OrderType)
    (deliveryAddress : option Address) : option Response :=
  match orderType with
  | pickup => None
  | delivery =>
      let required :=
        Some (fail 400 "Valid delivery address with coordinates is required") in
      match deliveryAddress with
      | None => required
      | Some a =>
          match a.(addr_coordinates) with
          | None => required
          | Some c =>
              if negb (deliversTo rst c.(lat) c.(lng))
              then Some (fail 400 "Restaurant does not deliver to this location")
              else None
          end
      end
  end.

(** [new Order({...})]: the document the handler builds from the
    request once the item loop and the minimum-order check have
    passed; it has no [orderNumber] yet. *)
Definition newOrder (fresh : ObjectId) (user : User) (rst : Restaurant)
    (restaurantId : string) (orderType : OrderType) (b : OrderBody)
    (acc : ItemsAcc) : Order :=
  mkOrder fresh "" user.(u_id) restaurantId acc.(acc_validatedItems)
    pending orderType
    (match orderType with delivery => b.(ob_deliveryAddress) | pickup => None end)
    (computePricing acc.(acc_subtotal) orderType rst b.(ob_promoCode))
    (mkPayment card pay_pending None None None None None)
    None [] acc.(acc_totalPreparationTime) None None
    b.(ob_customerNotes) None b.(ob_promoCode)
    (match b.(ob_scheduledFor) with Some _ => true | None => false end)
    b.(ob_scheduledFor) None None None None None.

(** The body of the handler from the delivery-address check on, for
    a restaurant that passed the activity and opening-hours checks;
    [fresh] is the [_id] the new document receives. *)
Definition placeOrder (now : Date) (fresh : ObjectId) (db : DB) (user : User)
    (rst : Restaurant) (restaurantId : string) (orderType : OrderType)
    (b : OrderBody) : Response * DB :=
  match checkDeliveryAddress rst orderType b.(ob_deliveryAddress) with
  | Some r => (r, db)
  | None =>
  match validateItems db restaurantId b.(ob_items)
          (mkItemsAcc 0%float 0%float []) with
  | Respond r => (r, db)
  | Raise _ => (fail 500 "Failed to create order", db)
  | Continue acc =>
  let subtotal := acc.(acc_subtotal) in
  if (subtotal <? rst.(minimumOrder))%float
  then (fail 400 ("Minimum order amount is $" ++ Number_toString rst.(minimumOrder)), db)
  else
    let order := newOrder fresh user rst restaurantId orderType b acc in
    let d := mkDoc order true true in
    let d := modify (with_estimatedDeliveryTime
                       (Some (calculateEstimatedDeliveryTime order now))) d in
    match save now d db with
    | Throw _ => (fail 500 "Failed to create order", db)
    | Ret (saved, db') => (ok 201 "Order created successfully" (Some saved), db')
    end
  end end.

Definition createOrder (now : Date) (fresh : ObjectId) (db : DB)
    (req : Request OrderBody) : Response * DB :=
  match protect req with
  | None => (notAuthenticated, db)
  | Some user =>
  let b := req.(body) in
  let valid :=
    truthy b.(ob_restaurant)
    && negb (Nat.eqb (List.length b.(ob_items)) 0)
    && isIn b.(ob_orderType) ["delivery"; "pickup"]
    && (if isIn b.(ob_orderType) ["delivery"]
        then match b.(ob_deliveryAddress) with Some _ => true | None => false end
        else true) in
  if negb valid then (validationFailed, db)
  else
  match b.(ob_restaurant), b.(ob_orderType) with
  | Some restaurantId, Some ot =>
      match OrderType_of_string ot with
      | None => (validationFailed, db)
      | Some orderType =>
      match Restaurant_findById db restaurantId with
      | None => (fail 404 "Restaurant not found or inactive", db)
      | Some rst =>
          if negb rst.(isActive)
          then (fail 404 "Restaurant not found or inactive", db)
          else
            match isCurrentlyOpen rst now with
            | Throw _ => (fail 500 "Failed to create order", db)
            | Ret false => (fail 400 "Restaurant is currently closed", db)
            | Ret true =>
                placeOrder now fresh db user rst restaurantId orderType b
            end
      end end
  | _, _ => (validationFailed, db)
  end end.

End Runtime.

Arguments Continue {A} a.
Arguments Respond {A} r.
Arguments Raise {A} e.

(* ================================================================= *)
(** ** Further routes on orders *)

(** What [stripe.paymentIntents.retrieve] returns, as far as the
    confirm route reads it. *)
Record RetrievedIntent := mkRetrievedIntent {
  intent_status : string;
}.

(** The [rating] sub-document of a rated order. *)
Record Rating := mkRating {
  rt_food : Z;
  rt_delivery : option Z;
  rt_overall : Z;
  rt_comment : option string;
  ratedAt : Date;
}.

(** The [rating] path of a restaurant. *)
Record RestaurantRating := mkRestaurantRating {
  rating_average : Number;
  rating_count : nat;
}.

(** A path kept per document: the first entry for a key counts. *)
Definition getKey {V} (k : ObjectId) (l : list (ObjectId * V)) : option V :=
  option_map snd (find (fun p => String.eqb (fst p) k) l).

Definition setKey {V} (k : ObjectId) (v : V) (l : list (ObjectId * V))
    : list (ObjectId * V) :=
  (filter (fun p => negb (String.eqb (fst p) k)) l ++ [(k, v)])%list.

(** The database together with the [rating] paths of its orders and
    restaurants. *)
Record RatedDB := mkRatedDB {
  base : DB;
  orderRatings : list (ObjectId * Rating);
  restaurantRatings : list (ObjectId * RestaurantRating);
}.

(** The body of a rating request: each score is the integer the field
    holds, if it holds one. *)
Record RateBody := mkRateBody {
  rate_food : option Z;
  rate_delivery : option Z;
  rate_overall : option Z;
  rate_comment : option string;
}.

(** [isInt({ min: 1, max: 5 })]. *)
Definition isScore (z : Z) : bool := (1 <=? z)%Z && (z <=? 5)%Z.

(** An integer as a Number (exact below 2^53 in magnitude). *)
Definition Number_of_Z (z : Z) : Number :=
  if (z <? 0)%Z then (- of_uint63 (Uint63.of_Z (- z)))%float
  else of_uint63 (Uint63.of_Z z).

Section PaymentsAndRatings.

Context {host : Host}.

(** *** payment routes: POST /api/payments/confirm/:paymentIntentId

    [retrieved] is the outcome of [stripe.paymentIntents.retrieve];
    the route parameter is the payment-intent id. *)
Definition confirmPayment (now : Date) (db : DB) (req : Request unit)
    (retrieved : result (option RetrievedIntent)) : Response * DB :=
  match protect req with
  | None => (notAuthenticated, db)
  | Some user =>
  match retrieved with
  | Throw _ => (fail 500 "Failed to confirm payment", db)
  | Ret None => (fail 404 "Payment intent not found", db)
  | Ret (Some paymentIntent) =>
  match Order_findByIntent db req.(params_id) with
  | None => (fail 404 "Order not found", db)
  | Some order =>
  if negb (String.eqb order.(customer) user.(u_id))
  then (fail 403 "Access denied", db)
  else
    let p := order.(payment) in
    let d := hydrate order in
    let d :=
      if String.eqb paymentIntent.(intent_status) "succeeded" then
        let d := modify (with_payment
                           (mkPayment p.(pay_method) pay_completed
                              p.(stripePaymentIntentId) p.(stripeChargeId)
                              (Some now) p.(refundedAt) p.(refundAmount))) d in
        let d := set_status confirmed d in
        timeline_push
          (mkTimelineEntry "payment_completed" now
             "Payment completed successfully" None) d
      else if String.eqb paymentIntent.(intent_status) "requires_action" then
        modify (with_payment
                  (mkPayment p.(pay_method) pay_processing
                     p.(stripePaymentIntentId) p.(stripeChargeId)
                     p.(paidAt) p.(refundedAt) p.(refundAmount))) d
      else
        modify (with_payment
                  (mkPayment p.(pay_method) pay_failed
                     p.(stripePaymentIntentId) p.(stripeChargeId)
                     p.(paidAt) p.(refundedAt) p.(refundAmount))) d in
    match save now d db with
    | Throw _ => (fail 500 "Failed to confirm payment", db)
    | Ret (_, db') => (ok 200 "" None, db')
    end
  end end end.


(** *** routes/orders.js: PUT /api/orders/:id/rate

    The [Order] and [Restaurant] records above leave the [rating]
    paths out; here they are kept beside the database, keyed by the
    document's [_id].  An order has an entry once its [rating.ratedAt]
    is set. *)
Definition rateOrder (now : Date) (rdb : RatedDB) (req : Request RateBody)
    : Response * RatedDB :=
  match protect req with
  | None => (notAuthenticated, rdb)
  | Some user =>
  let b := req.(body) in
  let valid :=
    match b.(rate_food) with Some f => isScore f | None => false end
    && match b.(rate_delivery) with Some d => isScore d | None => true end
    && match b.(rate_overall) with Some o => isScore o | None => false end
    && match b.(rate_comment) with
       | Some c => Nat.leb (String.length c) 500
       | None => true
       end in
  if negb valid then (validationFailed, rdb)
  else
  match Order_findById rdb.(base) req.(params_id) with
  | None => (fail 404 "Order not found", rdb)
  | Some order =>
  if negb (String.eqb order.(customer) user.(u_id))
  then (fail 403 "Only the customer can rate the order", rdb)
  else if negb (Status_eqb order.(status) delivered)
  then (fail 400 "Can only rate completed orders", rdb)
  else
  match getKey order.(_id) rdb.(orderRatings) with
  | Some _ => (fail 400 "Order has already been rated", rdb)
  | None =>
  match b.(rate_food), b.(rate_overall) with
  | Some food, Some overall =>
      let rating :=
        mkRating food
          (match order.(orderType) with
           | delivery => b.(rate_delivery)
           | pickup => None
           end)
          overall b.(rate_comment) now in
      match save now (hydrate order) rdb.(base) with
      | Throw _ => (fail 500 "Failed to rate order", rdb)
      | Ret (_, db1) =>
      let ratings1 := setKey order.(_id) rating rdb.(orderRatings) in
      let rated :=
        filter (fun o => String.eqb o.(restaurant) order.(restaurant)
                         && match getKey o.(_id) ratings1 with
                            | Some _ => true
                            | None => false
                            end)
          db1.(orders) in
      let restaurantRatings1 :=
        match Restaurant_findById db1 order.(restaurant) with
        | Some rst =>
            let totalOrders := List.length rated in
            let avgRating :=
              match rated with
              | [] => None
              | _ =>
                  Some (Number_of_Z
                          (fold_left
                             (fun sum o =>
                                match getKey o.(_id) ratings1 with
                                | Some r => (sum + r.(rt_overall))%Z
                                | None => sum
                                end)
                             rated 0%Z)
                        / Number_of_nat totalOrders)%float
              end in
            setKey rst.(r_id)
              (mkRestaurantRating
                 (match avgRating with
                  | Some a =>
                      if PrimFloat.is_nan a || PrimFloat.is_zero a then 0%float else a
                  | None => 0%float
                  end)
                 totalOrders)
              rdb.(restaurantRatings)
        | None => rdb.(restaurantRatings)
        end in
      (ok 200 "Order rated successfully" None,
       mkRatedDB db1 ratings1 restaurantRatings1)
      end
  | _, _ => (validationFailed, rdb)
  end end end end.

End PaymentsAndRatings.

(* ================================================================= *)
(** ** routes/menu.js: the catalog routes that write *)

Definition with_isAvailable (v : bool) (m : MenuItem) : MenuItem :=
  mkMenuItem m.(mi_id) m.(mi_name) m.(mi_restaurant) m.(price)
    m.(customizations) m.(preparationTime) v m.(discountPercentage).

Definition with_isActive (v : bool) (r : Restaurant) : Restaurant :=
  mkRestaurant r.(r_id) r.(r_owner) r.(r_coordinates) r.(r_deliveryFee)
    r.(minimumOrder) r.(deliveryRadius) r.(operatingHours) v r.(isOpen).

Definition with_isOpen (v : bool) (r : Restaurant) : Restaurant :=
  mkRestaurant r.(r_id) r.(r_owner) r.(r_coordinates) r.(r_deliveryFee)
    r.(minimumOrder) r.(deliveryRadius) r.(operatingHours) r.(isActive) v.

(** [menuItem.save()] and [restaurant.save()]: the stored document
    with the same [_id] is replaced (these schemas have no hooks). *)
Definition saveMenuItem (m : MenuItem) (db : DB) : DB :=
  mkDB db.(orders) db.(restaurants)
    (map (fun m' => if String.eqb m'.(mi_id) m.(mi_id) then m else m') db.(menuItems)).

Definition saveRestaurant (r : Restaurant) (db : DB) : DB :=
  mkDB db.(orders)
    (map (fun r' => if String.eqb r'.(r_id) r.(r_id) then r else r') db.(restaurants))
    db.(menuItems).

(** [menuItem.restaurant.owner.toString() !== req.user._id.toString()]
    on an item loaded with [.populate('restaurant')]: the populated
    path is [null] when the restaurant is not stored. *)
Definition notItemOwner (db : DB) (user : User) (menuItem : MenuItem) : result bool :=
  match Restaurant_findById db menuItem.(mi_restaurant) with
  | Some rst => Ret (negb (String.eqb rst.(r_owner) user.(u_id)))
  | None => Throw (TypeError "Cannot read properties of null (reading 'owner')")
  end.

(** DELETE /api/menu/:id ("Soft delete - just mark as unavailable"). *)
Definition deleteMenuItem (db : DB) (req : Request unit) : Response * DB :=
  match protect req with
  | None => (notAuthenticated, db)
  | Some user =>
  if negb (authorize [role_restaurant; role_admin] user) then (notAuthorized, db)
  else
  match MenuItem_findById db req.(params_id) with
  | None => (fail 404 "Menu item not found", db)
  | Some menuItem =>
  let denied :=
    if Role_eqb user.(role) role_restaurant then notItemOwner db user menuItem
    else Ret false in
  match denied with
  | Throw _ => (fail 500 "Failed to delete menu item", db)
  | Ret true => (fail 403 "Access denied", db)
  | Ret false =>
      (ok 200 "Menu item deleted successfully" None,
       saveMenuItem (with_isAvailable false menuItem) db)
  end end end.

(** PUT /api/menu/:id/toggle-availability. *)
Definition toggleAvailability (db : DB) (req : Request unit) : Response * DB :=
  match protect req with
  | None => (notAuthenticated, db)
  | Some user =>
  if negb (authorize [role_restaurant] user) then (notAuthorized, db)
  else
  match MenuItem_findById db req.(params_id) with
  | None => (fail 404 "Menu item not found", db)
  | Some menuItem =>
  match notItemOwner db user menuItem with
  | Throw _ => (fail 500 "Failed to toggle menu item availability", db)
  | Ret true => (fail 403 "Access denied", db)
  | Ret false =>
      let toggled := with_isAvailable (negb menuItem.(isAvailable)) menuItem in
      (ok 200
         ("Menu item is now " ++
          (if toggled.(isAvailable) then "available" else "unavailable"))
         None,
       saveMenuItem toggled db)
  end end end.

(** DELETE /api/restaurants/:id ("Soft delete - just deactivate"). *)
Definition deleteRestaurant (db : DB) (req : Request unit) : Response * DB :=
  match protect req with
  | None => (notAuthenticated, db)
  | Some user =>
  if negb (authorize [role_restaurant; role_admin] user) then (notAuthorized, db)
  else
  match Restaurant_findById db req.(params_id) with
  | None => (fail 404 "Restaurant not found", db)
  | Some rst =>
  if Role_eqb user.(role) role_restaurant
     && negb (String.eqb rst.(r_owner) user.(u_id))
  then (fail 403 "Access denied", db)
  else
    (ok 200 "Restaurant deactivated successfully" None,
     saveRestaurant (with_isActive false rst) db)
  end end.

(** PUT /api/restaurants/:id/toggle-status. *)
Definition toggleRestaurantStatus (db : DB) (req : Request unit) : Response * DB :=
  match protect req with
  | None => (notAuthenticated, db)
  | Some user =>
  if negb (authorize [role_restaurant] user) then (notAuthorized, db)
  else
  match Restaurant_findById db req.(params_id) with
  | None => (fail 404 "Restaurant not found", db)
  | Some rst =>
  if negb (String.eqb rst.(r_owner) user.(u_id))
  then (fail 403 "Access denied", db)
  else
    let toggled := with_isOpen (negb rst.(isOpen)) rst in
    (ok 200
       ("Restaurant is now " ++ (if toggled.(isOpen) then "open" else "closed"))
       None,
     saveRestaurant toggled db)
  end end.

(* ================================================================= *)
(** ** routes/orders.js: GET /api/orders/:id

    The order is loaded with its customer, restaurant and delivery
    person populated; a populated path is [null] when the document it
    names is not stored.  [users] holds the [_id]s of the stored
    users. *)

Definition populated (users : list ObjectId) (id : ObjectId) : bool :=
  existsb (String.eqb id) users.

(** The disjunction [canAccess], evaluated from the left with
    short-circuiting. *)
Definition canAccess (users : list ObjectId) (db : DB) (user : User)
    (order : Order) : result bool :=
  if negb (populated users order.(customer))
  then Throw (TypeError "Cannot read properties of null (reading '_id')")
  else if String.eqb order.(customer) user.(u_id) then Ret true
  else
    byRestaurant <-
      (if Role_eqb user.(role) role_restaurant then
         match Restaurant_findById db order.(restaurant) with
         | None => Throw (TypeError "Cannot read properties of null (reading '_id')")
         | Some rst =>
             Ret (match user.(restaurantId) with
                  | Some rid => String.eqb rst.(r_id) rid
                  | None => false
                  end)
         end
       else Ret false) ;;
    if (byRestaurant : bool) then Ret true
    else
      byDelivery <-
        (if Role_eqb user.(role) role_delivery then
           match order.(deliveryTracking) with
           | None =>
               Throw (TypeError
                        "Cannot read properties of undefined (reading 'deliveryPerson')")
           | Some t =>
               Ret (match t.(dt_deliveryPerson) with
                    | Some person =>
                        populated users person && String.eqb person user.(u_id)
                    | None => false
                    end)
           end
         else Ret false) ;;
      Ret ((byDelivery : bool) || Role_eqb user.(role) role_admin).

Definition getOrder (users : list ObjectId) (db : DB) (req : Request unit)
    : Response :=
  match protect req with
  | None => notAuthenticated
  | Some user =>
  match Order_findById db req.(params_id) with
  | None => fail 404 "Order not found"
  | Some order =>
  match canAccess users db user order with
  | Throw _ => fail 500 "Failed to get order"
  | Ret false => fail 403 "Access denied"
  | Ret true => ok 200 "" (Some order)
  end end end.

(* ================================================================= *)
(** ** payment routes: POST /api/payments/create-intent *)

(** The body: [amount] is the number the field denotes when it passes
    [isNumeric]. *)
Record IntentBody := mkIntentBody {
  ib_amount : option Number;
  ib_orderId : option string;
  ib_paymentMethodId : option string;
}.

(** [paymentIntentData], as far as it depends on the request. *)
Record IntentData := mkIntentData {
  id_amount : Number;
  id_customer : string;
  id_orderId : string;
  id_userId : ObjectId;
  id_payment_method : option string;
}.

(** The user document of the request as the route reads it. *)
Record Account := mkAccount {
  stripeCustomerId : option string;
}.

(** The two calls to the payment processor: the [id] of the customer
    created for a user, and the [id] of the intent created from the
    data. *)
Class Stripe := {
  stripe_customers_create : ObjectId -> result string;
  stripe_paymentIntents_create : IntentData -> result string;
}.

Section CreateIntent.

Context {host : Host} {stripe : Stripe}.

(** [account] is what [User.findById(req.user._id)] returns; the third
    component of the result is the stored user after the request. *)
Definition createIntent (now : Date) (db : DB) (account : option Account)
    (req : Request IntentBody) : Response * DB * option Account :=
  match protect req with
  | None => (notAuthenticated, db, account)
  | Some user =>
  match req.(body).(ib_amount), req.(body).(ib_orderId) with
  | Some amount, Some orderId =>
  if String.eqb orderId "" then (validationFailed, db, account)
  else
  match Order_findById db orderId with
  | None => (fail 404 "Order not found", db, account)
  | Some order =>
  if negb (String.eqb order.(customer) user.(u_id))
  then (fail 403 "Access denied", db, account)
  else
  let failed stored := (fail 500 "Failed to create payment intent", db, stored) in
  match account with
  | None => failed account
  | Some a =>
  let ensured : result (string * option Account) :=
    if truthy a.(stripeCustomerId)
    then Ret (match a.(stripeCustomerId) with Some c => c | None => "" end, account)
    else
      customerId <- stripe_customers_create user.(u_id) ;;
      Ret (customerId, Some (mkAccount (Some customerId))) in
  match ensured with
  | Throw _ => failed account
  | Ret (customerId, account') =>
  let paymentIntentData :=
    mkIntentData (Math_round (amount * 100)%float) customerId orderId user.(u_id)
      (if truthy req.(body).(ib_paymentMethodId)
       then req.(body).(ib_paymentMethodId) else None) in
  match stripe_paymentIntents_create paymentIntentData with
  | Throw _ => failed account'
  | Ret intentId =>
      let p := order.(payment) in
      let d := modify (with_payment
                         (mkPayment p.(pay_method) pay_processing (Some intentId)
                            p.(stripeChargeId) p.(paidAt) p.(refundedAt)
                            p.(refundAmount)))
                 (hydrate order) in
      match save now d db with
      | Throw _ => failed account'
      | Ret (_, db') => (ok 200 "" None, db', account')
      end
  end end end end
  | _, _ => (validationFailed, db, account)
  end end.

End CreateIntent.

(* ================================================================= *)
(** ** models/User.js and routes/users.js: the address book *)

(** [addressSchema]. *)
Record UserAddress := mkUserAddress {
  ua_id : ObjectId;
  ua_street : string;
  ua_city : string;
  ua_state : string;
  ua_zipCode : string;
  ua_country : string;
  ua_coordinates : option Coordinates;
  ua_isDefault : bool;
}.

Definition with_ua_isDefault (v : bool) (a : UserAddress) : UserAddress :=
  mkUserAddress a.(ua_id) a.(ua_street) a.(ua_city) a.(ua_state) a.(ua_zipCode)
    a.(ua_country) a.(ua_coordinates) v.

(** [getDefaultAddress]: [undefined] for an empty address book. *)
Definition getDefaultAddress (addresses : list UserAddress) : option UserAddress :=
  match find ua_isDefault addresses with
  | Some addr => Some addr
  | None => nth_error addresses 0
  end.

(** The [addresses] path of every user, keyed by the user's [_id]. *)
Definition AddressBook := list (ObjectId * list UserAddress).

(** A JSON value, as far as truthiness and the cast to a Boolean path
    tell values apart; objects and arrays are one case. *)
Inductive Json :=
| JNull
| JBool (b : bool)
| JNumber (x : Number)
| JString (s : string)
| JObject.

(** Truthiness of a value in a condition. *)
Definition Json_truthy (v : Json) : bool :=
  match v with
  | JNull => false
  | JBool b => b
  | JNumber x => negb (PrimFloat.is_nan x || PrimFloat.is_zero x)
  | JString s => negb (String.eqb s "")
  | JObject => true
  end.


(** Mongoose's cast of a string to an [ObjectId], rendered by
    [toString()]: [None] when the cast throws.  It is the library's,
    not the repository's. *)
Class Mongoose := {
  castObjectId : string -> option ObjectId;
}.

(** The keys of an address body that are paths of [addressSchema].
    [isDefault] is any JSON value, since the routes test it before
    Mongoose casts it; the other keys are taken at the type of their
    path. *)
Record AddressBody := mkAddressBody {
  ab_id : option string;
  ab_street : option string;
  ab_city : option string;
  ab_state : option string;
  ab_zipCode : option string;
  ab_country : option string;
  ab_coordinates : option Coordinates;
  ab_isDefault : option Json;
}.

(** The [required] validators of [addressSchema]: the five strings are
    not empty. *)
Definition validAddress (a : UserAddress) : bool :=
  negb (String.eqb a.(ua_street) "") && negb (String.eqb a.(ua_city) "")
  && negb (String.eqb a.(ua_state) "") && negb (String.eqb a.(ua_zipCode) "")
  && negb (String.eqb a.(ua_country) "").

(** The position of the first sub-document whose [_id] renders as
    [id]. *)
Fixpoint indexOfId (id : ObjectId) (addresses : list UserAddress) : option nat :=
  match addresses with
  | [] => None
  | a :: rest =>
      if String.eqb a.(ua_id) id then Some 0
      else option_map S (indexOfId id rest)
  end.

(** A write through a reference to the element at position [n]. *)
Fixpoint updateAt {A} (n : nat) (f : A -> A) (l : list A) : list A :=
  match l, n with
  | [], _ => []
  | x :: rest, 0 => f x :: rest
  | x :: rest, S n' => x :: updateAt n' f rest
  end.

Section AddressRoutes.

Context {mongoose : Mongoose}.

(** The [_id] a sub-document holds after the body's [_id] key, if any,
    has been written to it: [None] when the cast fails. *)
Definition writtenId (b : AddressBody) (old : ObjectId) : option ObjectId :=
  match b.(ab_id) with
  | Some v => castObjectId v
  | None => Some old
  end.


(** [address[key] = updateData[key]] for the keys the body carries;
    [id] is what the [_id] key leaves. *)
Definition assignKeys (b : AddressBody) (id : ObjectId) (a : UserAddress)
    : UserAddress :=
  let or_ (v : option string) (old : string) :=
    match v with Some x => x | None => old end in
  mkUserAddress id (or_ b.(ab_street) a.(ua_street))
    (or_ b.(ab_city) a.(ua_city)) (or_ b.(ab_state) a.(ua_state))
    (or_ b.(ab_zipCode) a.(ua_zipCode)) (or_ b.(ab_country) a.(ua_country))
    (match b.(ab_coordinates) with Some c => Some c | None => a.(ua_coordinates) end)
    a.(ua_isDefault).

(** [user.addresses.id(addressId)]: the id is cast to an [ObjectId]
    and compared with the rendering of each sub-document's [_id]. *)
Definition addresses_id (addressId : string) (addresses : list UserAddress)
    : option nat :=
  match castObjectId addressId with
  | Some casted => indexOfId casted addresses
  | None => None
  end.

(** PUT /api/users/addresses/:addressId.  The address is found by
    [addresses.id()]; the default is marked by comparing each [_id],
    rendered, with the route parameter as it was sent.  [user.save()]
    validates the sub-documents as in [addAddress]: an [_id] that does
    not cast and an empty required string reject the save. *)
Definition updateAddress (book : AddressBook) (req : Request AddressBody)
    : Response * AddressBook :=
  match protect req with
  | None => (notAuthenticated, book)
  | Some user =>
  let failed := (fail 500 "Failed to update address", book) in
  match getKey user.(u_id) book with
  | None => failed
  | Some addresses =>
  match addresses_id req.(params_id) addresses with
  | None => (fail 404 "Address not found", book)
  | Some i =>
      let cast_ok :=
        match req.(body).(ab_id) with
        | Some v => match castObjectId v with Some _ => true | None => false end
        | None => true
        end in
      let addresses :=
        updateAt i
          (fun a => assignKeys req.(body)
                      (match writtenId req.(body) a.(ua_id) with
                       | Some id => id
                       | None => a.(ua_id)
                       end) a)
          addresses in
      let addresses :=
        match req.(body).(ab_isDefault) with
        | None => addresses
        | Some isDefault =>
            if Json_truthy isDefault then
              map (fun addr =>
                     with_ua_isDefault (String.eqb addr.(ua_id) req.(params_id)) addr)
                addresses
            else
              let addresses := updateAt i (with_ua_isDefault false) addresses in
              if negb (existsb ua_isDefault addresses)
              then updateAt 0 (with_ua_isDefault true) addresses
              else addresses
        end in
      if cast_ok && forallb validAddress addresses
      then (ok 200 "Address updated successfully" None,
            setKey user.(u_id) addresses book)
      else failed
  end end end.

End AddressRoutes.

(* ================================================================= *)
(** ** models/MenuItem.js: isAvailableNow *)

(** The [availableHours] path of a menu item. *)
Record AvailableHours := mkAvailableHours {
  ah_start : option string;
  ah_end : option string;
}.

(** [isAvailableNow] of an item whose [availableHours] are [hours]. *)
Definition isAvailableNow (this : MenuItem) (hours : AvailableHours) (now : Date)
    : result bool :=
  if negb this.(isAvailable) then Ret false
  else
    match hours.(ah_start), hours.(ah_end) with
    | Some start, Some end_ =>
        if String.eqb start "" || String.eqb end_ "" then Ret true
        else
          time <- Date_invoke now "toTimeString" ;;
          let currentTime := substring 0 5 time in
          Ret (String.leb start currentTime && String.leb currentTime end_)
    | _, _ => Ret true
    end.

(* ================================================================= *)
(** ** Notions used in the statements *)

(** [db'] is [db] with the stored [order] rewritten to [o']. *)
Definition rewritten (db db' : DB) (order o' : Order) : Prop :=
  Order_findById db order.(_id) = Some order /\
  db' = with_orders (replace_order o' db.(orders)) db /\
  Order_findById db' order.(_id) = Some o' /\
  o'.(_id) = order.(_id).

(** What a re-delivered event must leave alone: every order's status
    and payment status, by position. *)
Definition statusView (db : DB) : list (ObjectId * Status * PaymentStatus) :=
  map (fun o => (o.(_id), o.(status), o.(payment).(pay_status))) db.(orders).

(** The position of a status in the delivery pipeline; the side exits
    cancelled and refunded have none. *)
Definition pipelineRank (s : Status) : option nat :=
  match s with
  | pending => Some 0
  | confirmed => Some 1
  | preparing => Some 2
  | ready_for_pickup => Some 3
  | picked_up => Some 4
  | on_the_way => Some 5
  | delivered => Some 6
  | cancelled | refunded => None
  end.

(** The transition rule as the specification words it: forward along
    the pipeline, or into cancelled/refunded from a non-terminal
    status when the cancellability check holds; never backwards and
    never out of cancelled/refunded. *)
Definition specPermits (order : Order) (target : Status) : bool :=
  match pipelineRank order.(status), pipelineRank target with
  | Some a, Some b => Nat.leb a b
  | Some _, None => canBeCancelled order
  | None, _ => Status_eqb order.(status) target
  end.

(** The base price after the item's percentage discount: a positive
    percentage [d] leaves the share [1 - d/100] of the price. *)
Definition specDiscountedBase (base percent : Number) : Number :=
  if (0 <? percent)%float then (base * (1 - percent / 100))%float else base.

(** The integer nearest to a Number, a half going to the greater
    integer, read off the exact value [+-m * 2^e] of the Number: for a
    negative exponent the value is [+-m / 2^(-e)], and the integer
    nearest to it is the floor of the value plus one half.  A Number
    without fractional part, an infinity and NaN are their own
    nearest; a negative Number whose nearest integer is zero gives the
    negative zero. *)
Definition nearestInteger (y : Number) : Number :=
  match Prim2SF y with
  | S754_finite s m e =>
      if (0 <=? e)%Z then y
      else
        let den := (2 ^ (- e))%Z in
        let num2 := (if s then - (2 * Zpos m) else 2 * Zpos m)%Z in
        let n := ((num2 + den) / (2 * den))%Z in
        if s && (n =? 0)%Z then (-0)%float else Number_of_Z n
  | _ => y
  end.

(** Rounding to two decimal places: the nearest whole number of
    hundredths, over a hundred. *)
Definition round2 (x : Number) : Number := (nearestInteger (x * 100) / 100)%float.

(** The surcharges of the options a customer selected, in the order of
    the request: an option counts when the item has a customization of
    that name offering an option of that name. *)
Definition selectedSurcharges (this : MenuItem) (cs : list ReqCustomization)
    : list Number :=
  flat_map
    (fun c =>
       match find (fun cfg => String.eqb cfg.(cfg_name) c.(rc_name))
                  this.(customizations) with
       | Some cfg =>
           flat_map
             (fun optionName =>
                match find (fun o => String.eqb o.(opt_name) optionName)
                           cfg.(options) with
                | Some o => [o.(opt_price)]
                | None => []
                end)
             (match c.(rc_selectedOptions) with Some l => l | None => [] end)
       | None => []
       end)
    cs.

(** The unit price as the specification words it: the discounted base
    price plus the selected surcharges, rounded to two decimals. *)
Definition specUnitPrice (this : MenuItem) (cs : list ReqCustomization) : Number :=
  round2 (fold_left PrimFloat.add (selectedSurcharges this cs)
            (specDiscountedBase this.(price) this.(discountPercentage))).

(** The sum over line items of unit price times quantity. *)
Definition sumLines (lines : list OrderItem) : Number :=
  fold_left (fun acc it => (acc + it.(oi_price) * it.(oi_quantity))%float)
    lines 0%float.

(** A stored line item prices the requested one. *)
Definition linePriced (db : DB) (item : ReqItem) (line : OrderItem) : Prop :=
  exists menuItem,
    MenuItem_findById db item.(ri_menuItem) = Some menuItem /\
    line.(oi_quantity) = item.(ri_quantity) /\
    line.(oi_price) = specUnitPrice menuItem (customizationsOf item) /\
    line.(oi_subtotal) = (line.(oi_price) * line.(oi_quantity))%float.

(** Every stored order is still stored in [db'], with a timeline that
    has its old timeline as a prefix. *)
Definition extends (db db' : DB) : Prop :=
  forall id o,
    Order_findById db id = Some o ->
    exists o' l,
      Order_findById db' id = Some o' /\
      o'.(timeline) = (o.(timeline) ++ l)%list.

(** The part of an order that is fixed when it is placed. *)
Definition core (o : Order) :=
  (o.(_id), o.(orderNumber), o.(customer), o.(restaurant), o.(items),
   o.(orderType), o.(deliveryAddress), o.(pricing), o.(promoCode),
   o.(estimatedPreparationTime)).

(** Every stored order is still stored in [db'] with the same core. *)
Definition keepsOrders (db db' : DB) : Prop :=
  forall id o,
    Order_findById db id = Some o ->
    exists o',
      Order_findById db' id = Some o' /\ core o' = core o.

(** Status, payment status and timeline of every order, by position. *)
Definition auditView (db : DB)
    : list (ObjectId * Status * PaymentStatus * list TimelineEntry) :=
  map (fun o => (o.(_id), o.(status), o.(payment).(pay_status), o.(timeline)))
    db.(orders).

(** The number of default addresses, read off the flags. *)
Definition flagged (flags : list bool) : nat := List.length (filter id flags).

(** The request asks for the new or the named address to be the
    default one: its [isDefault] is truthy. *)
Definition asksDefault (b : AddressBody) : bool :=
  match b.(ab_isDefault) with
  | Some v => Json_truthy v
  | None => false
  end.

(** The number of addresses marked as the default one. *)
Definition defaults (addresses : list UserAddress) : nat :=
  List.length (filter ua_isDefault addresses).

(* ================================================================= *)
(** ** Example data *)

Module Sample.

Definition at_ (t : Number) : Date :=
  mkDate t (fun name =>
              if String.eqb name "toTimeString"
              then "12:30:00 GMT+0000 (Coordinated Universal Time)"
              else "").

(** A host for the examples: numbers print as "0", the trigonometric
    functions are constant, and the processor refunds 2500 cents. *)
#[global] Instance host : Host := {
  Number_toString := fun _ => "0";
  new_Date := at_;
  Math_sin := fun _ => 0%float;
  Math_cos := fun _ => 0%float;
  Math_atan2 := fun _ _ => 0%float;
  stripe_refunds_create := fun intent _ =>
    Ret (mkStripeRefund "re_1"
           (match intent with Some i => i | None => "" end) 2500%float);
}.

Definition now : Date := at_ 1700000000000%float.

Definition alice : User := mkUser "u_alice" role_customer None.
Definition owner : User := mkUser "u_owner" role_restaurant None.
Definition courier : User := mkUser "u_courier" role_delivery None.
Definition admin : User := mkUser "u_admin" role_admin None.

Definition allWeek : list Hours :=
  map (fun d => mkHours d "00:00" "23:59" false)
    [monday; tuesday; wednesday; thursday; friday; saturday; sunday].

(** Minimum order $15, delivery fee $3. *)
Definition diner : Restaurant :=
  mkRestaurant "r_diner" "u_owner" (mkCoordinates 0%float 0%float)
    3%float 15%float 5%float allWeek true true.

Definition closedDiner : Restaurant :=
  mkRestaurant "r_closed" "u_owner" (mkCoordinates 0%float 0%float)
    3%float 15%float 5%float allWeek true false.

Definition burger : MenuItem :=
  mkMenuItem "m_burger" "Burger" "r_diner" 10%float
    [mkCustomizationConfig "Size"
       [mkOption "Regular" 0%float; mkOption "Large" 2.5%float];
     mkCustomizationConfig "Toppings"
       [mkOption "Cheese" 1.25%float; mkOption "Bacon" 1.75%float]]
    15%float true 0%float.

Definition salad : MenuItem :=
  mkMenuItem "m_salad" "Salad" "r_diner" 7.5%float [] 5%float true 0%float.

Definition order_with (id : ObjectId) (s : Status) (p : PaymentStatus)
    (intent : option string) (t : option DeliveryTracking)
    (tl : list TimelineEntry) : Order :=
  mkOrder id "FH000000001" "u_alice" "r_diner" [] s delivery None
    (mkPricing 20%float 1.6%float 3%float 0.4%float 0%float 0%float 25%float)
    (mkPayment card p intent None None None None)
    t tl 15%float None None None None None false None None None None None None.

Definition tracked : DeliveryTracking :=
  mkDeliveryTracking trk_assigned (Some "u_courier") None None None None None.

Definition db_of (os : list Order) : DB :=
  mkDB os [diner; closedDiner] [burger; salad].

Definition statusReq (u : User) (id s : string) : Request StatusBody :=
  mkRequest (Some u) id (mkStatusBody (Some s) None).

Definition cancelReq (u : User) (id : string) : Request CancelBody :=
  mkRequest (Some u) id (mkCancelBody (Some "changed my mind")).

(** A pending order whose payment is still processing, and a delivered
    and paid one. *)
Definition pendingOrder : Order :=
  order_with "o1" pending pay_processing (Some "pi_1") None [].

Definition deliveredOrder : Order :=
  order_with "o2" delivered pay_completed (Some "pi_2") (Some tracked) [].

Definition shop : DB := db_of [pendingOrder; deliveredOrder].

Definition address : Address :=
  mkAddress "1 Main St" "Springfield" (Some (mkCoordinates 0%float 0%float)).

Definition cart (lines : list ReqItem) : OrderBody :=
  mkOrderBody (Some "r_diner") lines (Some "delivery") (Some address) None None None.

Definition twoBurgers : OrderBody := cart [mkReqItem "m_burger" None 2%float None None].

(** A wrap at $8.99 with 15% off; avocado adds $1.255 and a large size
    $2.00. *)
Definition wrap : MenuItem :=
  mkMenuItem "m_wrap" "Wrap" "r_diner" 8.99%float
    [mkCustomizationConfig "Extras"
       [mkOption "Avocado" 1.255%float; mkOption "Egg" 0.75%float];
     mkCustomizationConfig "Size"
       [mkOption "Large" 2%float]]
    10%float true 15%float.

Definition lunchMenu : DB := mkDB [] [diner] [burger; salad; wrap].

(** Three wraps with avocado, large, and one salad. *)
Definition lunch : list ReqItem :=
  [mkReqItem "m_wrap" None 3%float
     (Some [mkReqCustomization "Extras" (Some ["Avocado"]);
            mkReqCustomization "Size" (Some ["Large"])])
     None;
   mkReqItem "m_salad" None 1%float None None].

(** Requests without a body. *)
Definition plainReq (u : User) (id : string) : Request unit :=
  mkRequest (Some u) id tt.

Definition succeededIntent : RetrievedIntent := mkRetrievedIntent "succeeded".

(** The intent of the pending order as the webhook delivers it, with
    its charge. *)
Definition paidIntent : PaymentIntent :=
  mkPaymentIntent "pi_1" (Some [mkCharge "ch_1"]).

Definition rated : RatedDB := mkRatedDB shop [] [].

Definition fiveStars : Request RateBody :=
  mkRequest (Some alice) "o2" (mkRateBody (Some 5%Z) (Some 4%Z) (Some 5%Z) None).

Definition orderReq (u : User) (b : OrderBody) : Request OrderBody :=
  mkRequest (Some u) "" b.

(** A processor that hands out one customer id and one intent id. *)
#[global] Instance stripe : Stripe := {
  stripe_customers_create := fun _ => Ret "cus_1";
  stripe_paymentIntents_create := fun _ => Ret "pi_new";
}.

Definition payAgain : Request IntentBody :=
  mkRequest (Some alice) "" (mkIntentBody (Some 1%float) (Some "o2") None).

(** A cast that takes 24 hexadecimal digits to lower case and
    refuses other strings. *)
Definition isHexDigit (c : ascii) : bool :=
  let n := nat_of_ascii c in
  (48 <=? n)%nat && (n <=? 57)%nat || (65 <=? n)%nat && (n <=? 70)%nat
  || (97 <=? n)%nat && (n <=? 102)%nat.

Definition lowerCase (c : ascii) : ascii :=
  let n := nat_of_ascii c in
  if (65 <=? n)%nat && (n <=? 90)%nat then ascii_of_nat (n + 32) else c.

#[global] Instance mongoose : Mongoose := {
  castObjectId := fun s =>
    let digits := list_ascii_of_string s in
    if Nat.eqb (List.length digits) 24 && forallb isHexDigit digits
    then Some (string_of_list_ascii (map lowerCase digits))
    else None;
}.

Definition home : UserAddress :=
  mkUserAddress "65f0c0ffee0000000000a001" "1 Main St" "Springfield" "IL" "62701"
    "USA" None true.

Definition office : UserAddress :=
  mkUserAddress "65f0c0ffee0000000000a002" "9 High St" "Springfield" "IL" "62702"
    "USA" None false.

Definition book : AddressBook := [("u_alice", [home; office])].




Definition flagOnly (addressId : string) (isDefault : Json) : Request AddressBody :=
  mkRequest (Some alice) addressId
    (mkAddressBody None None None None None None None (Some isDefault)).

Definition clearDefault : Request AddressBody :=
  flagOnly "65f0c0ffee0000000000a001" (JBool false).

Definition officeDefault : Request AddressBody :=
  flagOnly "65f0c0ffee0000000000a002" (JBool true).

(** The office address named in upper case. *)
Definition officeDefaultUpper : Request AddressBody :=
  flagOnly "65F0C0FFEE0000000000A002" (JBool true).

Definition lateNight : AvailableHours := mkAvailableHours (Some "22:00") (Some "02:00").

End Sample.

(* ================================================================= *)
(** ** Properties *)

Section Properties.

Context {host : Host}.

(** *** Equality tests *)

Lemma Status_eqb_eq (a b : Status) : Status_eqb a b = true <-> a = b.
Proof. destruct a, b; simpl; split; intros H; try reflexivity; discriminate H. Qed.

Lemma Status_eqb_refl (a : Status) : Status_eqb a a = true.
Proof. apply Status_eqb_eq; reflexivity. Qed.

Lemma Status_eqb_neq (a b : Status) : Status_eqb a b = false <-> a <> b.
Proof.
  split.
  - intros H E. subst b. rewrite Status_eqb_refl in H. discriminate.
  - intros N. destruct (Status_eqb a b) eqn:E; [|reflexivity].
    apply Status_eqb_eq in E. contradiction.
Qed.

(** *** Documents keep their identity *)

Lemma set_status_id v d : (set_status v d).(doc_order).(_id) = d.(doc_order).(_id).
Proof. unfold set_status. destruct (Status_eqb _ _); reflexivity. Qed.

Lemma set_status_status v d : (set_status v d).(doc_order).(status) = v.
Proof.
  unfold set_status. destruct (Status_eqb _ _) eqn:E; [|reflexivity].
  apply Status_eqb_eq in E. simpl. congruence.
Qed.

Lemma set_status_isNew v d : (set_status v d).(isNew) = d.(isNew).
Proof. unfold set_status. destruct (Status_eqb _ _); reflexivity. Qed.

Lemma set_status_timeline v d :
  (set_status v d).(doc_order).(timeline) = d.(doc_order).(timeline).
Proof. unfold set_status. destruct (Status_eqb _ _); reflexivity. Qed.

(** The status path of a loaded document counts as modified exactly
    when the value written differs from the stored one. *)
Lemma set_status_modified v o :
  (set_status v (hydrate o)).(isModified_status) = negb (Status_eqb v o.(status)).
Proof. unfold set_status, hydrate. simpl. destruct (Status_eqb _ _); reflexivity. Qed.

(** *** Lookup after a write *)

Lemma findById_id db id o : Order_findById db id = Some o -> o.(_id) = id.
Proof.
  unfold Order_findById. intros H. apply find_some in H.
  destruct H as [_ H]. apply String.eqb_eq in H. exact H.
Qed.

Lemma find_replace_same (o : Order) (os : list Order) (x : Order) :
  find (fun y => String.eqb y.(_id) o.(_id)) os = Some x ->
  find (fun y => String.eqb y.(_id) o.(_id)) (replace_order o os) = Some o.
Proof.
  induction os as [|y os IH]; simpl; [discriminate|].
  destruct (String.eqb y.(_id) o.(_id)) eqn:E.
  - intros _. rewrite String.eqb_refl. reflexivity.
  - rewrite E. exact IH.
Qed.

Lemma find_replace_other (o : Order) (os : list Order) (id : ObjectId) :
  o.(_id) <> id ->
  find (fun y => String.eqb y.(_id) id) (replace_order o os)
  = find (fun y => String.eqb y.(_id) id) os.
Proof.
  intros N. induction os as [|y os IH]; simpl; [reflexivity|].
  destruct (String.eqb y.(_id) o.(_id)) eqn:E.
  - apply String.eqb_eq in E.
    assert (String.eqb o.(_id) id = false) as ->
      by (apply String.eqb_neq; exact N).
    assert (String.eqb y.(_id) id = false) as ->
      by (apply String.eqb_neq; congruence).
    exact IH.
  - destruct (String.eqb y.(_id) id); [reflexivity | exact IH].
Qed.

(** Saving a loaded document: what is stored, and where. *)
Lemma save_loaded now d db :
  d.(isNew) = false ->
  persist now d db =
    ((pre_save_timeline now d).(doc_order),
     with_orders (replace_order (pre_save_timeline now d).(doc_order) db.(orders)) db).
Proof.
  intros HN. unfold persist, pre_save_orderNumber. rewrite HN. reflexivity.
Qed.

Lemma Ret_inj {A} (a b : A) : Ret a = Ret b -> a = b.
Proof. intros H. injection H as H. exact H. Qed.

(** A loaded document passes validation. *)
Lemma save_persists now d db :
  d.(isNew) = false -> save now d db = Ret (persist now d db).
Proof. intros HN. unfold save, validate. rewrite HN. reflexivity. Qed.

Lemma pre_save_timeline_id now d :
  (pre_save_timeline now d).(doc_order).(_id) = d.(doc_order).(_id).
Proof. unfold pre_save_timeline. destruct (_ && _); reflexivity. Qed.

Lemma pre_save_timeline_status now d :
  (pre_save_timeline now d).(doc_order).(status) = d.(doc_order).(status).
Proof. unfold pre_save_timeline. destruct (_ && _); reflexivity. Qed.

Lemma pre_save_timeline_payment now d :
  (pre_save_timeline now d).(doc_order).(payment) = d.(doc_order).(payment).
Proof. unfold pre_save_timeline. destruct (_ && _); reflexivity. Qed.

(** The hook only ever extends the timeline, by the one entry it
    announces, and only for a modified status. *)
Lemma pre_save_timeline_timeline now d :
  (pre_save_timeline now d).(doc_order).(timeline) =
  (d.(doc_order).(timeline) ++
   (if d.(isModified_status) && negb d.(isNew)
    then [hookEntry now d.(doc_order).(status)]
    else []))%list.
Proof.
  unfold pre_save_timeline. destruct (_ && _); simpl.
  - reflexivity.
  - rewrite app_nil_r. reflexivity.
Qed.

Lemma findById_saved now d db id x :
  d.(isNew) = false ->
  d.(doc_order).(_id) = id ->
  Order_findById db id = Some x ->
  Order_findById (snd (persist now d db)) id = Some (fst (persist now d db)).
Proof.
  intros HN Hid Hx. rewrite (save_loaded _ _ _ HN). simpl.
  unfold Order_findById in *. simpl.
  rewrite <- Hid, <- (pre_save_timeline_id now d) in *.
  eapply find_replace_same. exact Hx.
Qed.

(** *** Tactics for the handler lemmas *)

(** Facts about a document built from a loaded order by writes to
    paths, [set_status] and [timeline_push]. *)
Ltac doc_fact :=
  unfold timeline_push, modify; simpl;
  rewrite ?set_status_isNew, ?set_status_id, ?set_status_status,
    ?set_status_timeline, ?set_status_modified;
  simpl; try reflexivity.

Ltac rejected := left; split; reflexivity.

(** *** Cancellation *)

Lemma canBeCancelled_false (o : Order) :
  canBeCancelled o = false <->
  In o.(status) [picked_up; on_the_way; delivered; cancelled; refunded].
Proof.
  unfold canBeCancelled. destruct (status o); simpl; split; intros H;
    try reflexivity; try discriminate H; try tauto;
    repeat (destruct H as [H|H]; try discriminate H); contradiction.
Qed.

Lemma canBeCancelled_true (o : Order) :
  canBeCancelled o = true <->
  In o.(status) [pending; confirmed; preparing; ready_for_pickup].
Proof.
  unfold canBeCancelled. destruct (status o); simpl; split; intros H;
    try reflexivity; try discriminate H; try tauto;
    repeat (destruct H as [H|H]; try discriminate H); contradiction.
Qed.

(** *** Saving a loaded document *)

Lemma save_effect now d db order :
  d.(isNew) = false ->
  d.(doc_order).(_id) = order.(_id) ->
  Order_findById db order.(_id) = Some order ->
  forall o' db', persist now d db = (o', db') ->
  db' = with_orders (replace_order o' db.(orders)) db /\
  Order_findById db' order.(_id) = Some o' /\
  o'.(_id) = order.(_id) /\
  o'.(status) = d.(doc_order).(status) /\
  o'.(payment) = d.(doc_order).(payment) /\
  o'.(timeline) =
    (d.(doc_order).(timeline) ++
     (if d.(isModified_status) then [hookEntry now d.(doc_order).(status)] else []))%list.
Proof.
  intros HN Hid Hf o' db' Hs.
  pose proof (findById_saved now d db _ _ HN Hid Hf) as Hl.
  rewrite Hs in Hl. simpl in Hl.
  rewrite (save_loaded _ _ _ HN) in Hs. inversion Hs; subst o' db'; clear Hs.
  repeat split.
  - exact Hl.
  - rewrite pre_save_timeline_id. exact Hid.
  - apply pre_save_timeline_status.
  - apply pre_save_timeline_payment.
  - rewrite pre_save_timeline_timeline, HN, andb_true_r. reflexivity.
Qed.

(** *** Status updates by the restaurant and by the admin *)

(** What [applyStatus] stores: the requested status, and a timeline
    extended by the handler's entry and, when the status differs from
    the stored one, by the hook's entry as well. *)
Lemma applyStatus_effect now db user order v notes msg :
  Order_findById db order.(_id) = Some order ->
  forall o' db', applyStatus now db user order v notes msg = Ret (o', db') ->
  db' = with_orders (replace_order o' db.(orders)) db /\
  Order_findById db' order.(_id) = Some o' /\
  o'.(_id) = order.(_id) /\
  o'.(status) = v /\
  o'.(payment) = order.(payment) /\
  o'.(timeline) =
    (order.(timeline) ++
     mkTimelineEntry (Status_str v) now msg (Some user.(u_id)) ::
     (if Status_eqb v order.(status) then [] else [hookEntry now v]))%list.
Proof.
  intros Hf o' db'. unfold applyStatus.
  match goal with
  | |- context [save now ?d db] => set (doc := d)
  end.
  intros Hs.
  assert (HN : doc.(isNew) = false).
  { subst doc. destruct (truthy notes); unfold timeline_push, modify; simpl;
      apply set_status_isNew. }
  rewrite (save_persists _ _ _ HN) in Hs. apply Ret_inj in Hs.
  assert (Hid : doc.(doc_order).(_id) = order.(_id)).
  { subst doc. destruct (truthy notes); unfold timeline_push, modify; simpl;
      rewrite set_status_id; reflexivity. }
  assert (Hst : doc.(doc_order).(status) = v).
  { subst doc. destruct (truthy notes); unfold timeline_push, modify; simpl;
      apply set_status_status. }
  assert (Hpay : doc.(doc_order).(payment) = order.(payment)).
  { subst doc. unfold set_status, hydrate. simpl.
    destruct (truthy notes), (Status_eqb v (status order)); reflexivity. }
  assert (Hmod : doc.(isModified_status) = negb (Status_eqb v order.(status))).
  { subst doc. destruct (truthy notes); unfold timeline_push, modify; simpl;
      apply set_status_modified. }
  assert (Htl : doc.(doc_order).(timeline) =
                (order.(timeline) ++
                 [mkTimelineEntry (Status_str v) now msg (Some user.(u_id))])%list).
  { subst doc. destruct (truthy notes); unfold timeline_push, modify; simpl;
      rewrite set_status_timeline; reflexivity. }
  destruct (save_effect now doc db order HN Hid Hf _ _ Hs)
    as (E1 & E2 & E3 & E4 & E5 & E6).
  repeat split; try assumption; try congruence.
  rewrite E6, Htl, Hmod, Hst, <- app_assoc. simpl.
  destruct (Status_eqb v (status order)); reflexivity.
Qed.

(** A status write to a loaded order is never rejected by [save]. *)
Lemma applyStatus_returns now db user order v notes msg :
  exists o' db', applyStatus now db user order v notes msg = Ret (o', db').
Proof.
  unfold applyStatus.
  match goal with
  | |- context [save now ?d db] => set (doc := d)
  end.
  assert (HN : doc.(isNew) = false).
  { subst doc. destruct (truthy notes); unfold timeline_push, modify; simpl;
      apply set_status_isNew. }
  rewrite (save_persists _ _ _ HN).
  destruct (persist now doc db) as [o' db']. exists o', db'. reflexivity.
Qed.

Lemma isIn_In v allowed :
  isIn v allowed = true -> exists s, v = Some s /\ In s allowed.
Proof.
  destruct v as [s|]; simpl; [|discriminate].
  intros H. apply existsb_exists in H. destruct H as (x & Hx & E).
  apply String.eqb_eq in E. subst x. eauto.
Qed.

Lemma updateOrderStatus_cases now db (req : Request StatusBody) :
  (success (fst (updateOrderStatus now db req)) = false /\
   snd (updateOrderStatus now db req) = db) \/
  (exists user s v order o',
      req.(req_user) = Some user /\
      authorize [role_restaurant; role_admin] user = true /\
      req.(body).(sb_status) = Some s /\ In s restaurantStatuses /\
      Status_of_string s = Some v /\
      Order_findById db req.(params_id) = Some order /\
      success (fst (updateOrderStatus now db req)) = true /\
      res_order (fst (updateOrderStatus now db req)) = Some o' /\
      rewritten db (snd (updateOrderStatus now db req)) order o' /\
      o'.(status) = v /\
      o'.(payment) = order.(payment) /\
      o'.(timeline) =
        (order.(timeline) ++
         mkTimelineEntry (Status_str v) now ("Order status updated to " ++ s)
           (Some user.(u_id)) ::
         (if Status_eqb v order.(status) then [] else [hookEntry now v]))%list).
Proof.
  unfold updateOrderStatus, protect.
  destruct (req_user req) as [user|]; [|left; split; reflexivity].
  destruct (authorize _ user) eqn:Ha; [|left; split; reflexivity].
  destruct (isIn _ restaurantStatuses) eqn:Hi; [|left; split; reflexivity].
  destruct (isIn_In _ _ Hi) as (s & Hs & Hin).
  destruct (Order_findById db (params_id req)) as [order|] eqn:Hf;
    [|left; split; reflexivity].
  simpl negb. cbv iota.
  match goal with
  | |- context [if ?c then (fail 403 _, db) else _] => destruct c
  end; [left; split; reflexivity|].
  rewrite Hs.
  destruct (Status_of_string s) as [v|] eqn:Hv; [|left; split; reflexivity].
  match goal with
  | |- context [applyStatus ?a ?b ?c ?d ?e ?f ?g] =>
      destruct (applyStatus_returns a b c d e f g) as (o' & db' & Hap)
  end.
  rewrite Hap. simpl.
  pose proof (findById_id _ _ _ Hf) as Hid. rewrite <- Hid in Hf.
  destruct (applyStatus_effect _ _ _ _ _ _ _ Hf _ _ Hap)
    as (E1 & E2 & E3 & E4 & E5 & E6).
  right. exists user, s, v, order, o'.
  rewrite Hid in Hf.
  repeat split; try assumption; try reflexivity; try congruence.
Qed.

Lemma adminUpdateOrderStatus_cases now db (req : Request StatusBody) :
  (success (fst (adminUpdateOrderStatus now db req)) = false /\
   snd (adminUpdateOrderStatus now db req) = db) \/
  (exists user s v order o',
      req.(req_user) = Some user /\
      authorize [role_admin] user = true /\
      req.(body).(sb_status) = Some s /\ In s adminStatuses /\
      Status_of_string s = Some v /\
      Order_findById db req.(params_id) = Some order /\
      success (fst (adminUpdateOrderStatus now db req)) = true /\
      res_order (fst (adminUpdateOrderStatus now db req)) = Some o' /\
      rewritten db (snd (adminUpdateOrderStatus now db req)) order o' /\
      o'.(status) = v /\
      o'.(payment) = order.(payment) /\
      o'.(timeline) =
        (order.(timeline) ++
         mkTimelineEntry (Status_str v) now
           ("Order status updated to " ++ s ++ " by admin") (Some user.(u_id)) ::
         (if Status_eqb v order.(status) then [] else [hookEntry now v]))%list).
Proof.
  unfold adminUpdateOrderStatus, protect.
  destruct (req_user req) as [user|]; [|left; split; reflexivity].
  destruct (authorize _ user) eqn:Ha; [|left; split; reflexivity].
  destruct (isIn _ adminStatuses) eqn:Hi; [|left; split; reflexivity].
  destruct (isIn_In _ _ Hi) as (s & Hs & Hin).
  destruct (Order_findById db (params_id req)) as [order|] eqn:Hf;
    [|left; split; reflexivity].
  simpl negb. cbv iota.
  rewrite Hs.
  destruct (Status_of_string s) as [v|] eqn:Hv; [|left; split; reflexivity].
  match goal with
  | |- context [applyStatus ?a ?b ?c ?d ?e ?f ?g] =>
      destruct (applyStatus_returns a b c d e f g) as (o' & db' & Hap)
  end.
  rewrite Hap. simpl.
  pose proof (findById_id _ _ _ Hf) as Hid. rewrite <- Hid in Hf.
  destruct (applyStatus_effect _ _ _ _ _ _ _ Hf _ _ Hap)
    as (E1 & E2 & E3 & E4 & E5 & E6).
  right. exists user, s, v, order, o'.
  rewrite Hid in Hf.
  repeat split; try assumption; try reflexivity; try congruence.
Qed.

(** *** The remaining order routes *)

(** A cancel request either fails and writes nothing, or passes every
    gate and saves the cancelled document. *)
Lemma cancelOrder_cases now db (req : Request CancelBody) :
  (success (fst (cancelOrder now db req)) = false /\
   snd (cancelOrder now db req) = db) \/
  (exists user reason order o',
      req.(req_user) = Some user /\
      req.(body).(cb_reason) = Some reason /\ reason <> "" /\
      Order_findById db req.(params_id) = Some order /\
      canCancel user order = true /\
      canBeCancelled order = true /\
      success (fst (cancelOrder now db req)) = true /\
      rewritten db (snd (cancelOrder now db req)) order o' /\
      o'.(status) = cancelled /\
      o'.(cancellationReason) = Some reason /\
      o'.(cancelledBy) = Some user.(u_id) /\
      o'.(cancelledAt) = Some now /\
      o'.(timeline) =
        (order.(timeline) ++
         [mkTimelineEntry "cancelled" now ("Order cancelled: " ++ reason)
            (Some user.(u_id));
          hookEntry now cancelled])%list).
Proof.
  unfold cancelOrder, protect.
  destruct (req_user req) as [user|]; [|rejected].
  destruct (cb_reason (body req)) as [reason|]; [|rejected].
  destruct (String.eqb reason "") eqn:Hr; [rejected|].
  destruct (Order_findById db (params_id req)) as [order|] eqn:Hf; [|rejected].
  destruct (canCancel user order) eqn:Hc; [|rejected].
  destruct (canBeCancelled order) eqn:Hb; [|rejected].
  simpl negb. cbv iota.
  match goal with
  | |- context [save now ?d db] => set (doc := d)
  end.
  assert (HN : doc.(isNew) = false) by (subst doc; doc_fact).
  rewrite (save_persists _ _ _ HN).
  assert (Hid : doc.(doc_order).(_id) = order.(_id)) by (subst doc; doc_fact).
  assert (Hst : doc.(doc_order).(status) = cancelled) by (subst doc; doc_fact).
  assert (Hmod : doc.(isModified_status) = true).
  { subst doc; doc_fact. apply canBeCancelled_true in Hb.
    destruct (status order); simpl in *; try reflexivity; exfalso;
      repeat (destruct Hb as [Hb|Hb]; try discriminate Hb); contradiction. }
  assert (Htl : doc.(doc_order).(timeline) =
                (order.(timeline) ++
                 [mkTimelineEntry "cancelled" now ("Order cancelled: " ++ reason)
                    (Some user.(u_id))])%list) by (subst doc; doc_fact).
  pose proof (findById_id _ _ _ Hf) as Hpid. rewrite <- Hpid in Hf.
  destruct (persist now doc db) as [saved db'] eqn:Hsave. simpl.
  destruct (save_effect now doc db order HN Hid Hf _ _ Hsave)
    as (E1 & E2 & E3 & E4 & E5 & E6).
  right. exists user, reason, order, saved.
  apply String.eqb_neq in Hr.
  assert (Hsaved : saved = (pre_save_timeline now doc).(doc_order)).
  { rewrite (save_loaded _ _ _ HN) in Hsave. inversion Hsave. reflexivity. }
  repeat split; try assumption; try reflexivity; try congruence.
  - rewrite Hsaved. unfold pre_save_timeline. destruct (_ && _); subst doc; doc_fact.
  - rewrite Hsaved. unfold pre_save_timeline. destruct (_ && _); subst doc; doc_fact.
  - rewrite Hsaved. unfold pre_save_timeline. destruct (_ && _); subst doc; doc_fact.
  - rewrite E6, Htl, Hmod, Hst, <- app_assoc. reflexivity.
Qed.

(** Assignment happens only from [ready_for_pickup], on a delivery
    order, and stores [picked_up]. *)
Lemma assignDelivery_cases now db (req : Request unit) :
  (success (fst (assignDelivery now db req)) = false /\
   snd (assignDelivery now db req) = db) \/
  (exists user order o',
      req.(req_user) = Some user /\
      authorize [role_admin; role_delivery] user = true /\
      Order_findById db req.(params_id) = Some order /\
      order.(orderType) = delivery /\
      order.(status) = ready_for_pickup /\
      success (fst (assignDelivery now db req)) = true /\
      rewritten db (snd (assignDelivery now db req)) order o' /\
      o'.(status) = picked_up /\
      o'.(payment) = order.(payment) /\
      o'.(timeline) =
        (order.(timeline) ++
         [mkTimelineEntry "assigned_delivery" now "Delivery person assigned"
            (Some user.(u_id));
          hookEntry now picked_up])%list).
Proof.
  unfold assignDelivery, protect.
  destruct (req_user req) as [user|]; [|rejected].
  destruct (authorize _ user) eqn:Ha; [|rejected].
  destruct (Order_findById db (params_id req)) as [order|] eqn:Hf; [|rejected].
  destruct (OrderType_eqb (orderType order) delivery) eqn:Ht; [|rejected].
  destruct (Status_eqb (status order) ready_for_pickup) eqn:Hs; [|rejected].
  destruct (deliveryTracking order) as [t|] eqn:Hdt; [|rejected].
  simpl negb. cbv iota.
  match goal with
  | |- context [save now ?d db] => set (doc := d)
  end.
  apply Status_eqb_eq in Hs.
  assert (HN : doc.(isNew) = false) by (subst doc; doc_fact).
  rewrite (save_persists _ _ _ HN).
  assert (Hid : doc.(doc_order).(_id) = order.(_id)) by (subst doc; doc_fact).
  assert (Hst : doc.(doc_order).(status) = picked_up) by (subst doc; doc_fact).
  assert (Hpay : doc.(doc_order).(payment) = order.(payment)).
  { subst doc. unfold set_status, timeline_push, modify, hydrate. simpl.
    rewrite Hs. reflexivity. }
  assert (Hmod : doc.(isModified_status) = true).
  { subst doc. unfold set_status, timeline_push, modify, hydrate. simpl.
    rewrite Hs. reflexivity. }
  assert (Htl : doc.(doc_order).(timeline) =
                (order.(timeline) ++
                 [mkTimelineEntry "assigned_delivery" now "Delivery person assigned"
                    (Some user.(u_id))])%list) by (subst doc; doc_fact).
  pose proof (findById_id _ _ _ Hf) as Hpid. rewrite <- Hpid in Hf.
  destruct (persist now doc db) as [saved db'] eqn:Hsave. simpl.
  destruct (save_effect now doc db order HN Hid Hf _ _ Hsave)
    as (E1 & E2 & E3 & E4 & E5 & E6).
  right. exists user, order, saved.
  repeat split; try assumption; try reflexivity; try congruence.
  - destruct (orderType order); [reflexivity | discriminate Ht].
  - rewrite E6, Htl, Hmod, Hst, <- app_assoc. reflexivity.
Qed.

Lemma updateDeliveryStatus_cases now db (req : Request DeliveryBody) :
  (success (fst (updateDeliveryStatus now db req)) = false /\
   snd (updateDeliveryStatus now db req) = db) \/
  (exists user s v order o',
      req.(req_user) = Some user /\
      authorize [role_delivery] user = true /\
      req.(body).(db_status) = Some s /\ In s deliveryStatuses /\
      Status_of_string s = Some v /\
      Order_findById db req.(params_id) = Some order /\
      success (fst (updateDeliveryStatus now db req)) = true /\
      rewritten db (snd (updateDeliveryStatus now db req)) order o' /\
      o'.(status) = v /\
      o'.(payment) = order.(payment) /\
      o'.(timeline) =
        (order.(timeline) ++
         mkTimelineEntry s now ("Delivery status: " ++ s) (Some user.(u_id)) ::
         (if Status_eqb v order.(status) then [] else [hookEntry now v]))%list).
Proof.
  unfold updateDeliveryStatus, protect.
  destruct (req_user req) as [user|]; [|rejected].
  destruct (authorize _ user) eqn:Ha; [|rejected].
  destruct (isIn _ deliveryStatuses) eqn:Hi; [|rejected].
  destruct (isIn_In _ _ Hi) as (s & Hs & Hin).
  destruct (Order_findById db (params_id req)) as [order|] eqn:Hf; [|rejected].
  destruct (deliveryTracking order) as [t|] eqn:Hdt; [|rejected].
  destruct (dt_deliveryPerson t) as [person|] eqn:Hp; [|rejected].
  destruct (String.eqb person (u_id user)) eqn:Hpe; [|rejected].
  rewrite Hs.
  destruct (Status_of_string s) as [v|] eqn:Hv; [|rejected].
  destruct (TrackingStatus_of v) as [tv|] eqn:Htv; [|rejected].
  simpl negb. cbv iota.
  match goal with
  | |- context [save now ?d db] => set (doc := d)
  end.
  assert (HN : doc.(isNew) = false)
    by (subst doc; destruct (Status_eqb v delivered); doc_fact).
  rewrite (save_persists _ _ _ HN).
  assert (Hid : doc.(doc_order).(_id) = order.(_id))
    by (subst doc; destruct (Status_eqb v delivered); doc_fact).
  assert (Hst : doc.(doc_order).(status) = v)
    by (subst doc; destruct (Status_eqb v delivered); doc_fact).
  assert (Hpay : doc.(doc_order).(payment) = order.(payment)).
  { subst doc. unfold set_status, timeline_push, modify, hydrate. simpl.
    destruct (Status_eqb v delivered), (Status_eqb v (status order)); reflexivity. }
  assert (Hmod : doc.(isModified_status) = negb (Status_eqb v order.(status))).
  { subst doc. unfold set_status, timeline_push, modify, hydrate. simpl.
    destruct (Status_eqb v delivered), (Status_eqb v (status order)); reflexivity. }
  assert (Htl : doc.(doc_order).(timeline) =
                (order.(timeline) ++
                 [mkTimelineEntry s now ("Delivery status: " ++ s)
                    (Some user.(u_id))])%list)
    by (subst doc; destruct (Status_eqb v delivered); doc_fact).
  pose proof (findById_id _ _ _ Hf) as Hpid. rewrite <- Hpid in Hf.
  destruct (persist now doc db) as [saved db'] eqn:Hsave. simpl.
  destruct (save_effect now doc db order HN Hid Hf _ _ Hsave)
    as (E1 & E2 & E3 & E4 & E5 & E6).
  right. exists user, s, v, order, saved.
  repeat split; try assumption; try reflexivity; try congruence.
  rewrite E6, Htl, Hmod, Hst, <- app_assoc. simpl.
  destruct (Status_eqb v (status order)); reflexivity.
Qed.

(** The refund route goes through only for a completed payment. *)
Lemma processRefund_cases now db (req : Request RefundBody) :
  (success (fst (processRefund now db req)) = false /\
   snd (processRefund now db req) = db) \/
  (exists user orderId order refund o',
      req.(req_user) = Some user /\
      req.(body).(rb_orderId) = Some orderId /\
      Order_findById db orderId = Some order /\
      canRefund user order = true /\
      order.(payment).(pay_status) = pay_completed /\
      stripe_refunds_create order.(payment).(stripePaymentIntentId)
        (refundAmountCents req.(body).(rb_amount)) = Ret refund /\
      success (fst (processRefund now db req)) = true /\
      rewritten db (snd (processRefund now db req)) order o' /\
      o'.(status) = refunded /\
      o'.(payment).(pay_status) = pay_refunded /\
      o'.(timeline) =
        (order.(timeline) ++
         mkTimelineEntry "refunded" now
           ("Refund processed: $" ++
            Number_toString (refund.(refund_amount) / 100)%float)
           (Some user.(u_id)) ::
         (if Status_eqb refunded order.(status) then []
          else [hookEntry now refunded]))%list).
Proof.
  unfold processRefund, protect.
  destruct (req_user req) as [user|]; [|rejected].
  destruct (rb_orderId (body req)) as [orderId|]; [|rejected].
  destruct (String.eqb orderId "") eqn:Hr; [rejected|].
  destruct (Order_findById db orderId) as [order|] eqn:Hf; [|rejected].
  destruct (canRefund user order) eqn:Hc; [|rejected].
  destruct (PaymentStatus_eqb _ pay_completed) eqn:Hp; [|rejected].
  destruct (stripe_refunds_create _ _) as [refund|e] eqn:Hstripe; [|rejected].
  simpl negb. cbv iota.
  match goal with
  | |- context [save now ?d db] => set (doc := d)
  end.
  assert (HN : doc.(isNew) = false) by (subst doc; doc_fact).
  rewrite (save_persists _ _ _ HN).
  assert (Hid : doc.(doc_order).(_id) = order.(_id)) by (subst doc; doc_fact).
  assert (Hst : doc.(doc_order).(status) = refunded) by (subst doc; doc_fact).
  assert (Hpay : doc.(doc_order).(payment).(pay_status) = pay_refunded).
  { subst doc. unfold set_status, timeline_push, modify, hydrate. simpl.
    destruct (status order); reflexivity. }
  assert (Hmod : doc.(isModified_status) = negb (Status_eqb refunded order.(status))).
  { subst doc. unfold set_status, timeline_push, modify, hydrate. simpl.
    destruct (status order); reflexivity. }
  assert (Htl : doc.(doc_order).(timeline) =
                (order.(timeline) ++
                 [mkTimelineEntry "refunded" now
                    ("Refund processed: $" ++
                     Number_toString (refund.(refund_amount) / 100)%float)
                    (Some user.(u_id))])%list) by (subst doc; doc_fact).
  pose proof (findById_id _ _ _ Hf) as Hpid. rewrite <- Hpid in Hf.
  destruct (persist now doc db) as [saved db'] eqn:Hsave. simpl.
  destruct (save_effect now doc db order HN Hid Hf _ _ Hsave)
    as (E1 & E2 & E3 & E4 & E5 & E6).
  right. exists user, orderId, order, refund, saved.
  rewrite Hpid in Hf.
  repeat split; try assumption; try reflexivity; try congruence.
  - destruct (pay_status (payment order)); try discriminate Hp; reflexivity.
  - rewrite E6, Htl, Hmod, Hst, <- app_assoc. simpl.
    destruct (status order); reflexivity.
Qed.

(** *** The webhook helpers *)

Lemma findByIntent_in db intent o :
  Order_findByIntent db intent = Some o ->
  In o db.(orders) /\ o.(payment).(stripePaymentIntentId) = Some intent.
Proof.
  unfold Order_findByIntent. intros H. apply find_some in H.
  destruct H as [Hin H]. split; [exact Hin|]. unfold byIntent in H.
  destruct (stripePaymentIntentId (payment o)) as [i|]; [|discriminate].
  apply String.eqb_eq in H. congruence.
Qed.

(** The success helper: the payment becomes completed; the status
    moves to confirmed from pending and is left alone otherwise; the
    hook adds its entry exactly in the first case. *)
Lemma handlePaymentSuccess_effect now db paymentIntent order data :
  Order_findByIntent db paymentIntent.(pi_id) = Some order ->
  paymentIntent.(charges_data) = Some data ->
  exists o',
    handlePaymentSuccess now db paymentIntent =
      Ret (with_orders (replace_order o' db.(orders)) db) /\
    o'.(_id) = order.(_id) /\
    o'.(status) =
      (if Status_eqb order.(status) pending then confirmed else order.(status)) /\
    o'.(payment).(pay_status) = pay_completed /\
    o'.(payment).(stripePaymentIntentId) = order.(payment).(stripePaymentIntentId) /\
    o'.(timeline) =
      (order.(timeline) ++
       (if Status_eqb order.(status) pending then [hookEntry now confirmed] else []))%list.
Proof.
  intros Hf Hd. unfold handlePaymentSuccess. rewrite Hf, Hd.
  match goal with
  | |- context [save now ?d db] => set (doc := d)
  end.
  assert (HN : doc.(isNew) = false)
    by (subst doc; destruct (Status_eqb (status order) pending); doc_fact).
  rewrite (save_persists _ _ _ HN).
  rewrite (save_loaded _ _ _ HN). simpl.
  eexists. split; [reflexivity|].
  rewrite pre_save_timeline_id, pre_save_timeline_status,
    pre_save_timeline_payment, pre_save_timeline_timeline, HN, andb_true_r.
  subst doc. destruct (Status_eqb (status order) pending) eqn:E.
  - apply Status_eqb_eq in E. unfold set_status, modify, hydrate. simpl.
    rewrite E. simpl. repeat split; reflexivity.
  - simpl. rewrite app_nil_r. repeat split; reflexivity.
Qed.

(** The refund helper writes [refunded] whatever the payment status
    was. *)
Lemma handleRefundCreated_effect now db refund order :
  Order_findByIntent db refund.(refund_payment_intent) = Some order ->
  exists o',
    handleRefundCreated now db refund =
      Ret (with_orders (replace_order o' db.(orders)) db) /\
    o'.(_id) = order.(_id) /\
    o'.(status) = refunded /\
    o'.(payment).(pay_status) = pay_refunded /\
    o'.(timeline) =
      (order.(timeline) ++
       (if Status_eqb refunded order.(status) then [] else [hookEntry now refunded]))%list.
Proof.
  intros Hf. unfold handleRefundCreated. rewrite Hf.
  match goal with
  | |- context [save now ?d db] => set (doc := d)
  end.
  assert (HN : doc.(isNew) = false) by (subst doc; doc_fact).
  rewrite (save_persists _ _ _ HN).
  rewrite (save_loaded _ _ _ HN). simpl.
  eexists. split; [reflexivity|].
  rewrite pre_save_timeline_id, pre_save_timeline_status,
    pre_save_timeline_payment, pre_save_timeline_timeline, HN, andb_true_r.
  subst doc. unfold set_status, modify, hydrate. simpl.
  destruct (status order) eqn:E; simpl; rewrite ?E, ?app_nil_r;
    repeat split; reflexivity.
Qed.

Lemma handlePaymentFailure_effect now db paymentIntent order :
  Order_findByIntent db paymentIntent.(pi_id) = Some order ->
  exists o',
    handlePaymentFailure now db paymentIntent =
      Ret (with_orders (replace_order o' db.(orders)) db) /\
    o'.(_id) = order.(_id) /\
    o'.(status) = cancelled /\
    o'.(payment).(pay_status) = pay_failed /\
    o'.(timeline) =
      (order.(timeline) ++
       (if Status_eqb cancelled order.(status) then [] else [hookEntry now cancelled]))%list.
Proof.
  intros Hf. unfold handlePaymentFailure. rewrite Hf.
  match goal with
  | |- context [save now ?d db] => set (doc := d)
  end.
  assert (HN : doc.(isNew) = false) by (subst doc; doc_fact).
  rewrite (save_persists _ _ _ HN).
  rewrite (save_loaded _ _ _ HN). simpl.
  eexists. split; [reflexivity|].
  rewrite pre_save_timeline_id, pre_save_timeline_status,
    pre_save_timeline_payment, pre_save_timeline_timeline, HN, andb_true_r.
  subst doc. unfold set_status, modify, hydrate. simpl.
  destruct (status order) eqn:E; simpl; rewrite ?E, ?app_nil_r;
    repeat split; reflexivity.
Qed.

(* ================================================================= *)
(** ** Cancellation (C7, C10) *)

(** C7.  For an order addressed by a cancel request, [canBeCancelled]
    is false exactly when the status is one of picked_up, on_the_way,
    delivered, cancelled, refunded, and true for every other status;
    the cancel route succeeds only when [canBeCancelled] is true, and
    then the stored order has status cancelled and carries the reason,
    the acting user and the time of the request; when
    [canBeCancelled] is false the request is rejected and nothing is
    written. *)
Theorem C7_cancel_only_while_cancellable
    now db (req : Request CancelBody) order :
  Order_findById db req.(params_id) = Some order ->
  (canBeCancelled order = false <->
   In order.(status) [picked_up; on_the_way; delivered; cancelled; refunded]) /\
  (canBeCancelled order = true <->
   ~ In order.(status) [picked_up; on_the_way; delivered; cancelled; refunded]) /\
  (success (fst (cancelOrder now db req)) = true ->
   canBeCancelled order = true /\
   exists user reason o',
     req.(req_user) = Some user /\
     req.(body).(cb_reason) = Some reason /\
     Order_findById (snd (cancelOrder now db req)) req.(params_id) = Some o' /\
     o'.(status) = cancelled /\
     o'.(cancellationReason) = Some reason /\
     o'.(cancelledBy) = Some user.(u_id) /\
     o'.(cancelledAt) = Some now) /\
  (canBeCancelled order = false ->
   success (fst (cancelOrder now db req)) = false /\
   snd (cancelOrder now db req) = db).
Proof.
  intros Hf. split; [apply canBeCancelled_false|]. split.
  { rewrite <- canBeCancelled_false.
    destruct (canBeCancelled order); split; intros H; congruence. }
  destruct (cancelOrder_cases now db req) as
    [[Hfail Hdb] | (user & reason & order' & o' & Hu & Hr & Hne & Hf' & Hc & Hb
                    & Hok & Hrw & Hst & Hcr & Hcb & Hca & Htl)].
  - split; [intros H; congruence | intros _; split; assumption].
  - assert (order' = order) by congruence. subst order'.
    destruct Hrw as (_ & _ & Hl & _).
    pose proof (findById_id _ _ _ Hf) as Hid. rewrite Hid in Hl.
    split.
    + intros _. split; [exact Hb|].
      exists user, reason, o'. repeat split; assumption.
    + intros H. congruence.
Qed.

(** The three rejections the cancel route names. *)
Lemma cancelOrder_rejects now db (req : Request CancelBody) user :
  req.(req_user) = Some user ->
  Order_findById db req.(params_id) = None \/
  (exists order,
      Order_findById db req.(params_id) = Some order /\
      (canCancel user order = false \/ canBeCancelled order = false)) ->
  success (fst (cancelOrder now db req)) = false.
Proof.
  intros Hu H.
  destruct (cancelOrder_cases now db req) as
    [[Hfail _] | (user' & reason & order' & o' & Hu' & _ & _ & Hf' & Hc & Hb & _)];
    [exact Hfail|].
  exfalso. assert (user' = user) by congruence. subst user'.
  destruct H as [H | (order & Hf & [H|H])]; congruence.
Qed.

(** C10.  A cancel request that is rejected, whether because the
    caller may not cancel the order, the order is not found, the order
    is not cancellable, or for any other reason the route reports as a
    failure, leaves the database as it was: the addressed order keeps
    its status, cancellationReason, cancelledBy, cancelledAt and
    timeline. *)
Theorem C10_rejected_cancel_changes_nothing now db (req : Request CancelBody) :
  success (fst (cancelOrder now db req)) = false \/
  (exists user,
      req.(req_user) = Some user /\
      (Order_findById db req.(params_id) = None \/
       exists order,
         Order_findById db req.(params_id) = Some order /\
         (canCancel user order = false \/ canBeCancelled order = false))) ->
  success (fst (cancelOrder now db req)) = false /\
  snd (cancelOrder now db req) = db /\
  forall order,
    Order_findById db req.(params_id) = Some order ->
    exists o',
      Order_findById (snd (cancelOrder now db req)) req.(params_id) = Some o' /\
      o'.(status) = order.(status) /\
      o'.(cancellationReason) = order.(cancellationReason) /\
      o'.(cancelledBy) = order.(cancelledBy) /\
      o'.(cancelledAt) = order.(cancelledAt) /\
      o'.(timeline) = order.(timeline).
Proof.
  intros H.
  assert (Hfail : success (fst (cancelOrder now db req)) = false).
  { destruct H as [H | (user & Hu & H)]; [exact H|].
    eapply cancelOrder_rejects; eassumption. }
  destruct (cancelOrder_cases now db req) as
    [[_ Hdb] | (user & reason & order' & o' & _ & _ & _ & _ & _ & _ & Hok & _)];
    [|congruence].
  split; [exact Hfail|]. split; [exact Hdb|].
  intros order Hf. exists order. rewrite Hdb. repeat split. exact Hf.
Qed.

(* ================================================================= *)
(** ** Webhook re-delivery (C8) *)

(** After the write the lookup by intent returns the written order. *)
Lemma findByIntent_replace os o' order intent :
  find (byIntent intent) os = Some order ->
  o'.(_id) = order.(_id) ->
  o'.(payment).(stripePaymentIntentId) = Some intent ->
  find (byIntent intent) (replace_order o' os) = Some o'.
Proof.
  intros Hf Hid Hi.
  assert (Ho' : byIntent intent o' = true).
  { unfold byIntent. rewrite Hi. apply String.eqb_refl. }
  induction os as [|y os IH]; simpl in *; [discriminate|].
  destruct (String.eqb y.(_id) o'.(_id)) eqn:E.
  - rewrite Ho'. reflexivity.
  - destruct (byIntent intent y) eqn:Ey.
    + inversion Hf; subst y. rewrite Hid, String.eqb_refl in E. discriminate.
    + apply IH. exact Hf.
Qed.

(** Writing [o2] over [o1] does not change the view when both show
    the same status and payment status. *)
Lemma statusView_replace_twice os o1 o2 :
  o2.(_id) = o1.(_id) ->
  o2.(status) = o1.(status) ->
  o2.(payment).(pay_status) = o1.(payment).(pay_status) ->
  map (fun o => (o.(_id), o.(status), o.(payment).(pay_status)))
      (replace_order o2 (replace_order o1 os))
  = map (fun o => (o.(_id), o.(status), o.(payment).(pay_status)))
        (replace_order o1 os).
Proof.
  intros Hid Hs Hp. induction os as [|y os IH]; simpl; [reflexivity|].
  rewrite IH. f_equal.
  destruct (String.eqb y.(_id) o1.(_id)) eqn:E.
  - rewrite Hid, String.eqb_refl. congruence.
  - rewrite Hid, E. reflexivity.
Qed.

Lemma webhook_succeeded now db paymentIntent :
  snd (webhook now db (Ret (payment_intent_succeeded paymentIntent))) =
  match handlePaymentSuccess now db paymentIntent with
  | Ret db' => db'
  | Throw _ => db
  end.
Proof. unfold webhook. destruct (handlePaymentSuccess _ _ _); reflexivity. Qed.

(** C8.  Delivering the same payment_intent.succeeded event a second
    time leaves every order's status and payment status as the first
    delivery left them. *)
Theorem C8_payment_succeeded_redelivery_idempotent
    now1 now2 db (paymentIntent : PaymentIntent) :
  let event := Ret (payment_intent_succeeded paymentIntent) in
  let db1 := snd (webhook now1 db event) in
  let db2 := snd (webhook now2 db1 event) in
  statusView db2 = statusView db1.
Proof.
  cbv zeta. rewrite !webhook_succeeded.
  destruct (Order_findByIntent db paymentIntent.(pi_id)) as [order|] eqn:Hf.
  2:{ assert (E : handlePaymentSuccess now1 db paymentIntent = Ret db)
        by (unfold handlePaymentSuccess; rewrite Hf; reflexivity).
      rewrite E.
      assert (E' : handlePaymentSuccess now2 db paymentIntent = Ret db)
        by (unfold handlePaymentSuccess; rewrite Hf; reflexivity).
      rewrite E'. reflexivity. }
  destruct (charges_data paymentIntent) as [data|] eqn:Hd.
  2:{ assert (E : forall now, exists e, handlePaymentSuccess now db paymentIntent = Throw e)
        by (intros n; unfold handlePaymentSuccess; rewrite Hf, Hd; eexists; reflexivity).
      destruct (E now1) as [e1 ->]. destruct (E now2) as [e2 ->]. reflexivity. }
  destruct (handlePaymentSuccess_effect now1 db paymentIntent order data Hf Hd)
    as (o1 & E1 & Hid1 & Hs1 & Hp1 & Hi1 & _).
  rewrite E1.
  set (db1 := with_orders (replace_order o1 (orders db)) db).
  assert (Hf1 : Order_findByIntent db1 paymentIntent.(pi_id) = Some o1).
  { unfold Order_findByIntent, db1. simpl.
    apply (findByIntent_replace _ _ order); [exact Hf | exact Hid1 |].
    rewrite Hi1. apply (findByIntent_in _ _ _ Hf). }
  destruct (handlePaymentSuccess_effect now2 db1 paymentIntent o1 data Hf1 Hd)
    as (o2 & E2 & Hid2 & Hs2 & Hp2 & _).
  rewrite E2.
  unfold statusView, db1. simpl.
  apply statusView_replace_twice; [exact Hid2 | | congruence].
  rewrite Hs2, Hs1.
  destruct (Status_eqb (status order) pending) eqn:E; [reflexivity|].
  rewrite E. reflexivity.
Qed.

(* ================================================================= *)
(** ** Timeline entries per status change (C1) *)

(** C1.  The claim asks for exactly one new timeline entry per status
    change.  A successful status update by the restaurant route
    extends the timeline by the handler's own entry and, whenever the
    stored status really changes, by the entry of the [pre('save')]
    hook as well: two entries for one status change.  The old
    timeline stays a prefix of the new one. *)
Theorem C1_status_update_timeline now db (req : Request StatusBody) order :
  Order_findById db req.(params_id) = Some order ->
  success (fst (updateOrderStatus now db req)) = true ->
  exists user s v o',
    req.(req_user) = Some user /\
    req.(body).(sb_status) = Some s /\
    Status_of_string s = Some v /\
    Order_findById (snd (updateOrderStatus now db req)) req.(params_id) = Some o' /\
    o'.(status) = v /\
    o'.(timeline) =
      (order.(timeline) ++
       mkTimelineEntry (Status_str v) now ("Order status updated to " ++ s)
         (Some user.(u_id)) ::
       (if Status_eqb v order.(status) then [] else [hookEntry now v]))%list /\
    (v <> order.(status) ->
     List.length o'.(timeline) = 2 + List.length order.(timeline)).
Proof.
  intros Hf Hok.
  destruct (updateOrderStatus_cases now db req) as
    [[Hfail _] | (user & s & v & order' & o' & Hu & _ & Hs & _ & Hv & Hf' & _ & _
                  & Hrw & Hst & _ & Htl)]; [congruence|].
  assert (order' = order) by congruence. subst order'.
  destruct Hrw as (_ & _ & Hl & _).
  rewrite (findById_id _ _ _ Hf) in Hl.
  exists user, s, v, o'. repeat split; try assumption.
  intros Hne. rewrite Htl.
  apply Status_eqb_neq in Hne. rewrite Hne.
  rewrite length_app. simpl. lia.
Qed.

(* ================================================================= *)
(** ** Opening hours (C3) *)

(** C3.  The claim has [isCurrentlyOpen] evaluate without raising for
    every restaurant and time, and order creation proceed for an open
    restaurant.  For a restaurant that is active and switched open the
    check throws a [TypeError] (a [Date] has no [toLocaleLowerCase]);
    otherwise it answers false.  It never answers true, so the route
    creates no order for any request: it leaves the database as it
    was and reports failure. *)
Theorem C3_isCurrentlyOpen_raises now fresh db (req : Request OrderBody)
    (rst : Restaurant) :
  isCurrentlyOpen rst now =
    (if negb rst.(isOpen) || negb rst.(isActive) then Ret false
     else Throw (TypeError "now.toLocaleLowerCase is not a function")) /\
  success (fst (createOrder now fresh db req)) = false /\
  snd (createOrder now fresh db req) = db.
Proof.
  assert (Hopen : forall r,
             isCurrentlyOpen r now =
             (if negb r.(isOpen) || negb r.(isActive) then Ret false
              else Throw (TypeError "now.toLocaleLowerCase is not a function"))).
  { intros r. unfold isCurrentlyOpen.
    destruct (negb (isOpen r) || negb (isActive r)); reflexivity. }
  split; [apply Hopen|].
  unfold createOrder, protect.
  destruct (req_user req) as [user|]; [|split; reflexivity].
  match goal with
  | |- context [if negb ?c then (validationFailed, db) else _] => destruct c
  end; [|split; reflexivity].
  simpl negb. cbv iota.
  destruct (ob_restaurant (body req)) as [restaurantId|]; [|split; reflexivity].
  destruct (ob_orderType (body req)) as [ot|]; [|split; reflexivity].
  destruct (OrderType_of_string ot) as [orderType|]; [|split; reflexivity].
  destruct (Restaurant_findById db restaurantId) as [r|]; [|split; reflexivity].
  destruct (isActive r) eqn:Ha; [|split; reflexivity].
  simpl negb. cbv iota.
  rewrite Hopen, Ha. simpl.
  destruct (isOpen r); simpl; split; reflexivity.
Qed.

(* ================================================================= *)
(** ** Refunds (C9) *)

(** The refund route refuses a payment that is not completed and
    writes nothing. *)
Lemma processRefund_requires_completed now db (req : Request RefundBody) :
  success (fst (processRefund now db req)) = true ->
  exists orderId order,
    req.(body).(rb_orderId) = Some orderId /\
    Order_findById db orderId = Some order /\
    order.(payment).(pay_status) = pay_completed.
Proof.
  intros Hok.
  destruct (processRefund_cases now db req) as
    [[Hfail _] | (user & orderId & order & refund & o' & _ & Hb & Hf & _ & Hp & _)];
    [congruence|].
  exists orderId, order. repeat split; assumption.
Qed.

(** C9.  The claim lets a refund be applied only to a completed
    payment.  The refund webhook helper applies it to the order it
    finds whatever that order's payment status is: the stored payment
    status becomes refunded and the order status refunded. *)
Theorem C9_refund_webhook_ignores_payment_status now db refund order :
  Order_findByIntent db refund.(refund_payment_intent) = Some order ->
  exists o',
    handleRefundCreated now db refund =
      Ret (with_orders (replace_order o' db.(orders)) db) /\
    o'.(_id) = order.(_id) /\
    o'.(payment).(pay_status) = pay_refunded /\
    o'.(status) = refunded.
Proof.
  intros Hf.
  destruct (handleRefundCreated_effect now db refund order Hf)
    as (o' & E & Hid & Hs & Hp & _).
  exists o'. repeat split; assumption.
Qed.

(* ================================================================= *)
(** ** Status transitions (C2) *)

(** C2, as amended.  The three status-update routes store the status
    the request names, taken from the route's own list, whatever the
    current status is; the cancel route stores cancelled and only for
    an order that [canBeCancelled]; assign-delivery stores picked_up
    and only from ready_for_pickup; the payment-success helper moves
    pending to confirmed and leaves every other status as it is. *)
Theorem C2_transitions_by_operation now db :
  (forall (req : Request StatusBody),
      success (fst (updateOrderStatus now db req)) = true ->
      exists s v order o',
        req.(body).(sb_status) = Some s /\ In s restaurantStatuses /\
        Status_of_string s = Some v /\
        Order_findById db req.(params_id) = Some order /\
        Order_findById (snd (updateOrderStatus now db req)) req.(params_id) = Some o' /\
        o'.(status) = v) /\
  (forall (req : Request StatusBody),
      success (fst (adminUpdateOrderStatus now db req)) = true ->
      exists s v order o',
        req.(body).(sb_status) = Some s /\ In s adminStatuses /\
        Status_of_string s = Some v /\
        Order_findById db req.(params_id) = Some order /\
        Order_findById (snd (adminUpdateOrderStatus now db req)) req.(params_id) = Some o' /\
        o'.(status) = v) /\
  (forall (req : Request DeliveryBody),
      success (fst (updateDeliveryStatus now db req)) = true ->
      exists s v order o',
        req.(body).(db_status) = Some s /\ In s deliveryStatuses /\
        Status_of_string s = Some v /\
        Order_findById db req.(params_id) = Some order /\
        Order_findById (snd (updateDeliveryStatus now db req)) req.(params_id) = Some o' /\
        o'.(status) = v) /\
  (forall (req : Request CancelBody),
      success (fst (cancelOrder now db req)) = true ->
      exists order o',
        Order_findById db req.(params_id) = Some order /\
        canBeCancelled order = true /\
        Order_findById (snd (cancelOrder now db req)) req.(params_id) = Some o' /\
        o'.(status) = cancelled /\
        specPermits order o'.(status) = true) /\
  (forall (req : Request unit),
      success (fst (assignDelivery now db req)) = true ->
      exists order o',
        Order_findById db req.(params_id) = Some order /\
        order.(status) = ready_for_pickup /\
        Order_findById (snd (assignDelivery now db req)) req.(params_id) = Some o' /\
        o'.(status) = picked_up /\
        specPermits order o'.(status) = true) /\
  (forall paymentIntent order data,
      Order_findByIntent db paymentIntent.(pi_id) = Some order ->
      paymentIntent.(charges_data) = Some data ->
      exists o',
        handlePaymentSuccess now db paymentIntent =
          Ret (with_orders (replace_order o' db.(orders)) db) /\
        o'.(_id) = order.(_id) /\
        o'.(status) =
          (if Status_eqb order.(status) pending then confirmed else order.(status)) /\
        specPermits order o'.(status) = true).
Proof.
  repeat split.
  - intros req Hok.
    destruct (updateOrderStatus_cases now db req) as
      [[Hfail _] | (user & s & v & order & o' & _ & _ & Hs & Hin & Hv & Hf & _ & _
                    & Hrw & Hst & _)]; [congruence|].
    destruct Hrw as (_ & _ & Hl & _). rewrite (findById_id _ _ _ Hf) in Hl.
    exists s, v, order, o'. repeat split; assumption.
  - intros req Hok.
    destruct (adminUpdateOrderStatus_cases now db req) as
      [[Hfail _] | (user & s & v & order & o' & _ & _ & Hs & Hin & Hv & Hf & _ & _
                    & Hrw & Hst & _)]; [congruence|].
    destruct Hrw as (_ & _ & Hl & _). rewrite (findById_id _ _ _ Hf) in Hl.
    exists s, v, order, o'. repeat split; assumption.
  - intros req Hok.
    destruct (updateDeliveryStatus_cases now db req) as
      [[Hfail _] | (user & s & v & order & o' & _ & _ & Hs & Hin & Hv & Hf & _
                    & Hrw & Hst & _)]; [congruence|].
    destruct Hrw as (_ & _ & Hl & _). rewrite (findById_id _ _ _ Hf) in Hl.
    exists s, v, order, o'. repeat split; assumption.
  - intros req Hok.
    destruct (cancelOrder_cases now db req) as
      [[Hfail _] | (user & reason & order & o' & _ & _ & _ & Hf & _ & Hb & _
                    & Hrw & Hst & _)]; [congruence|].
    destruct Hrw as (_ & _ & Hl & _). rewrite (findById_id _ _ _ Hf) in Hl.
    exists order, o'. repeat split; try assumption.
    rewrite Hst. unfold specPermits.
    apply canBeCancelled_true in Hb. unfold canBeCancelled.
    destruct (status order); simpl in *; try reflexivity;
      repeat (destruct Hb as [Hb|Hb]; try discriminate Hb); contradiction.
  - intros req Hok.
    destruct (assignDelivery_cases now db req) as
      [[Hfail _] | (user & order & o' & _ & _ & Hf & _ & Hs & _ & Hrw & Hst & _)];
      [congruence|].
    destruct Hrw as (_ & _ & Hl & _). rewrite (findById_id _ _ _ Hf) in Hl.
    exists order, o'. repeat split; try assumption.
    rewrite Hst. unfold specPermits. rewrite Hs. reflexivity.
  - intros paymentIntent order data Hf Hd.
    destruct (handlePaymentSuccess_effect now db paymentIntent order data Hf Hd)
      as (o' & E & Hid & Hs & _).
    exists o'. repeat split; try assumption.
    rewrite Hs. unfold specPermits, canBeCancelled.
    destruct (status order); reflexivity.
Qed.

(* ================================================================= *)
(** ** Pricing of a new order (C4, C5, C6) *)

Lemma addSelectedOptions_sum config selected totalPrice :
  addSelectedOptions config selected totalPrice =
  fold_left PrimFloat.add
    (flat_map
       (fun optionName =>
          match find (fun o => String.eqb o.(opt_name) optionName)
                     config.(options) with
          | Some o => [o.(opt_price)]
          | None => []
          end)
       selected)
    totalPrice.
Proof.
  unfold addSelectedOptions. revert totalPrice.
  induction selected as [|n selected IH]; intros t; simpl; [reflexivity|].
  rewrite fold_left_app, IH.
  destruct (find _ (options config)); reflexivity.
Qed.

Lemma addCustomizations_sum this cs totalPrice t' :
  addCustomizations this cs totalPrice = Ret t' ->
  t' = fold_left PrimFloat.add (selectedSurcharges this cs) totalPrice.
Proof.
  revert totalPrice. induction cs as [|c cs IH]; intros t; simpl.
  - intros H. inversion H. reflexivity.
  - unfold selectedSurcharges. simpl. fold (selectedSurcharges this cs).
    rewrite fold_left_app.
    destruct (find _ (customizations this)) as [cfg|].
    + destruct (rc_selectedOptions c) as [sel|]; [|discriminate].
      intros H. apply IH in H. rewrite H, addSelectedOptions_sum. reflexivity.
    + simpl. apply IH.
Qed.

(** Halves upward on a non-negative fraction [m / den]. *)
Lemma nearest_of_fraction (m den half : Z) :
  (0 <= m)%Z -> (0 < half)%Z -> den = (2 * half)%Z ->
  ((2 * m + den) / (2 * den))%Z
  = (if (half <=? m mod den)%Z then m / den + 1 else m / den)%Z.
Proof.
  intros Hm Hh ->.
  pose proof (Z.div_mod m (2 * half) ltac:(lia)) as E.
  pose proof (Z.mod_pos_bound m (2 * half) ltac:(lia)) as B.
  set (q := (m / (2 * half))%Z) in *. set (r := (m mod (2 * half))%Z) in *.
  destruct (Z.leb_spec half r).
  - symmetry. apply Z.div_unique with (r := (2 * r - 2 * half)%Z); lia.
  - symmetry. apply Z.div_unique with (r := (2 * r + 2 * half)%Z); lia.
Qed.

(** Halves upward on a non-positive fraction [- m / den]. *)
Lemma nearest_of_negated_fraction (m den half : Z) :
  (0 <= m)%Z -> (0 < half)%Z -> den = (2 * half)%Z ->
  ((- (2 * m) + den) / (2 * den))%Z
  = (- (if (half <? m mod den)%Z then m / den + 1 else m / den))%Z.
Proof.
  intros Hm Hh ->.
  pose proof (Z.div_mod m (2 * half) ltac:(lia)) as E.
  pose proof (Z.mod_pos_bound m (2 * half) ltac:(lia)) as B.
  set (q := (m / (2 * half))%Z) in *. set (r := (m mod (2 * half))%Z) in *.
  destruct (Z.ltb_spec half r).
  - symmetry. apply Z.div_unique with (r := (6 * half - 2 * r)%Z); lia.
  - symmetry. apply Z.div_unique with (r := (2 * half - 2 * r)%Z); lia.
Qed.

(** [Math.round] returns the nearest integer, a half going upward. *)
Lemma Math_round_nearest (y : Number) : Math_round y = nearestInteger y.
Proof.
  unfold Math_round, nearestInteger.
  destruct (Prim2SF y) as [| | |s m e]; try reflexivity.
  destruct (Z.leb_spec 0 e) as [|He]; [reflexivity|].
  cbv zeta.
  assert (Hk : (0 <= - e - 1)%Z) by lia.
  assert (Hden : (2 ^ (- e) = 2 * 2 ^ (- e - 1))%Z).
  { replace (- e)%Z with (Z.succ (- e - 1)) at 1 by lia.
    apply Z.pow_succ_r. exact Hk. }
  assert (Hhalf : (0 < 2 ^ (- e - 1))%Z) by (apply Z.pow_pos_nonneg; lia).
  rewrite Z.shiftr_div_pow2, Z.land_ones, Z.shiftl_mul_pow2, Z.mul_1_l by lia.
  destruct s; unfold andb; cbv beta iota.
  - rewrite (nearest_of_negated_fraction (Zpos m) _ _ ltac:(lia) Hhalf Hden).
    set (mag := (if (2 ^ (- e - 1) <? Zpos m mod 2 ^ (- e))%Z
                 then Zpos m / 2 ^ (- e) + 1 else Zpos m / 2 ^ (- e))%Z).
    assert (Hmag : (0 <= mag)%Z).
    { subst mag. pose proof (Z.div_pos (Zpos m) (2 ^ (- e)) ltac:(lia) ltac:(lia)).
      destruct (_ <? _)%Z; lia. }
    destruct (Z.eqb_spec (- mag) 0) as [E0|N0].
    + assert (mag = 0%Z) as -> by lia. reflexivity.
    + unfold Number_of_Z.
      destruct (Z.ltb_spec (- mag) 0); [|lia].
      rewrite Z.opp_involutive. reflexivity.
  - rewrite (nearest_of_fraction (Zpos m) _ _ ltac:(lia) Hhalf Hden).
    set (mag := (if (2 ^ (- e - 1) <=? Zpos m mod 2 ^ (- e))%Z
                 then Zpos m / 2 ^ (- e) + 1 else Zpos m / 2 ^ (- e))%Z).
    assert (Hmag : (0 <= mag)%Z).
    { subst mag. pose proof (Z.div_pos (Zpos m) (2 ^ (- e)) ltac:(lia) ltac:(lia)).
      destruct (_ <=? _)%Z; lia. }
    unfold Number_of_Z. destruct (Z.ltb_spec mag 0); [lia | reflexivity].
Qed.

(** [calculatePrice] refines the specification's unit price: the
    discount of [discountedPrice], the surcharges added by the two
    loops and the rounding are those of the specification. *)
Lemma calculatePrice_spec this cs p :
  calculatePrice this cs = Ret p -> p = specUnitPrice this cs.
Proof.
  unfold calculatePrice, bind, specUnitPrice, round2.
  destruct (addCustomizations this cs (discountedPrice this)) as [t|] eqn:E;
    [|discriminate].
  intros H. inversion H. apply addCustomizations_sum in E.
  rewrite E, Math_round_nearest. reflexivity.
Qed.

(** The item loop keeps the running subtotal equal to the sum of the
    lines it has stored, and stores one priced line per requested
    item. *)
Lemma validateItems_spec db restaurantId items acc acc' :
  validateItems db restaurantId items acc = Continue acc' ->
  exists lines,
    acc'.(acc_validatedItems) = (acc.(acc_validatedItems) ++ lines)%list /\
    Forall2 (linePriced db) items lines /\
    acc'.(acc_subtotal) =
      fold_left (fun a it => (a + it.(oi_price) * it.(oi_quantity))%float)
        lines acc.(acc_subtotal).
Proof.
  revert acc. induction items as [|item items IH]; intros acc; simpl.
  - intros H. inversion H. exists []. rewrite app_nil_r.
    repeat split. constructor.
  - destruct (MenuItem_findById db (ri_menuItem item)) as [menuItem|] eqn:Hm;
      [|discriminate].
    destruct (isAvailable menuItem); [|discriminate].
    destruct (String.eqb (mi_restaurant menuItem) restaurantId); [|discriminate].
    simpl negb. cbv iota.
    destruct (calculatePrice menuItem (customizationsOf item)) as [itemPrice|] eqn:Hp;
      [|discriminate].
    intros H. apply IH in H. destruct H as (lines & Hl & Hfa & Hsum).
    simpl in Hl, Hsum.
    eexists (_ :: lines). repeat split.
    + rewrite Hl, <- app_assoc. reflexivity.
    + constructor; [|exact Hfa].
      exists menuItem. simpl. repeat split; try assumption.
      apply calculatePrice_spec. exact Hp.
    + simpl. exact Hsum.
Qed.

Lemma validateItems_respond db restaurantId items acc r :
  validateItems db restaurantId items acc = Respond r -> http_status r = 400.
Proof.
  revert acc. induction items as [|item items IH]; intros acc; simpl; [discriminate|].
  destruct (MenuItem_findById db (ri_menuItem item)) as [menuItem|];
    [|intros H; inversion H; reflexivity].
  destruct (isAvailable menuItem); [|intros H; inversion H; reflexivity].
  destruct (String.eqb (mi_restaurant menuItem) restaurantId);
    [|intros H; inversion H; reflexivity].
  simpl negb. cbv iota.
  destruct (calculatePrice menuItem (customizationsOf item)); [|discriminate].
  apply IH.
Qed.

Lemma checkDeliveryAddress_respond rst orderType address r :
  checkDeliveryAddress rst orderType address = Some r -> http_status r = 400.
Proof.
  unfold checkDeliveryAddress. destruct orderType; [|discriminate].
  destruct address as [a|]; [|intros H; inversion H; reflexivity].
  destruct (addr_coordinates a) as [c|]; [|intros H; inversion H; reflexivity].
  destruct (deliversTo rst (lat c) (lng c)); [discriminate|].
  intros H; inversion H; reflexivity.
Qed.

Lemma validateItems_respond_fails db restaurantId requested acc r :
  validateItems db restaurantId requested acc = Respond r -> success r = false.
Proof.
  revert acc. induction requested as [|item requested IH]; intros acc; simpl;
    [discriminate|].
  destruct (MenuItem_findById db (ri_menuItem item)) as [menuItem|];
    [|intros H; inversion H; reflexivity].
  destruct (isAvailable menuItem); [|intros H; inversion H; reflexivity].
  destruct (String.eqb (mi_restaurant menuItem) restaurantId);
    [|intros H; inversion H; reflexivity].
  simpl negb. cbv iota.
  destruct (calculatePrice menuItem (customizationsOf item)); [|discriminate].
  apply IH.
Qed.

Lemma checkDeliveryAddress_fails rst orderType address r :
  checkDeliveryAddress rst orderType address = Some r -> success r = false.
Proof.
  unfold checkDeliveryAddress. destruct orderType; [|discriminate].
  destruct address as [a|]; [|intros H; inversion H; reflexivity].
  destruct (addr_coordinates a) as [c|]; [|intros H; inversion H; reflexivity].
  destruct (deliversTo rst (lat c) (lng c)); [discriminate|].
  intros H; inversion H; reflexivity.
Qed.

(** [save] rejects the document the handler builds: when validation
    runs it has no order number. *)
Lemma save_newOrder_rejected now fresh db user rst restaurantId orderType b acc :
  let order := newOrder fresh user rst restaurantId orderType b acc in
  exists e,
    save now
      (modify (with_estimatedDeliveryTime
                 (Some (calculateEstimatedDeliveryTime order now)))
         (mkDoc order true true)) db
    = Throw e.
Proof. eexists. reflexivity. Qed.

(** Past the minimum-order check the handler body answers 500 and
    stores nothing. *)
Lemma placeOrder_past_the_gate now fresh db user rst restaurantId orderType b acc :
  checkDeliveryAddress rst orderType b.(ob_deliveryAddress) = None ->
  validateItems db restaurantId b.(ob_items) (mkItemsAcc 0%float 0%float [])
    = Continue acc ->
  (acc.(acc_subtotal) <? rst.(minimumOrder))%float = false ->
  placeOrder now fresh db user rst restaurantId orderType b
    = (fail 500 "Failed to create order", db).
Proof.
  intros Hc Hv Hmin. unfold placeOrder. rewrite Hc, Hv. cbv zeta. rewrite Hmin.
  reflexivity.
Qed.

(** The handler body never stores an order: every path ends in a
    failure response and the database it was given. *)
Lemma placeOrder_fails now fresh db user rst restaurantId orderType b :
  success (fst (placeOrder now fresh db user rst restaurantId orderType b)) = false /\
  snd (placeOrder now fresh db user rst restaurantId orderType b) = db.
Proof.
  destruct (checkDeliveryAddress rst orderType (ob_deliveryAddress b)) as [r|] eqn:Hc.
  { unfold placeOrder. rewrite Hc.
    split; [exact (checkDeliveryAddress_fails _ _ _ _ Hc) | reflexivity]. }
  destruct (validateItems db restaurantId (ob_items b) (mkItemsAcc 0%float 0%float []))
    as [acc|r|e] eqn:Hv.
  - destruct (acc_subtotal acc <? minimumOrder rst)%float eqn:Hmin.
    + unfold placeOrder. rewrite Hc, Hv. cbv zeta. rewrite Hmin. split; reflexivity.
    + rewrite (placeOrder_past_the_gate _ _ _ _ _ _ _ _ _ Hc Hv Hmin).
      split; reflexivity.
  - unfold placeOrder. rewrite Hc, Hv.
    split; [exact (validateItems_respond_fails _ _ _ _ _ Hv) | reflexivity].
  - unfold placeOrder. rewrite Hc, Hv. split; reflexivity.
Qed.

(** C4.  The pricing the handler computes for an order, which is the
    pricing of the document it builds: the total is subtotal + tax +
    delivery fee + service fee - discount, with tax 8% and service fee
    2% of the subtotal, the delivery fee the restaurant's flat fee for
    a delivery order and 0 for pickup, and the discount 10% of the
    subtotal for the promo code WELCOME10 and 0 otherwise (binary64
    arithmetic, in the order the source writes it).  A delivery cart
    of subtotal 20 with delivery fee 3 and no promo code totals
    exactly 25. *)
Theorem C4_total_of_created_order
    (cartSubtotal : Number) orderType rst (promo : option PromoCode) :
  let p := computePricing cartSubtotal orderType rst promo in
  p.(subtotal) = cartSubtotal /\
  p.(tax) = (cartSubtotal * 0.08)%float /\
  p.(serviceFee) = (cartSubtotal * 0.02)%float /\
  p.(deliveryFee) =
    match orderType with delivery => rst.(r_deliveryFee) | pickup => 0%float end /\
  p.(discount) =
    match promo with
    | Some pc => if String.eqb pc.(promo_code) "WELCOME10"
                 then (cartSubtotal * 0.1)%float else 0%float
    | None => 0%float
    end /\
  p.(total) =
    (p.(subtotal) + p.(tax) + p.(deliveryFee) + p.(serviceFee) - p.(discount))%float /\
  (cartSubtotal = 20%float -> rst.(r_deliveryFee) = 3%float ->
   orderType = delivery -> promo = None ->
   p.(total) = 25%float) /\
  (computePricing 20%float delivery Sample.diner None).(total) = 25%float /\
  forall fresh user restaurantId (b : OrderBody) acc,
    acc.(acc_subtotal) = cartSubtotal -> b.(ob_promoCode) = promo ->
    (newOrder fresh user rst restaurantId orderType b acc).(pricing) = p.
Proof.
  cbv zeta. unfold computePricing. simpl.
  do 6 (split; [reflexivity|]).
  split; [|split].
  - intros Hs Hfee Hot Hpromo. rewrite Hs, Hfee, Hot, Hpromo. reflexivity.
  - reflexivity.
  - intros fresh user restaurantId b acc <- <-. reflexivity.
Qed.

(** C5.  When the item loop runs through, the subtotal it has computed
    is the sum over the lines it has validated of unit price times
    quantity (a left-to-right binary64 sum from 0), there is one line
    per requested item, in order, and each line's unit price is the
    menu item's base price after its percentage discount plus the
    surcharges of the selected options, rounded to the nearest
    hundredth.  The document the handler builds carries these lines
    and this subtotal. *)
Theorem C5_subtotal_is_sum_of_lines
    db restaurantId (requested : list ReqItem) acc :
  validateItems db restaurantId requested (mkItemsAcc 0%float 0%float [])
    = Continue acc ->
  acc.(acc_subtotal) = sumLines acc.(acc_validatedItems) /\
  Forall2 (linePriced db) requested acc.(acc_validatedItems) /\
  forall fresh user rst orderType (b : OrderBody),
    let o := newOrder fresh user rst restaurantId orderType b acc in
    o.(items) = acc.(acc_validatedItems) /\
    o.(pricing).(subtotal) = sumLines o.(items).
Proof.
  intros Hv.
  destruct (validateItems_spec _ _ _ _ _ Hv) as (lines & Hl & Hfa & Hsum).
  simpl in Hl, Hsum.
  assert (Hs : acc.(acc_subtotal) = sumLines acc.(acc_validatedItems))
    by (rewrite Hl; exact Hsum).
  split; [exact Hs|]. split; [rewrite Hl; exact Hfa|].
  intros fresh user rst orderType b. cbv zeta. split; [reflexivity|].
  simpl. exact Hs.
Qed.



(* ================================================================= *)
(** ** The timeline only grows *)

Lemma find_app_some {A} (f : A -> bool) (l l' : list A) (x : A) :
  find f l = Some x -> find f (l ++ l') = Some x.
Proof.
  induction l as [|y l IH]; simpl; [discriminate|].
  destruct (f y); [intros H; exact H | exact IH].
Qed.

Lemma extends_refl db : extends db db.
Proof. intros id o Hf. exists o, []. rewrite app_nil_r. split; [exact Hf | reflexivity]. Qed.

Lemma rewritten_extends db db' order o' l :
  rewritten db db' order o' ->
  o'.(timeline) = (order.(timeline) ++ l)%list ->
  extends db db'.
Proof.
  intros (Hf & Hdb & Hl & Hid) Htl id o Ho.
  destruct (String.eqb order.(_id) id) eqn:E.
  - apply String.eqb_eq in E. subst id.
    assert (o = order) by congruence. subst o.
    exists o', l. split; assumption.
  - apply String.eqb_neq in E. exists o, []. rewrite app_nil_r.
    split; [|reflexivity]. subst db'. unfold Order_findById in *. simpl.
    rewrite find_replace_other; [exact Ho | congruence].
Qed.

Lemma unique_findById db o :
  NoDup (map _id db.(orders)) -> In o db.(orders) ->
  Order_findById db o.(_id) = Some o.
Proof.
  unfold Order_findById. induction (orders db) as [|y os IH]; simpl; [tauto|].
  intros Hnd [->|Hin].
  - rewrite String.eqb_refl. reflexivity.
  - inversion Hnd as [|? ? Hy Hos]; subst.
    destruct (String.eqb y.(_id) o.(_id)) eqn:E.
    + apply String.eqb_eq in E. exfalso. apply Hy. rewrite E.
      apply in_map. exact Hin.
    + apply IH; assumption.
Qed.

Lemma replaced_extends db order o' l :
  NoDup (map _id db.(orders)) -> In order db.(orders) ->
  o'.(_id) = order.(_id) ->
  o'.(timeline) = (order.(timeline) ++ l)%list ->
  extends db (with_orders (replace_order o' db.(orders)) db).
Proof.
  intros Hnd Hin Hid Htl.
  pose proof (unique_findById db order Hnd Hin) as Hf.
  apply (rewritten_extends db _ order o' l); [|exact Htl].
  repeat split; try assumption.
  unfold Order_findById in *. simpl. rewrite <- Hid in *.
  eapply find_replace_same. exact Hf.
Qed.

(** Whatever a route or the webhook writes, every stored order keeps
    its old timeline as a prefix of the new one. *)
Theorem timelines_only_grow now db :
  (forall req, extends db (snd (updateOrderStatus now db req))) /\
  (forall req, extends db (snd (adminUpdateOrderStatus now db req))) /\
  (forall req, extends db (snd (assignDelivery now db req))) /\
  (forall req, extends db (snd (updateDeliveryStatus now db req))) /\
  (forall req, extends db (snd (cancelOrder now db req))) /\
  (forall req, extends db (snd (processRefund now db req))) /\
  (forall fresh user rst restaurantId orderType b,
      extends db (snd (placeOrder now fresh db user rst restaurantId orderType b))) /\
  (forall event,
      NoDup (map _id db.(orders)) -> extends db (snd (webhook now db event))).
Proof.
  repeat split.
  - intros req.
    destruct (updateOrderStatus_cases now db req) as
      [[_ ->] | (? & ? & ? & order & o' & _ & _ & _ & _ & _ & _ & _ & _ & Hrw & _ & _ & Htl)];
      [apply extends_refl | eapply rewritten_extends; eassumption].
  - intros req.
    destruct (adminUpdateOrderStatus_cases now db req) as
      [[_ ->] | (? & ? & ? & order & o' & _ & _ & _ & _ & _ & _ & _ & _ & Hrw & _ & _ & Htl)];
      [apply extends_refl | eapply rewritten_extends; eassumption].
  - intros req.
    destruct (assignDelivery_cases now db req) as
      [[_ ->] | (? & order & o' & _ & _ & _ & _ & _ & _ & Hrw & _ & _ & Htl)];
      [apply extends_refl | eapply rewritten_extends; eassumption].
  - intros req.
    destruct (updateDeliveryStatus_cases now db req) as
      [[_ ->] | (? & ? & ? & order & o' & _ & _ & _ & _ & _ & _ & _ & Hrw & _ & _ & Htl)];
      [apply extends_refl | eapply rewritten_extends; eassumption].
  - intros req.
    destruct (cancelOrder_cases now db req) as
      [[_ ->] | (? & ? & order & o' & _ & _ & _ & _ & _ & _ & _ & Hrw & _ & _ & _ & _ & Htl)];
      [apply extends_refl | eapply rewritten_extends; eassumption].
  - intros req.
    destruct (processRefund_cases now db req) as
      [[_ ->] | (? & ? & order & ? & o' & _ & _ & _ & _ & _ & _ & _ & Hrw & _ & _ & Htl)];
      [apply extends_refl | eapply rewritten_extends; eassumption].
  - intros fresh user rst restaurantId orderType b.
    rewrite (proj2 (placeOrder_fails now fresh db user rst restaurantId orderType b)).
    apply extends_refl.
  - intros event Hnd. unfold webhook.
    destruct event as [event|e]; [|apply extends_refl].
    destruct event as [paymentIntent|paymentIntent|refund|type]; simpl.
    + destruct (Order_findByIntent db paymentIntent.(pi_id)) as [order|] eqn:Hf.
      2:{ unfold handlePaymentSuccess. rewrite Hf. apply extends_refl. }
      destruct (charges_data paymentIntent) as [data|] eqn:Hd.
      2:{ unfold handlePaymentSuccess. rewrite Hf, Hd. apply extends_refl. }
      destruct (handlePaymentSuccess_effect now db paymentIntent order data Hf Hd)
        as (o' & -> & Hid & _ & _ & _ & Htl).
      simpl. eapply replaced_extends; try eassumption.
      apply (findByIntent_in _ _ _ Hf).
    + destruct (Order_findByIntent db paymentIntent.(pi_id)) as [order|] eqn:Hf.
      2:{ unfold handlePaymentFailure. rewrite Hf. apply extends_refl. }
      destruct (handlePaymentFailure_effect now db paymentIntent order Hf)
        as (o' & -> & Hid & _ & _ & Htl).
      simpl. eapply replaced_extends; try eassumption.
      apply (findByIntent_in _ _ _ Hf).
    + destruct (Order_findByIntent db refund.(refund_payment_intent)) as [order|] eqn:Hf.
      2:{ unfold handleRefundCreated. rewrite Hf. apply extends_refl. }
      destruct (handleRefundCreated_effect now db refund order Hf)
        as (o' & -> & Hid & _ & _ & Htl).
      simpl. eapply replaced_extends; try eassumption.
      apply (findByIntent_in _ _ _ Hf).
    + apply extends_refl.
Qed.

End Properties.

(* ================================================================= *)
(** ** The properties on the example data *)

(** A pending order confirmed by the restaurant's owner gets two
    timeline entries. *)
Lemma C1_status_update_timeline_witness :
  exists o',
    Order_findById
      (snd (updateOrderStatus Sample.now Sample.shop
              (Sample.statusReq Sample.owner "o1" "confirmed"))) "o1" = Some o' /\
    o'.(status) = confirmed /\
    List.length o'.(timeline) = 2.
Proof.
  destruct (C1_status_update_timeline (host := Sample.host) Sample.now Sample.shop
              (Sample.statusReq Sample.owner "o1" "confirmed")
              Sample.pendingOrder ltac:(vm_compute; reflexivity) ltac:(vm_compute; reflexivity))
    as (user & s & v & o' & _ & Hs & Hv & Hl & Hst & _ & Hlen).
  simpl in Hs. injection Hs as <-.
  vm_compute in Hv. injection Hv as <-.
  exists o'. repeat split; try assumption.
  apply Hlen. discriminate.
Defined.

(** The restaurant route moves a delivered order back to confirmed. *)
Lemma C2_counterexample :
  ~ (forall (host : Host) now db (req : Request StatusBody) order,
        Order_findById db req.(params_id) = Some order ->
        match Order_findById (snd (@updateOrderStatus host now db req))
                req.(params_id) with
        | Some o' => specPermits order o'.(status) = true
        | None => True
        end).
Proof.
  intros H.
  specialize (H Sample.host Sample.now Sample.shop
                (Sample.statusReq Sample.owner "o2" "confirmed")
                Sample.deliveredOrder ltac:(vm_compute; reflexivity)).
  vm_compute in H. discriminate H.
Qed.

Lemma C2_transitions_by_operation_witness :
  exists o',
    Order_findById
      (snd (updateOrderStatus Sample.now Sample.shop
              (Sample.statusReq Sample.owner "o2" "confirmed"))) "o2" = Some o' /\
    Sample.deliveredOrder.(status) = delivered /\
    o'.(status) = confirmed.
Proof.
  destruct (proj1 (C2_transitions_by_operation (host := Sample.host) Sample.now Sample.shop)
              (Sample.statusReq Sample.owner "o2" "confirmed") ltac:(vm_compute; reflexivity))
    as (s & v & order & o' & Hs & _ & Hv & _ & Hl & Hst).
  simpl in Hs. injection Hs as <-.
  vm_compute in Hv. injection Hv as <-.
  exists o'. repeat split; assumption.
Defined.

(** Ordering from an active restaurant that is switched open ends in
    the handler's 500 response. *)
Example createOrder_open_restaurant_fails :
  isCurrentlyOpen Sample.diner Sample.now =
    Throw (TypeError "now.toLocaleLowerCase is not a function") /\
  createOrder Sample.now "o_new" Sample.shop
    (mkRequest (Some Sample.alice) "" Sample.twoBurgers)
  = (fail 500 "Failed to create order", Sample.shop).
Proof. split; vm_compute; reflexivity. Qed.

(** Three discounted wraps with avocado, large, and a salad. *)
Lemma C5_subtotal_is_sum_of_lines_witness :
  exists acc,
    validateItems Sample.lunchMenu "r_diner" Sample.lunch (mkItemsAcc 0%float 0%float [])
      = Continue acc /\
    acc.(acc_subtotal) = sumLines acc.(acc_validatedItems) /\
    Forall2 (linePriced Sample.lunchMenu) Sample.lunch acc.(acc_validatedItems) /\
    map oi_price acc.(acc_validatedItems) = [10.9%float; 7.5%float].
Proof.
  eexists. split; [vm_compute; reflexivity|].
  split; [|split; [|vm_compute; reflexivity]].
  - refine (proj1 (C5_subtotal_is_sum_of_lines Sample.lunchMenu "r_diner"
                     Sample.lunch _ ltac:(vm_compute; reflexivity))).
  - refine (proj1 (proj2 (C5_subtotal_is_sum_of_lines Sample.lunchMenu "r_diner"
                            Sample.lunch _ ltac:(vm_compute; reflexivity)))).
Defined.


(** Alice cancels her pending order; her delivered order cannot be
    cancelled. *)
Lemma C7_cancel_only_while_cancellable_witness :
  (exists o',
      Order_findById
        (snd (cancelOrder Sample.now Sample.shop (Sample.cancelReq Sample.alice "o1")))
        "o1" = Some o' /\
      o'.(status) = cancelled /\
      o'.(cancellationReason) = Some "changed my mind") /\
  snd (cancelOrder Sample.now Sample.shop (Sample.cancelReq Sample.alice "o2"))
    = Sample.shop.
Proof.
  split.
  - destruct (C7_cancel_only_while_cancellable (host := Sample.host) Sample.now Sample.shop
                (Sample.cancelReq Sample.alice "o1") Sample.pendingOrder ltac:(vm_compute; reflexivity))
      as (_ & _ & Hok & _).
    destruct (Hok ltac:(vm_compute; reflexivity)) as (_ & user & reason & o' & _ & Hr & Hl & Hst & Hcr & _).
    simpl in Hr. injection Hr as <-.
    exists o'. repeat split; assumption.
  - destruct (C7_cancel_only_while_cancellable (host := Sample.host) Sample.now Sample.shop
                (Sample.cancelReq Sample.alice "o2") Sample.deliveredOrder ltac:(vm_compute; reflexivity))
      as (_ & _ & _ & Hno).
    apply (Hno ltac:(vm_compute; reflexivity)).
Defined.

(** A refund event for an order whose payment is still processing. *)
Lemma C9_refund_webhook_ignores_payment_status_witness :
  Sample.pendingOrder.(payment).(pay_status) = pay_processing /\
  exists o',
    handleRefundCreated Sample.now Sample.shop
      (mkStripeRefund "re_1" "pi_1" 2500%float)
    = Ret (with_orders (replace_order o' Sample.shop.(orders)) Sample.shop) /\
    o'.(payment).(pay_status) = pay_refunded.
Proof.
  split; [reflexivity|].
  destruct (C9_refund_webhook_ignores_payment_status (host := Sample.host) Sample.now Sample.shop
              (mkStripeRefund "re_1" "pi_1" 2500%float) Sample.pendingOrder ltac:(vm_compute; reflexivity))
    as (o' & E & _ & Hp & _).
  exists o'. split; assumption.
Defined.

(** Alice may not cancel her delivered order; the courier may not
    cancel her pending one. *)
Lemma C10_rejected_cancel_changes_nothing_witness :
  snd (cancelOrder Sample.now Sample.shop (Sample.cancelReq Sample.alice "o2"))
    = Sample.shop /\
  snd (cancelOrder Sample.now Sample.shop (Sample.cancelReq Sample.courier "o1"))
    = Sample.shop.
Proof.
  split.
  - refine (proj1 (proj2 (C10_rejected_cancel_changes_nothing (host := Sample.host)
                            Sample.now Sample.shop
                            (Sample.cancelReq Sample.alice "o2") _))).
    right. exists Sample.alice. split; [reflexivity|].
    right. exists Sample.deliveredOrder. split; [reflexivity|].
    right. reflexivity.
  - refine (proj1 (proj2 (C10_rejected_cancel_changes_nothing (host := Sample.host)
                            Sample.now Sample.shop
                            (Sample.cancelReq Sample.courier "o1") _))).
    right. exists Sample.courier. split; [reflexivity|].
    right. exists Sample.pendingOrder. split; [reflexivity|].
    left. reflexivity.
Defined.

(* ================================================================= *)
(** ** Further properties of the order routes *)

Section OrderProperties.

Context {host : Host}.

(** *** What no route rewrites *)

Lemma keepsOrders_refl db : keepsOrders db db.
Proof. intros id o Hf. exists o. split; [exact Hf | reflexivity]. Qed.

Lemma pre_save_timeline_core now d :
  core (pre_save_timeline now d).(doc_order) = core d.(doc_order).
Proof. unfold pre_save_timeline. destruct (_ && _); reflexivity. Qed.

Lemma save_keeps now d db order :
  d.(isNew) = false ->
  core d.(doc_order) = core order ->
  Order_findById db order.(_id) = Some order ->
  keepsOrders db (snd (persist now d db)).
Proof.
  intros HN Hc Hf id o Ho.
  rewrite (save_loaded _ _ _ HN). simpl.
  set (o' := (pre_save_timeline now d).(doc_order)).
  assert (Hc' : core o' = core order)
    by (unfold o'; rewrite pre_save_timeline_core; exact Hc).
  assert (Hid : o'.(_id) = order.(_id)) by (unfold core in Hc'; congruence).
  destruct (String.eqb order.(_id) id) eqn:E.
  - apply String.eqb_eq in E. subst id.
    assert (o = order) by congruence. subst o.
    exists o'. split; [|exact Hc'].
    unfold Order_findById in *. simpl. rewrite <- Hid in *.
    eapply find_replace_same. exact Hf.
  - apply String.eqb_neq in E. exists o. split; [|reflexivity].
    unfold Order_findById in *. simpl.
    rewrite find_replace_other; [exact Ho | congruence].
Qed.

(** Every branch of a handler body, the one that saves left for
    [saved_branch]. *)
Ltac split_handler :=
  repeat match goal with
         | |- context [match ?x with _ => _ end] =>
             lazymatch x with
             | save _ _ _ => fail
             | _ => destruct x eqn:?
             end
         end.

Ltac known_order :=
  match goal with
  | H : Order_findById ?db ?i = Some ?o |- Order_findById ?db (_id ?o) = Some ?o =>
      rewrite (findById_id _ _ _ H); exact H
  end.

Ltac doc_core :=
  unfold timeline_push, modify, set_status, hydrate; simpl;
  repeat match goal with
         | |- context [if ?c then _ else _] => destruct c
         end;
  reflexivity.

Ltac saved_with o :=
  match goal with
  | |- context [save ?n ?D ?db] =>
      let HN := fresh "HN" in
      let sv := fresh "sv" in
      let db' := fresh "db'" in
      let Hs := fresh "Hs" in
      assert (HN : isNew D = false) by doc_core;
      rewrite (save_persists n D db HN);
      destruct (persist n D db) as [sv db'] eqn:Hs; simpl;
      change db' with (snd (sv, db')); rewrite <- Hs;
      apply (save_keeps n D db o); [exact HN | doc_core | try known_order]
  end.

Ltac saved_branch :=
  match goal with
  | H : Order_findById _ _ = Some ?o |- _ => saved_with o
  | H : Order_findByIntent _ _ = Some ?o |- _ => saved_with o
  end.

Ltac keeps := first [apply keepsOrders_refl | saved_branch].

(** No route and no webhook event rewrites what was fixed when an
    order was placed: every stored order keeps its [_id], order number,
    customer, restaurant, line items, order type, delivery address,
    pricing, promo code and preparation time. *)
Theorem placed_orders_keep_their_core now db :
  (forall req, keepsOrders db (snd (updateOrderStatus now db req))) /\
  (forall req, keepsOrders db (snd (adminUpdateOrderStatus now db req))) /\
  (forall req, keepsOrders db (snd (assignDelivery now db req))) /\
  (forall req, keepsOrders db (snd (updateDeliveryStatus now db req))) /\
  (forall req, keepsOrders db (snd (cancelOrder now db req))) /\
  (forall req, keepsOrders db (snd (processRefund now db req))) /\
  (forall req retrieved,
      NoDup (map _id db.(orders)) ->
      keepsOrders db (snd (confirmPayment now db req retrieved))) /\
  (forall fresh user rst restaurantId orderType b,
      keepsOrders db (snd (placeOrder now fresh db user rst restaurantId orderType b))) /\
  (forall event,
      NoDup (map _id db.(orders)) -> keepsOrders db (snd (webhook now db event))).
Proof.
  repeat split.
  - intros req. unfold updateOrderStatus, protect, applyStatus.
    split_handler; keeps.
  - intros req. unfold adminUpdateOrderStatus, protect, applyStatus.
    split_handler; keeps.
  - intros req. unfold assignDelivery, protect.
    split_handler; keeps.
  - intros req. unfold updateDeliveryStatus, protect.
    split_handler; keeps.
  - intros req. unfold cancelOrder, protect.
    split_handler; keeps.
  - intros req. unfold processRefund, protect.
    split_handler; keeps.
  - intros req retrieved Hnd. unfold confirmPayment, protect.
    split_handler; keeps.
    all: apply unique_findById; [exact Hnd|];
      eapply findByIntent_in; eassumption.
  - intros fresh user rst restaurantId orderType b.
    rewrite (proj2 (placeOrder_fails now fresh db user rst restaurantId orderType b)).
    apply keepsOrders_refl.
  - intros event Hnd. unfold webhook.
    destruct event as [event|e]; [|apply keepsOrders_refl].
    assert (Hu : forall intent order,
               Order_findByIntent db intent = Some order ->
               Order_findById db order.(_id) = Some order).
    { intros intent order Hf. apply unique_findById; [exact Hnd|].
      eapply findByIntent_in; exact Hf. }
    destruct event as [paymentIntent|paymentIntent|refund|type]; simpl.
    + unfold handlePaymentSuccess.
      destruct (Order_findByIntent db (pi_id paymentIntent)) as [order|] eqn:Hf;
        [|apply keepsOrders_refl].
      destruct (charges_data paymentIntent); [|apply keepsOrders_refl].
      lazymatch goal with
      | |- context [save ?n ?D ?db] =>
          let HN := fresh "HN" in
          assert (HN : isNew D = false) by doc_core;
          rewrite (save_persists n D db HN);
          change (keepsOrders db (snd (persist n D db)));
          apply (save_keeps n D db order); [exact HN | doc_core | eauto]
      end.
    + unfold handlePaymentFailure.
      destruct (Order_findByIntent db (pi_id paymentIntent)) as [order|] eqn:Hf;
        [|apply keepsOrders_refl].
      lazymatch goal with
      | |- context [save ?n ?D ?db] =>
          let HN := fresh "HN" in
          assert (HN : isNew D = false) by doc_core;
          rewrite (save_persists n D db HN);
          change (keepsOrders db (snd (persist n D db)));
          apply (save_keeps n D db order); [exact HN | doc_core | eauto]
      end.
    + unfold handleRefundCreated.
      destruct (Order_findByIntent db (refund_payment_intent refund)) as [order|] eqn:Hf;
        [|apply keepsOrders_refl].
      lazymatch goal with
      | |- context [save ?n ?D ?db] =>
          let HN := fresh "HN" in
          assert (HN : isNew D = false) by doc_core;
          rewrite (save_persists n D db HN);
          change (keepsOrders db (snd (persist n D db)));
          apply (save_keeps n D db order); [exact HN | doc_core | eauto]
      end.
    + apply keepsOrders_refl.
Qed.

(** *** Re-delivered webhook events *)

Lemma map_replace_twice {A} (view : Order -> A) os o1 o2 :
  o2.(_id) = o1.(_id) ->
  view o2 = view o1 ->
  map view (replace_order o2 (replace_order o1 os)) = map view (replace_order o1 os).
Proof.
  intros Hid Hv. induction os as [|y os IH]; simpl; [reflexivity|].
  rewrite IH. f_equal.
  destruct (String.eqb y.(_id) o1.(_id)) eqn:E.
  - rewrite Hid, String.eqb_refl. exact Hv.
  - rewrite Hid, E. reflexivity.
Qed.

Lemma handlePaymentFailure_step now db paymentIntent order :
  Order_findByIntent db paymentIntent.(pi_id) = Some order ->
  exists o',
    handlePaymentFailure now db paymentIntent =
      Ret (with_orders (replace_order o' db.(orders)) db) /\
    o'.(_id) = order.(_id) /\
    o'.(payment).(stripePaymentIntentId) = order.(payment).(stripePaymentIntentId) /\
    o'.(status) = cancelled /\
    o'.(payment).(pay_status) = pay_failed /\
    o'.(cancellationReason) = Some "Payment failed" /\
    o'.(cancelledBy) = order.(cancelledBy) /\
    o'.(cancelledAt) = order.(cancelledAt) /\
    o'.(timeline) =
      (order.(timeline) ++
       (if Status_eqb cancelled order.(status) then [] else [hookEntry now cancelled]))%list.
Proof.
  intros Hf. unfold handlePaymentFailure. rewrite Hf.
  match goal with
  | |- context [save now ?d db] => set (doc := d)
  end.
  assert (HN : doc.(isNew) = false) by (subst doc; doc_core).
  rewrite (save_persists _ _ _ HN).
  rewrite (save_loaded _ _ _ HN). simpl.
  eexists. split; [reflexivity|].
  unfold pre_save_timeline. rewrite HN, andb_true_r.
  subst doc. unfold set_status, timeline_push, modify, hydrate. simpl.
  destruct (status order) eqn:E; simpl; rewrite ?E, ?app_nil_r;
    repeat split; reflexivity.
Qed.

Lemma handleRefundCreated_step now db refund order :
  Order_findByIntent db refund.(refund_payment_intent) = Some order ->
  exists o',
    handleRefundCreated now db refund =
      Ret (with_orders (replace_order o' db.(orders)) db) /\
    o'.(_id) = order.(_id) /\
    o'.(payment).(stripePaymentIntentId) = order.(payment).(stripePaymentIntentId) /\
    o'.(status) = refunded /\
    o'.(payment).(pay_status) = pay_refunded /\
    o'.(timeline) =
      (order.(timeline) ++
       (if Status_eqb refunded order.(status) then [] else [hookEntry now refunded]))%list.
Proof.
  intros Hf. unfold handleRefundCreated. rewrite Hf.
  match goal with
  | |- context [save now ?d db] => set (doc := d)
  end.
  assert (HN : doc.(isNew) = false) by (subst doc; doc_core).
  rewrite (save_persists _ _ _ HN).
  rewrite (save_loaded _ _ _ HN). simpl.
  eexists. split; [reflexivity|].
  unfold pre_save_timeline. rewrite HN, andb_true_r.
  subst doc. unfold set_status, timeline_push, modify, hydrate. simpl.
  destruct (status order) eqn:E; simpl; rewrite ?E, ?app_nil_r;
    repeat split; reflexivity.
Qed.

Lemma findByIntent_written db o' order intent :
  Order_findByIntent db intent = Some order ->
  o'.(_id) = order.(_id) ->
  o'.(payment).(stripePaymentIntentId) = order.(payment).(stripePaymentIntentId) ->
  Order_findByIntent (with_orders (replace_order o' db.(orders)) db) intent = Some o'.
Proof.
  intros Hf Hid Hi. unfold Order_findByIntent in *. simpl.
  apply (findByIntent_replace _ _ order); [exact Hf | exact Hid |].
  rewrite Hi. apply (findByIntent_in db _ _ Hf).
Qed.

(** Delivering any webhook event a second time changes no order's
    status or payment status and adds no timeline entry. *)
Theorem webhook_redelivery_is_silent now1 now2 db (event : StripeEvent) :
  let db1 := snd (webhook now1 db (Ret event)) in
  let db2 := snd (webhook now2 db1 (Ret event)) in
  auditView db2 = auditView db1.
Proof.
  cbv zeta. unfold webhook.
  destruct event as [paymentIntent|paymentIntent|refund|type]; [| | |reflexivity].
  - destruct (Order_findByIntent db paymentIntent.(pi_id)) as [order|] eqn:Hf.
    2:{ assert (E : forall n, handlePaymentSuccess n db paymentIntent = Ret db)
          by (intros n; unfold handlePaymentSuccess; rewrite Hf; reflexivity).
        rewrite E. simpl. rewrite E. reflexivity. }
    destruct (charges_data paymentIntent) as [data|] eqn:Hd.
    2:{ assert (E : forall n, exists e, handlePaymentSuccess n db paymentIntent = Throw e)
          by (intros n; unfold handlePaymentSuccess; rewrite Hf, Hd; eexists; reflexivity).
        destruct (E now1) as [e1 ->]. simpl. destruct (E now2) as [e2 ->]. reflexivity. }
    destruct (handlePaymentSuccess_effect now1 db paymentIntent order data Hf Hd)
      as (o1 & -> & Hid1 & Hs1 & Hp1 & Hi1 & Ht1).
    simpl.
    pose proof (findByIntent_written db o1 order _ Hf Hid1 Hi1) as Hf1.
    destruct (handlePaymentSuccess_effect now2 _ paymentIntent o1 data Hf1 Hd)
      as (o2 & -> & Hid2 & Hs2 & Hp2 & _ & Ht2).
    unfold auditView. simpl. apply map_replace_twice; [exact Hid2|].
    assert (Hnp : Status_eqb (status o1) pending = false).
    { rewrite Hs1. destruct (status order); reflexivity. }
    rewrite Hnp in Hs2, Ht2. rewrite app_nil_r in Ht2. congruence.
  - destruct (Order_findByIntent db paymentIntent.(pi_id)) as [order|] eqn:Hf.
    2:{ assert (E : forall n, handlePaymentFailure n db paymentIntent = Ret db)
          by (intros n; unfold handlePaymentFailure; rewrite Hf; reflexivity).
        rewrite E. simpl. rewrite E. reflexivity. }
    destruct (handlePaymentFailure_step now1 db paymentIntent order Hf)
      as (o1 & -> & Hid1 & Hi1 & Hs1 & Hp1 & _ & _ & _ & Ht1).
    simpl.
    pose proof (findByIntent_written db o1 order _ Hf Hid1 Hi1) as Hf1.
    destruct (handlePaymentFailure_step now2 _ paymentIntent o1 Hf1)
      as (o2 & -> & Hid2 & _ & Hs2 & Hp2 & _ & _ & _ & Ht2).
    unfold auditView. simpl. apply map_replace_twice; [exact Hid2|].
    rewrite Hs1 in Ht2. simpl in Ht2. rewrite app_nil_r in Ht2. congruence.
  - destruct (Order_findByIntent db refund.(refund_payment_intent)) as [order|] eqn:Hf.
    2:{ assert (E : forall n, handleRefundCreated n db refund = Ret db)
          by (intros n; unfold handleRefundCreated; rewrite Hf; reflexivity).
        rewrite E. simpl. rewrite E. reflexivity. }
    destruct (handleRefundCreated_step now1 db refund order Hf)
      as (o1 & -> & Hid1 & Hi1 & Hs1 & Hp1 & Ht1).
    simpl.
    pose proof (findByIntent_written db o1 order _ Hf Hid1 Hi1) as Hf1.
    destruct (handleRefundCreated_step now2 _ refund o1 Hf1)
      as (o2 & -> & Hid2 & _ & Hs2 & Hp2 & Ht2).
    unfold auditView. simpl. apply map_replace_twice; [exact Hid2|].
    rewrite Hs1 in Ht2. simpl in Ht2. rewrite app_nil_r in Ht2. congruence.
Qed.

(** *** Confirming a payment *)

Lemma confirmPayment_cases now db (req : Request unit) retrieved :
  (success (fst (confirmPayment now db req retrieved)) = false /\
   snd (confirmPayment now db req retrieved) = db) \/
  (exists user paymentIntent order o',
      req.(req_user) = Some user /\
      retrieved = Ret (Some paymentIntent) /\
      Order_findByIntent db req.(params_id) = Some order /\
      order.(customer) = user.(u_id) /\
      success (fst (confirmPayment now db req retrieved)) = true /\
      snd (confirmPayment now db req retrieved)
        = with_orders (replace_order o' db.(orders)) db /\
      o'.(_id) = order.(_id) /\
      o'.(payment).(stripePaymentIntentId) = order.(payment).(stripePaymentIntentId) /\
      if String.eqb paymentIntent.(intent_status) "succeeded"
      then
        o'.(status) = confirmed /\
        o'.(payment).(pay_status) = pay_completed /\
        o'.(timeline) =
          (order.(timeline) ++
           mkTimelineEntry "payment_completed" now
             "Payment completed successfully" None ::
           (if Status_eqb confirmed order.(status) then []
            else [hookEntry now confirmed]))%list
      else
        o'.(status) = order.(status) /\
        o'.(timeline) = order.(timeline) /\
        o'.(payment).(pay_status) =
          (if String.eqb paymentIntent.(intent_status) "requires_action"
           then pay_processing else pay_failed)).
Proof.
  unfold confirmPayment, protect.
  destruct (req_user req) as [user|]; [|left; split; reflexivity].
  destruct retrieved as [[paymentIntent|]|e]; try (left; split; reflexivity).
  destruct (Order_findByIntent db (params_id req)) as [order|] eqn:Hf;
    [|left; split; reflexivity].
  destruct (String.eqb (customer order) (u_id user)) eqn:Hc;
    [|left; split; reflexivity].
  apply String.eqb_eq in Hc.
  simpl negb. cbv iota.
  match goal with
  | |- context [save now ?d db] => set (doc := d)
  end.
  assert (HN : doc.(isNew) = false) by (subst doc; doc_core).
  rewrite (save_persists _ _ _ HN).
  right. exists user, paymentIntent, order.
  rewrite (save_loaded _ _ _ HN). simpl.
  eexists. repeat split; try reflexivity; try assumption.
  - rewrite pre_save_timeline_id. subst doc. doc_core.
  - rewrite pre_save_timeline_payment. subst doc. doc_core.
  - rewrite pre_save_timeline_status, pre_save_timeline_payment,
      pre_save_timeline_timeline, HN, andb_true_r.
    subst doc.
    destruct (String.eqb (intent_status paymentIntent) "succeeded").
    + unfold set_status, timeline_push, modify, hydrate. simpl.
      destruct (status order) eqn:E; simpl; rewrite ?E, <- ?app_assoc;
        repeat split; reflexivity.
    + destruct (String.eqb (intent_status paymentIntent) "requires_action");
        simpl; rewrite app_nil_r; repeat split; reflexivity.
Qed.

(** A confirmation goes through only for the customer of the order
    that carries the intent.  A succeeded intent stores confirmed and
    completed whatever the order's status was, and adds the route's
    timeline entry (and the hook's when the status changes); an intent
    that requires action stores payment processing, any other intent
    status stores payment failed, and both leave the order's status
    and timeline alone. *)
Theorem confirmPayment_writes now db (req : Request unit) retrieved :
  success (fst (confirmPayment now db req retrieved)) = true ->
  exists user paymentIntent order o',
    req.(req_user) = Some user /\
    retrieved = Ret (Some paymentIntent) /\
    Order_findByIntent db req.(params_id) = Some order /\
    order.(customer) = user.(u_id) /\
    snd (confirmPayment now db req retrieved)
      = with_orders (replace_order o' db.(orders)) db /\
    o'.(_id) = order.(_id) /\
    (paymentIntent.(intent_status) = "succeeded" ->
     o'.(status) = confirmed /\ o'.(payment).(pay_status) = pay_completed /\
     o'.(timeline) =
       (order.(timeline) ++
        mkTimelineEntry "payment_completed" now
          "Payment completed successfully" None ::
        (if Status_eqb confirmed order.(status) then []
         else [hookEntry now confirmed]))%list) /\
    (paymentIntent.(intent_status) = "requires_action" ->
     o'.(status) = order.(status) /\ o'.(timeline) = order.(timeline) /\
     o'.(payment).(pay_status) = pay_processing) /\
    (paymentIntent.(intent_status) <> "succeeded" ->
     paymentIntent.(intent_status) <> "requires_action" ->
     o'.(status) = order.(status) /\ o'.(timeline) = order.(timeline) /\
     o'.(payment).(pay_status) = pay_failed).
Proof.
  intros Hok.
  destruct (confirmPayment_cases now db req retrieved) as
    [[Hfail _] | (user & paymentIntent & order & o' & Hu & Hr & Hf & Hc & _ & Hdb
                  & Hid & _ & Hrest)]; [congruence|].
  exists user, paymentIntent, order, o'.
  do 6 (split; [assumption|]). split; [|split].
  - intros E. rewrite E in Hrest. simpl in Hrest. exact Hrest.
  - intros E. rewrite E in Hrest. simpl in Hrest. exact Hrest.
  - intros E1 E2. apply String.eqb_neq in E1, E2. rewrite E1, E2 in Hrest.
    exact Hrest.
Qed.

(** Once a succeeded intent has been confirmed through the route, the
    payment_intent.succeeded webhook for the same intent changes no
    status or payment status and adds no timeline entry. *)
Theorem webhook_after_confirmation_is_silent
    now now' db (req : Request unit) (confirmed_intent : RetrievedIntent)
    (paymentIntent : PaymentIntent) :
  success (fst (confirmPayment now db req (Ret (Some confirmed_intent)))) = true ->
  confirmed_intent.(intent_status) = "succeeded" ->
  paymentIntent.(pi_id) = req.(params_id) ->
  let db1 := snd (confirmPayment now db req (Ret (Some confirmed_intent))) in
  auditView (snd (webhook now' db1 (Ret (payment_intent_succeeded paymentIntent))))
  = auditView db1.
Proof.
  intros Hok Hst Hpi. cbv zeta.
  destruct (confirmPayment_cases now db req (Ret (Some confirmed_intent))) as
    [[Hfail _] | (user & pin & order & o1 & _ & Hr & Hf & _ & _ & Hdb
                  & Hid1 & Hi1 & Hrest)]; [congruence|].
  injection Hr as <-. rewrite Hst in Hrest. simpl in Hrest.
  destruct Hrest as (Hs1 & Hp1 & _).
  rewrite Hdb.
  pose proof (findByIntent_written db o1 order _ Hf Hid1 Hi1) as Hf1.
  rewrite <- Hpi in Hf1.
  unfold webhook.
  destruct (charges_data paymentIntent) as [data|] eqn:Hd.
  2:{ unfold handlePaymentSuccess. rewrite Hf1, Hd. reflexivity. }
  destruct (handlePaymentSuccess_effect now' _ paymentIntent o1 data Hf1 Hd)
    as (o2 & -> & Hid2 & Hs2 & Hp2 & _ & Ht2).
  unfold auditView. simpl. apply map_replace_twice; [exact Hid2|].
  rewrite Hs1 in Hs2, Ht2. simpl in Hs2, Ht2. rewrite app_nil_r in Ht2.
  congruence.
Qed.

(** *** Rating an order *)

Lemma find_app_none {A} (f : A -> bool) (l l' : list A) :
  find f l = None -> find f (l ++ l') = find f l'.
Proof.
  induction l as [|y l IH]; simpl; [reflexivity|].
  destruct (f y); [discriminate | exact IH].
Qed.

Lemma getKey_setKey {V} (k : ObjectId) (v : V) l : getKey k (setKey k v l) = Some v.
Proof.
  unfold getKey, setKey. rewrite find_app_none.
  - simpl. rewrite String.eqb_refl. reflexivity.
  - induction l as [|[k' v'] l IH]; simpl; [reflexivity|].
    destruct (String.eqb k' k) eqn:E; simpl; [exact IH|].
    rewrite E. exact IH.
Qed.

(** Writing back a document that was not changed changes no lookup. *)
Lemma save_unchanged_lookup now db order id :
  Order_findById db order.(_id) = Some order ->
  Order_findById (snd (persist now (hydrate order) db)) id = Order_findById db id.
Proof.
  intros Hf. rewrite save_loaded by reflexivity. simpl.
  unfold Order_findById in *. simpl.
  destruct (String.eqb order.(_id) id) eqn:E.
  - apply String.eqb_eq in E. subst id. rewrite Hf.
    eapply find_replace_same. exact Hf.
  - apply String.eqb_neq in E. apply find_replace_other. exact E.
Qed.

Lemma rateOrder_cases now rdb (req : Request RateBody) :
  (success (fst (rateOrder now rdb req)) = false /\
   snd (rateOrder now rdb req) = rdb) \/
  (exists user order food overall,
      req.(req_user) = Some user /\
      req.(body).(rate_food) = Some food /\ isScore food = true /\
      req.(body).(rate_overall) = Some overall /\ isScore overall = true /\
      Order_findById rdb.(base) req.(params_id) = Some order /\
      order.(customer) = user.(u_id) /\
      order.(status) = delivered /\
      getKey order.(_id) rdb.(orderRatings) = None /\
      success (fst (rateOrder now rdb req)) = true /\
      (snd (rateOrder now rdb req)).(base) = snd (persist now (hydrate order) rdb.(base)) /\
      (snd (rateOrder now rdb req)).(orderRatings) =
        setKey order.(_id)
          (mkRating food
             (match order.(orderType) with
              | delivery => req.(body).(rate_delivery)
              | pickup => None
              end)
             overall req.(body).(rate_comment) now)
          rdb.(orderRatings)).
Proof.
  unfold rateOrder, protect.
  destruct (req_user req) as [user|]; [|left; split; reflexivity].
  destruct (rate_food (body req)) as [food|] eqn:Hfood;
    [|left; split; reflexivity].
  destruct (isScore food) eqn:Hsf; [|left; split; reflexivity].
  destruct (rate_overall (body req)) as [overall|] eqn:Hov.
  2:{ left. simpl. rewrite andb_false_r. simpl. split; reflexivity. }
  destruct (isScore overall) eqn:Hso.
  2:{ left. simpl. rewrite andb_false_r. simpl. split; reflexivity. }
  match goal with
  | |- context [if negb ?c then (validationFailed, rdb) else _] => destruct c
  end; [|left; split; reflexivity].
  simpl negb. cbv iota.
  destruct (Order_findById (base rdb) (params_id req)) as [order|] eqn:Hf;
    [|left; split; reflexivity].
  destruct (String.eqb (customer order) (u_id user)) eqn:Hc;
    [|left; split; reflexivity].
  destruct (Status_eqb (status order) delivered) eqn:Hd;
    [|left; split; reflexivity].
  destruct (getKey (_id order) (orderRatings rdb)) eqn:Hk;
    [left; split; reflexivity|].
  simpl negb. cbv iota.
  apply String.eqb_eq in Hc. apply Status_eqb_eq in Hd.
  right. exists user, order, food, overall.
  rewrite (save_persists now (hydrate order) (base rdb) eq_refl).
  destruct (persist now (hydrate order) (base rdb)) as [sv db1] eqn:Hs.
  repeat split; try assumption; reflexivity.
Qed.


(** Once an order has been rated, every later rating request for it
    is rejected and changes nothing. *)
Theorem rateOrder_only_once now rdb (req : Request RateBody) :
  success (fst (rateOrder now rdb req)) = true ->
  forall now' (req' : Request RateBody),
    req'.(params_id) = req.(params_id) ->
    success (fst (rateOrder now' (snd (rateOrder now rdb req)) req')) = false /\
    snd (rateOrder now' (snd (rateOrder now rdb req)) req') = snd (rateOrder now rdb req).
Proof.
  intros Hok now' req' Hid.
  destruct (rateOrder_cases now rdb req) as
    [[Hfail _] | (user & order & food & overall & _ & _ & _ & _ & _ & Hf & _
                  & _ & _ & _ & Hb & Hr)]; [congruence|].
  set (rdb1 := snd (rateOrder now rdb req)) in *.
  destruct (rateOrder_cases now' rdb1 req') as
    [H | (user' & order' & food' & overall' & _ & _ & _ & _ & _ & Hf' & _
          & _ & Hk' & _)]; [exact H|].
  exfalso.
  rewrite Hb, save_unchanged_lookup, Hid, Hf in Hf'
    by (rewrite (findById_id _ _ _ Hf); exact Hf).
  injection Hf' as <-.
  rewrite Hr, getKey_setKey in Hk'. discriminate.
Qed.

End OrderProperties.

(* ================================================================= *)
(** ** Properties of the catalog routes *)

Section CatalogProperties.

Context {host : Host}.

Lemma MenuItem_findById_id db id m : MenuItem_findById db id = Some m -> m.(mi_id) = id.
Proof.
  unfold MenuItem_findById. intros H. apply find_some in H.
  destruct H as [_ H]. apply String.eqb_eq in H. exact H.
Qed.

Lemma Restaurant_findById_id db id r : Restaurant_findById db id = Some r -> r.(r_id) = id.
Proof.
  unfold Restaurant_findById. intros H. apply find_some in H.
  destruct H as [_ H]. apply String.eqb_eq in H. exact H.
Qed.

Lemma find_map_replace_same {A} (key : A -> string) (x x0 : A) (l : list A) :
  find (fun y => String.eqb (key y) (key x)) l = Some x0 ->
  find (fun y => String.eqb (key y) (key x))
       (map (fun y => if String.eqb (key y) (key x) then x else y) l) = Some x.
Proof.
  induction l as [|y l IH]; simpl; [discriminate|].
  destruct (String.eqb (key y) (key x)) eqn:E.
  - intros _. rewrite String.eqb_refl. reflexivity.
  - rewrite E. exact IH.
Qed.

Lemma find_map_replace_other {A} (key : A -> string) (x : A) (l : list A) id :
  key x <> id ->
  find (fun y => String.eqb (key y) id)
       (map (fun y => if String.eqb (key y) (key x) then x else y) l)
  = find (fun y => String.eqb (key y) id) l.
Proof.
  intros N. induction l as [|y l IH]; simpl; [reflexivity|].
  destruct (String.eqb (key y) (key x)) eqn:E.
  - apply String.eqb_eq in E.
    assert (String.eqb (key x) id = false) as -> by (apply String.eqb_neq; exact N).
    assert (String.eqb (key y) id = false) as ->
      by (apply String.eqb_neq; congruence).
    exact IH.
  - destruct (String.eqb (key y) id); [reflexivity | exact IH].
Qed.

(** Lookup after a write to the menu: the written item under its own
    [_id], every other lookup as before. *)
Lemma MenuItem_findById_saved db m0 m id :
  MenuItem_findById db m.(mi_id) = Some m0 ->
  MenuItem_findById (saveMenuItem m db) id =
    (if String.eqb m.(mi_id) id then Some m else MenuItem_findById db id).
Proof.
  unfold MenuItem_findById, saveMenuItem. simpl. intros H.
  destruct (String.eqb m.(mi_id) id) eqn:E.
  - apply String.eqb_eq in E. subst id.
    exact (find_map_replace_same mi_id m m0 _ H).
  - apply String.eqb_neq in E. exact (find_map_replace_other mi_id m _ id E).
Qed.

Lemma Restaurant_findById_saved db r0 r id :
  Restaurant_findById db r.(r_id) = Some r0 ->
  Restaurant_findById (saveRestaurant r db) id =
    (if String.eqb r.(r_id) id then Some r else Restaurant_findById db id).
Proof.
  unfold Restaurant_findById, saveRestaurant. simpl. intros H.
  destruct (String.eqb r.(r_id) id) eqn:E.
  - apply String.eqb_eq in E. subst id.
    exact (find_map_replace_same r_id r r0 _ H).
  - apply String.eqb_neq in E. exact (find_map_replace_other r_id r _ id E).
Qed.

(** *** What the item loop lets through *)

Lemma validateItems_available db restaurantId items acc acc' :
  validateItems db restaurantId items acc = Continue acc' ->
  forall item, In item items ->
    exists menuItem,
      MenuItem_findById db item.(ri_menuItem) = Some menuItem /\
      menuItem.(isAvailable) = true /\
      menuItem.(mi_restaurant) = restaurantId.
Proof.
  revert acc. induction items as [|x items IH]; intros acc; simpl; [tauto|].
  destruct (MenuItem_findById db (ri_menuItem x)) as [menuItem|] eqn:Hm;
    [|discriminate].
  destruct (isAvailable menuItem) eqn:Ha; [|discriminate].
  destruct (String.eqb (mi_restaurant menuItem) restaurantId) eqn:Hr; [|discriminate].
  simpl negb. cbv iota.
  destruct (calculatePrice menuItem (customizationsOf x)); [|discriminate].
  intros H item [<-|Hin].
  - exists menuItem. apply String.eqb_eq in Hr. tauto.
  - exact (IH _ H item Hin).
Qed.

(** Every line the item loop of the order handler validates names a
    stored menu item that is available and belongs to the restaurant
    the order is placed with; the lines follow the request, one per
    requested item, and carry the item's [_id] and name and the
    requested quantity. *)
Theorem validated_lines_are_on_the_menu
    db restaurantId (requested : list ReqItem) acc :
  validateItems db restaurantId requested (mkItemsAcc 0%float 0%float [])
    = Continue acc ->
  Forall2
    (fun item line =>
       exists menuItem,
         MenuItem_findById db item.(ri_menuItem) = Some menuItem /\
         menuItem.(isAvailable) = true /\
         menuItem.(mi_restaurant) = restaurantId /\
         line.(oi_menuItem) = menuItem.(mi_id) /\
         line.(oi_name) = menuItem.(mi_name) /\
         line.(oi_quantity) = item.(ri_quantity))
    requested acc.(acc_validatedItems).
Proof.
  intros Hv.
  assert (G : forall its acc0 acc1,
             validateItems db restaurantId its acc0 = Continue acc1 ->
             exists lines,
               acc1.(acc_validatedItems) = (acc0.(acc_validatedItems) ++ lines)%list /\
               Forall2
                 (fun item line =>
                    exists menuItem,
                      MenuItem_findById db item.(ri_menuItem) = Some menuItem /\
                      menuItem.(isAvailable) = true /\
                      menuItem.(mi_restaurant) = restaurantId /\
                      line.(oi_menuItem) = menuItem.(mi_id) /\
                      line.(oi_name) = menuItem.(mi_name) /\
                      line.(oi_quantity) = item.(ri_quantity))
                 its lines).
  { intros its; induction its as [|x its IH]; intros acc0 acc1; simpl.
    - intros H. injection H as <-. exists []. rewrite app_nil_r.
      split; [reflexivity | constructor].
    - destruct (MenuItem_findById db (ri_menuItem x)) as [menuItem|] eqn:Hm;
        [|discriminate].
      destruct (isAvailable menuItem) eqn:Ha; [|discriminate].
      destruct (String.eqb (mi_restaurant menuItem) restaurantId) eqn:Hr;
        [|discriminate].
      simpl negb. cbv iota.
      destruct (calculatePrice menuItem (customizationsOf x)) as [itemPrice|];
        [|discriminate].
      intros H. apply IH in H. destruct H as (lines & Hl & Hfa).
      simpl in Hl. eexists (_ :: lines). split.
      + rewrite Hl, <- app_assoc. reflexivity.
      + constructor; [|exact Hfa].
        exists menuItem. apply String.eqb_eq in Hr. simpl. tauto. }
  destruct (G _ _ _ Hv) as (lines & Hl & Hfa). simpl in Hl. rewrite Hl. exact Hfa.
Qed.

(** *** Menu items: soft delete and the availability toggle *)

Lemma notItemOwner_false db user menuItem :
  notItemOwner db user menuItem = Ret false ->
  exists rst,
    Restaurant_findById db menuItem.(mi_restaurant) = Some rst /\
    rst.(r_owner) = user.(u_id).
Proof.
  unfold notItemOwner.
  destruct (Restaurant_findById db (mi_restaurant menuItem)) as [rst|];
    [|discriminate].
  destruct (String.eqb (r_owner rst) (u_id user)) eqn:E; [|discriminate].
  intros _. exists rst. apply String.eqb_eq in E. tauto.
Qed.

Lemma notItemOwner_saved db user menuItem m m' :
  notItemOwner (saveMenuItem m db) user (with_isAvailable m' menuItem)
  = notItemOwner db user menuItem.
Proof. reflexivity. Qed.

Lemma deleteMenuItem_cases db (req : Request unit) :
  (success (fst (deleteMenuItem db req)) = false /\
   snd (deleteMenuItem db req) = db) \/
  exists user menuItem,
    req.(req_user) = Some user /\
    MenuItem_findById db req.(params_id) = Some menuItem /\
    (user.(role) = role_admin \/
     user.(role) = role_restaurant /\
     exists rst,
       Restaurant_findById db menuItem.(mi_restaurant) = Some rst /\
       rst.(r_owner) = user.(u_id)) /\
    snd (deleteMenuItem db req) = saveMenuItem (with_isAvailable false menuItem) db.
Proof.
  unfold deleteMenuItem, protect.
  destruct (req_user req) as [user|]; [|left; split; reflexivity].
  destruct (authorize [role_restaurant; role_admin] user) eqn:Ha;
    [|left; split; reflexivity].
  simpl negb. cbv iota.
  destruct (MenuItem_findById db (params_id req)) as [menuItem|] eqn:Hm;
    [|left; split; reflexivity].
  destruct (Role_eqb (role user) role_restaurant) eqn:Hr.
  - destruct (notItemOwner db user menuItem) as [[|]|e] eqn:Ho;
      try (left; split; reflexivity).
    right. exists user, menuItem. repeat split; try reflexivity.
    right. split; [destruct (role user); (reflexivity || discriminate)|].
    exact (notItemOwner_false _ _ _ Ho).
  - right. exists user, menuItem. repeat split; try reflexivity.
    left. revert Ha Hr. unfold authorize. simpl.
    destruct (role user); simpl; (reflexivity || discriminate).
Qed.

Lemma toggleAvailability_cases db (req : Request unit) :
  (success (fst (toggleAvailability db req)) = false /\
   snd (toggleAvailability db req) = db) \/
  exists user menuItem,
    req.(req_user) = Some user /\
    user.(role) = role_restaurant /\
    MenuItem_findById db req.(params_id) = Some menuItem /\
    notItemOwner db user menuItem = Ret false /\
    toggleAvailability db req =
      (ok 200 ("Menu item is now " ++
               (if negb menuItem.(isAvailable) then "available" else "unavailable"))
          None,
       saveMenuItem (with_isAvailable (negb menuItem.(isAvailable)) menuItem) db).
Proof.
  unfold toggleAvailability, protect.
  destruct (req_user req) as [user|]; [|left; split; reflexivity].
  destruct (authorize [role_restaurant] user) eqn:Ha;
    [|left; split; reflexivity].
  simpl negb. cbv iota.
  destruct (MenuItem_findById db (params_id req)) as [menuItem|] eqn:Hm;
    [|left; split; reflexivity].
  destruct (notItemOwner db user menuItem) as [[|]|e] eqn:Ho;
    try (left; split; reflexivity).
  right. exists user, menuItem. repeat split; try reflexivity; try assumption.
  revert Ha. unfold authorize. simpl.
  destruct (role user); simpl; (reflexivity || discriminate).
Qed.

(** DELETE /api/menu/:id goes through only for an admin or for the
    owner of the item's restaurant, and it is a soft delete: the item
    stays stored under its [_id] with every field as before except
    [isAvailable], which is false; every other menu item, every
    restaurant and every order is as before. *)
Theorem deleteMenuItem_keeps_the_item db (req : Request unit) :
  success (fst (deleteMenuItem db req)) = true ->
  let db1 := snd (deleteMenuItem db req) in
  exists user menuItem,
    req.(req_user) = Some user /\
    (user.(role) = role_admin \/
     user.(role) = role_restaurant /\
     exists rst,
       Restaurant_findById db menuItem.(mi_restaurant) = Some rst /\
       rst.(r_owner) = user.(u_id)) /\
    MenuItem_findById db req.(params_id) = Some menuItem /\
    MenuItem_findById db1 req.(params_id) = Some (with_isAvailable false menuItem) /\
    (forall id, id <> req.(params_id) ->
                MenuItem_findById db1 id = MenuItem_findById db id) /\
    db1.(restaurants) = db.(restaurants) /\
    db1.(orders) = db.(orders).
Proof.
  intros Hok. cbv zeta.
  destruct (deleteMenuItem_cases db req) as
    [[Hfail _] | (user & menuItem & Hu & Hm & Hauth & ->)]; [congruence|].
  exists user, menuItem.
  pose proof (MenuItem_findById_id _ _ _ Hm) as Hid.
  split; [exact Hu|]. split; [exact Hauth|]. split; [exact Hm|].
  assert (Hl : forall id,
             MenuItem_findById (saveMenuItem (with_isAvailable false menuItem) db) id
             = if String.eqb menuItem.(mi_id) id
               then Some (with_isAvailable false menuItem)
               else MenuItem_findById db id).
  { intros id.
    apply (MenuItem_findById_saved db menuItem (with_isAvailable false menuItem) id).
    simpl. rewrite Hid. exact Hm. }
  split; [rewrite Hl, Hid, String.eqb_refl; reflexivity|].
  split; [|split; reflexivity].
  intros id Hne. rewrite Hl.
  assert (String.eqb (mi_id menuItem) id = false) as ->
    by (apply String.eqb_neq; congruence).
  reflexivity.
Qed.

(** After a menu item has been deleted, no cart that contains it is
    accepted: the order handler answers with a failure and stores
    nothing, whatever else the cart holds; the item loop never runs
    through on such a cart. *)
Theorem deleted_item_cannot_be_ordered db (req : Request unit) :
  success (fst (deleteMenuItem db req)) = true ->
  let db1 := snd (deleteMenuItem db req) in
  forall now fresh user rst restaurantId orderType (b : OrderBody),
    (exists item, In item b.(ob_items) /\ item.(ri_menuItem) = req.(params_id)) ->
    success (fst (placeOrder now fresh db1 user rst restaurantId orderType b)) = false /\
    snd (placeOrder now fresh db1 user rst restaurantId orderType b) = db1 /\
    forall acc0 acc,
      validateItems db1 restaurantId b.(ob_items) acc0 <> Continue acc.
Proof.
  intros Hok. cbv zeta.
  destruct (deleteMenuItem_cases db req) as
    [[Hfail _] | (user0 & menuItem & _ & Hm & _ & ->)]; [congruence|].
  intros now fresh user rst restaurantId orderType b (item & Hin & Hitem).
  split; [apply placeOrder_fails|]. split; [apply placeOrder_fails|].
  intros acc0 acc Hv.
  destruct (validateItems_available _ _ _ _ _ Hv item Hin) as (m & Hf & Ha & _).
  pose proof (MenuItem_findById_id _ _ _ Hm) as Hid.
  rewrite (MenuItem_findById_saved db menuItem) in Hf
    by (simpl; rewrite Hid; exact Hm).
  simpl in Hf. rewrite Hid, Hitem, String.eqb_refl in Hf.
  injection Hf as <-. discriminate.
Qed.

(** Toggling the availability of an item twice is accepted both times
    and brings every lookup of a menu item back to what it was;
    restaurants and orders are never touched. *)
Theorem toggleAvailability_twice_restores db (req : Request unit) :
  success (fst (toggleAvailability db req)) = true ->
  let db1 := snd (toggleAvailability db req) in
  let db2 := snd (toggleAvailability db1 req) in
  success (fst (toggleAvailability db1 req)) = true /\
  (forall id, MenuItem_findById db2 id = MenuItem_findById db id) /\
  db2.(restaurants) = db.(restaurants) /\
  db2.(orders) = db.(orders).
Proof.
  intros Hok. cbv zeta.
  destruct (toggleAvailability_cases db req) as
    [[Hfail _] | (user & menuItem & Hu & Hr & Hm & Ho & E)]; [congruence|].
  rewrite E. simpl snd.
  set (m1 := with_isAvailable (negb (isAvailable menuItem)) menuItem).
  pose proof (MenuItem_findById_id _ _ _ Hm) as Hid.
  assert (Hl1 : forall id,
             MenuItem_findById (saveMenuItem m1 db) id
             = if String.eqb req.(params_id) id then Some m1
               else MenuItem_findById db id).
  { intros id. rewrite (MenuItem_findById_saved db menuItem m1 id)
      by (simpl; rewrite Hid; exact Hm).
    simpl. rewrite Hid. reflexivity. }
  destruct (toggleAvailability_cases (saveMenuItem m1 db) req) as
    [[Hfail _] | (user' & m' & Hu' & _ & Hm' & _ & E')].
  { exfalso. revert Hfail. unfold toggleAvailability, protect.
    rewrite Hu. unfold authorize. simpl. rewrite Hr. simpl.
    rewrite Hl1, String.eqb_refl.
    unfold m1. rewrite notItemOwner_saved, Ho. simpl. discriminate. }
  rewrite E'. simpl.
  rewrite Hl1, String.eqb_refl in Hm'. injection Hm' as <-.
  split; [reflexivity|]. split; [|split; reflexivity].
  intros id.
  rewrite (MenuItem_findById_saved (saveMenuItem m1 db) m1)
    by (simpl; rewrite Hl1, Hid, String.eqb_refl; reflexivity).
  simpl. rewrite Hl1, Hid.
  destruct (String.eqb (params_id req) id) eqn:Ei; [|reflexivity].
  apply String.eqb_eq in Ei. subst id. rewrite Hm.
  rewrite Bool.negb_involutive. destruct menuItem; reflexivity.
Qed.

(** The soft delete is undone by the toggle: when the toggle is
    accepted for a deleted item, the item is stored exactly as it was
    before the deletion, except that it is available. *)
Theorem toggle_revives_deleted_item db (req req' : Request unit) :
  success (fst (deleteMenuItem db req)) = true ->
  req'.(params_id) = req.(params_id) ->
  let db1 := snd (deleteMenuItem db req) in
  success (fst (toggleAvailability db1 req')) = true ->
  exists menuItem,
    MenuItem_findById db req.(params_id) = Some menuItem /\
    MenuItem_findById (snd (toggleAvailability db1 req')) req.(params_id)
      = Some (with_isAvailable true menuItem) /\
    message (fst (toggleAvailability db1 req')) = "Menu item is now available".
Proof.
  intros Hok Hp. cbv zeta.
  destruct (deleteMenuItem_cases db req) as
    [[Hfail _] | (user & menuItem & _ & Hm & _ & ->)]; [congruence|].
  intros Hok'. exists menuItem. split; [exact Hm|].
  pose proof (MenuItem_findById_id _ _ _ Hm) as Hid.
  set (m1 := with_isAvailable false menuItem) in *.
  assert (Hl1 : forall id,
             MenuItem_findById (saveMenuItem m1 db) id
             = if String.eqb req.(params_id) id then Some m1
               else MenuItem_findById db id).
  { intros id. rewrite (MenuItem_findById_saved db menuItem m1 id)
      by (simpl; rewrite Hid; exact Hm).
    simpl. rewrite Hid. reflexivity. }
  destruct (toggleAvailability_cases (saveMenuItem m1 db) req') as
    [[Hfail _] | (user' & m' & _ & _ & Hm' & _ & E')]; [congruence|].
  rewrite Hp, Hl1, String.eqb_refl in Hm'. injection Hm' as <-.
  rewrite E'. simpl. split; [|reflexivity].
  rewrite (MenuItem_findById_saved (saveMenuItem m1 db) m1)
    by (simpl; rewrite Hl1, Hid, String.eqb_refl; reflexivity).
  simpl. rewrite Hid, String.eqb_refl. reflexivity.
Qed.

(** *** Restaurants: deactivation and the open/closed switch *)

Lemma deleteRestaurant_cases db (req : Request unit) :
  (success (fst (deleteRestaurant db req)) = false /\
   snd (deleteRestaurant db req) = db) \/
  exists user rst,
    req.(req_user) = Some user /\
    Restaurant_findById db req.(params_id) = Some rst /\
    (user.(role) = role_admin \/
     user.(role) = role_restaurant /\ rst.(r_owner) = user.(u_id)) /\
    snd (deleteRestaurant db req) = saveRestaurant (with_isActive false rst) db.
Proof.
  unfold deleteRestaurant, protect.
  destruct (req_user req) as [user|]; [|left; split; reflexivity].
  destruct (authorize [role_restaurant; role_admin] user) eqn:Ha;
    [|left; split; reflexivity].
  simpl negb. cbv iota.
  destruct (Restaurant_findById db (params_id req)) as [rst|] eqn:Hf;
    [|left; split; reflexivity].
  destruct (Role_eqb (role user) role_restaurant) eqn:Hr; simpl.
  - destruct (String.eqb (r_owner rst) (u_id user)) eqn:Ho; simpl;
      [|left; split; reflexivity].
    right. exists user, rst. repeat split; try reflexivity.
    right. apply String.eqb_eq in Ho.
    split; [destruct (role user); (reflexivity || discriminate) | exact Ho].
  - right. exists user, rst. repeat split; try reflexivity.
    left. revert Ha Hr. unfold authorize. simpl.
    destruct (role user); simpl; (reflexivity || discriminate).
Qed.

Lemma toggleRestaurantStatus_cases db (req : Request unit) :
  (success (fst (toggleRestaurantStatus db req)) = false /\
   snd (toggleRestaurantStatus db req) = db) \/
  exists user rst,
    req.(req_user) = Some user /\
    user.(role) = role_restaurant /\
    Restaurant_findById db req.(params_id) = Some rst /\
    rst.(r_owner) = user.(u_id) /\
    toggleRestaurantStatus db req =
      (ok 200 ("Restaurant is now " ++
               (if negb rst.(isOpen) then "open" else "closed")) None,
       saveRestaurant (with_isOpen (negb rst.(isOpen)) rst) db).
Proof.
  unfold toggleRestaurantStatus, protect.
  destruct (req_user req) as [user|]; [|left; split; reflexivity].
  destruct (authorize [role_restaurant] user) eqn:Ha;
    [|left; split; reflexivity].
  simpl negb. cbv iota.
  destruct (Restaurant_findById db (params_id req)) as [rst|] eqn:Hf;
    [|left; split; reflexivity].
  destruct (String.eqb (r_owner rst) (u_id user)) eqn:Ho; simpl;
    [|left; split; reflexivity].
  right. exists user, rst. apply String.eqb_eq in Ho.
  repeat split; try reflexivity; try assumption.
  revert Ha. unfold authorize. simpl.
  destruct (role user); simpl; (reflexivity || discriminate).
Qed.

(** Once a restaurant has been deleted (deactivated) by an admin or
    by its owner, every order request that names it is turned away
    before anything is priced: the answer is 401, the validation
    failure, or 404 "Restaurant not found or inactive", and nothing is
    stored. *)
Theorem deactivated_restaurant_takes_no_orders db (req : Request unit) :
  success (fst (deleteRestaurant db req)) = true ->
  let db1 := snd (deleteRestaurant db req) in
  forall now fresh (placed : Request OrderBody),
    placed.(body).(ob_restaurant) = Some req.(params_id) ->
    snd (createOrder now fresh db1 placed) = db1 /\
    (fst (createOrder now fresh db1 placed) = notAuthenticated \/
     fst (createOrder now fresh db1 placed) = validationFailed \/
     fst (createOrder now fresh db1 placed)
       = fail 404 "Restaurant not found or inactive").
Proof.
  intros Hok. cbv zeta.
  destruct (deleteRestaurant_cases db req) as
    [[Hfail _] | (user & rst & _ & Hf & _ & ->)]; [congruence|].
  intros now fresh placed Hb.
  pose proof (Restaurant_findById_id _ _ _ Hf) as Hid.
  unfold createOrder, protect.
  destruct (req_user placed) as [customer_|]; [|split; [reflexivity | tauto]].
  rewrite Hb.
  destruct (negb _); [split; [reflexivity | tauto]|].
  destruct (ob_orderType (body placed)) as [ot|]; [|split; [reflexivity | tauto]].
  destruct (OrderType_of_string ot); [|split; [reflexivity | tauto]].
  rewrite (Restaurant_findById_saved db rst)
    by (simpl; rewrite Hid; exact Hf).
  simpl. rewrite Hid, String.eqb_refl. simpl.
  split; [reflexivity | tauto].
Qed.

(** Switching an open restaurant to closed is honoured by the order
    route: every order request that names the restaurant is answered
    with 401, the validation failure, 404 (inactive) or 400
    "Restaurant is currently closed", and nothing is stored. *)
Theorem closed_restaurant_takes_no_orders db (req : Request unit) rst :
  success (fst (toggleRestaurantStatus db req)) = true ->
  Restaurant_findById db req.(params_id) = Some rst ->
  rst.(isOpen) = true ->
  let db1 := snd (toggleRestaurantStatus db req) in
  message (fst (toggleRestaurantStatus db req)) = "Restaurant is now closed" /\
  forall now fresh (placed : Request OrderBody),
    placed.(body).(ob_restaurant) = Some req.(params_id) ->
    snd (createOrder now fresh db1 placed) = db1 /\
    (fst (createOrder now fresh db1 placed) = notAuthenticated \/
     fst (createOrder now fresh db1 placed) = validationFailed \/
     fst (createOrder now fresh db1 placed)
       = fail 404 "Restaurant not found or inactive" \/
     fst (createOrder now fresh db1 placed)
       = fail 400 "Restaurant is currently closed").
Proof.
  intros Hok Hf Hopen. cbv zeta.
  destruct (toggleRestaurantStatus_cases db req) as
    [[Hfail _] | (user & rst' & _ & _ & Hf' & _ & E)]; [congruence|].
  rewrite Hf in Hf'. injection Hf' as <-.
  rewrite E, Hopen. simpl. split; [reflexivity|]. clear E.
  intros now fresh placed Hb.
  pose proof (Restaurant_findById_id _ _ _ Hf) as Hid.
  unfold createOrder, protect.
  destruct (req_user placed) as [customer_|]; [|split; [reflexivity | tauto]].
  rewrite Hb.
  destruct (negb _); [split; [reflexivity | tauto]|].
  destruct (ob_orderType (body placed)) as [ot|]; [|split; [reflexivity | tauto]].
  destruct (OrderType_of_string ot); [|split; [reflexivity | tauto]].
  rewrite (Restaurant_findById_saved db rst)
    by (simpl; rewrite Hid; exact Hf).
  simpl. rewrite Hid, String.eqb_refl.
  unfold isCurrentlyOpen. simpl.
  destruct (isActive rst); simpl; split; (reflexivity || tauto).
Qed.

End CatalogProperties.

(* ================================================================= *)
(** ** Reading an order and paying for it *)

Section AccessProperties.

Context {host : Host} {stripe : Stripe}.

Lemma canAccess_true users db user order :
  canAccess users db user order = Ret true ->
  order.(customer) = user.(u_id) \/
  (user.(role) = role_restaurant /\ user.(restaurantId) = Some order.(restaurant)) \/
  (user.(role) = role_delivery /\
   exists t, order.(deliveryTracking) = Some t /\
             t.(dt_deliveryPerson) = Some user.(u_id)) \/
  user.(role) = role_admin.
Proof.
  unfold canAccess.
  destruct (populated users (customer order)); [|discriminate]. simpl negb. cbv iota.
  destruct (String.eqb (customer order) (u_id user)) eqn:Ec.
  { intros _. left. apply String.eqb_eq. exact Ec. }
  destruct (role user) eqn:Er; simpl.
  - discriminate.
  - destruct (Restaurant_findById db (restaurant order)) as [rst|] eqn:Hr;
      [|discriminate].
    simpl.
    destruct (restaurantId user) as [rid|]; [|discriminate].
    destruct (String.eqb (r_id rst) rid) eqn:Eid; [|discriminate].
    intros _. right. left. split; [reflexivity|].
    apply String.eqb_eq in Eid. subst rid.
    unfold Restaurant_findById in Hr. apply find_some in Hr.
    destruct Hr as [_ Hr]. apply String.eqb_eq in Hr. rewrite Hr. reflexivity.
  - destruct (deliveryTracking order) as [t|]; [|discriminate]. simpl.
    destruct (dt_deliveryPerson t) as [person|] eqn:Hp; [|discriminate].
    destruct (populated users person && String.eqb person (u_id user)) eqn:Ep;
      [|discriminate].
    intros _. right. right. left. split; [reflexivity|].
    exists t. split; [reflexivity|].
    apply Bool.andb_true_iff in Ep. destruct Ep as [_ Ep].
    apply String.eqb_eq in Ep. rewrite Hp, Ep. reflexivity.
  - intros _. right. right. right. reflexivity.
Qed.

(** GET /api/orders/:id hands an order out only to its customer, to a
    restaurant user whose [restaurantId] is the order's restaurant, to
    the delivery person assigned to it, or to an admin; the order
    handed out is the stored one. *)
Theorem getOrder_discloses_to_parties_only users db (req : Request unit) o :
  res_order (getOrder users db req) = Some o ->
  exists user,
    req.(req_user) = Some user /\
    Order_findById db req.(params_id) = Some o /\
    (o.(customer) = user.(u_id) \/
     (user.(role) = role_restaurant /\ user.(restaurantId) = Some o.(restaurant)) \/
     (user.(role) = role_delivery /\
      exists t, o.(deliveryTracking) = Some t /\
                t.(dt_deliveryPerson) = Some user.(u_id)) \/
     user.(role) = role_admin).
Proof.
  unfold getOrder, protect.
  destruct (req_user req) as [user|]; [|discriminate].
  destruct (Order_findById db (params_id req)) as [order|] eqn:Hf; [|discriminate].
  destruct (canAccess users db user order) as [[|]|e] eqn:Hc; try discriminate.
  simpl. intros H. injection H as <-.
  exists user. split; [reflexivity|]. split; [reflexivity|].
  exact (canAccess_true users db user order Hc).
Qed.

Lemma createIntent_cases now db account (req : Request IntentBody) :
  (success (fst (fst (createIntent now db account req))) = false /\
   snd (fst (createIntent now db account req)) = db) \/
  exists user amount orderId order customerId intentId,
    req.(req_user) = Some user /\
    req.(body).(ib_amount) = Some amount /\
    req.(body).(ib_orderId) = Some orderId /\
    Order_findById db orderId = Some order /\
    order.(customer) = user.(u_id) /\
    stripe_paymentIntents_create
      (mkIntentData (Math_round (amount * 100)%float) customerId orderId user.(u_id)
         (if truthy req.(body).(ib_paymentMethodId)
          then req.(body).(ib_paymentMethodId) else None))
      = Ret intentId /\
    snd (fst (createIntent now db account req))
      = snd (persist now
               (modify (with_payment
                          (mkPayment order.(payment).(pay_method) pay_processing
                             (Some intentId) order.(payment).(stripeChargeId)
                             order.(payment).(paidAt) order.(payment).(refundedAt)
                             order.(payment).(refundAmount)))
                  (hydrate order)) db).
Proof.
  unfold createIntent, protect.
  destruct (req_user req) as [user|]; [|left; split; reflexivity].
  destruct (ib_amount (body req)) as [amount|]; [|left; split; reflexivity].
  destruct (ib_orderId (body req)) as [orderId|]; [|left; split; reflexivity].
  destruct (String.eqb orderId ""); [left; split; reflexivity|].
  destruct (Order_findById db orderId) as [order|] eqn:Hf; [|left; split; reflexivity].
  destruct (String.eqb (customer order) (u_id user)) eqn:Hc;
    [|left; split; reflexivity].
  simpl negb. cbv iota.
  destruct account as [a|]; [|left; split; reflexivity].
  apply String.eqb_eq in Hc.
  destruct (truthy (stripeCustomerId a)).
  - simpl.
    destruct (stripe_paymentIntents_create _) as [intentId|e] eqn:Hs;
      [|left; split; reflexivity].
    right. exists user, amount, orderId, order. do 2 eexists.
    do 5 (split; [reflexivity || assumption|]).
    split; [exact Hs|].
    reflexivity.
  - destruct (stripe_customers_create (u_id user)) as [customerId|e]; simpl;
      [|left; split; reflexivity].
    destruct (stripe_paymentIntents_create _) as [intentId|e] eqn:Hs;
      [|left; split; reflexivity].
    right. exists user, amount, orderId, order. do 2 eexists.
    do 5 (split; [reflexivity || assumption|]).
    split; [exact Hs|].
    reflexivity.
Qed.

(** POST /api/payments/create-intent goes through only for the
    order's customer.  The intent is created for the amount the
    request names, in cents; the order's total is not consulted.  The
    order's payment then is processing under the new intent id,
    whatever it was before (also completed or refunded); the status
    and the timeline of the order stay as they were. *)
Theorem createIntent_takes_the_requests_amount
    now db account (req : Request IntentBody) :
  success (fst (fst (createIntent now db account req))) = true ->
  exists user amount orderId order customerId intentId o',
    req.(req_user) = Some user /\
    req.(body).(ib_amount) = Some amount /\
    req.(body).(ib_orderId) = Some orderId /\
    Order_findById db orderId = Some order /\
    order.(customer) = user.(u_id) /\
    stripe_paymentIntents_create
      (mkIntentData (Math_round (amount * 100)%float) customerId orderId user.(u_id)
         (if truthy req.(body).(ib_paymentMethodId)
          then req.(body).(ib_paymentMethodId) else None))
      = Ret intentId /\
    snd (fst (createIntent now db account req))
      = with_orders (replace_order o' db.(orders)) db /\
    o'.(_id) = order.(_id) /\
    o'.(payment).(pay_status) = pay_processing /\
    o'.(payment).(stripePaymentIntentId) = Some intentId /\
    o'.(status) = order.(status) /\
    o'.(timeline) = order.(timeline) /\
    o'.(pricing) = order.(pricing).
Proof.
  intros Hok.
  destruct (createIntent_cases now db account req) as
    [[Hfail _] | (user & amount & orderId & order & customerId & intentId
                  & Hu & Ha & Ho & Hf & Hc & Hs & Hdb)]; [congruence|].
  exists user, amount, orderId, order, customerId, intentId. eexists.
  do 6 (split; [assumption|]).
  split; [rewrite Hdb; reflexivity|].
  simpl. repeat split; reflexivity.
Qed.

End AccessProperties.

(* ================================================================= *)
(** ** The address book *)

Section AddressProperties.

Context {mongoose : Mongoose}.

Lemma getKey_setKey_other {V} (k k' : ObjectId) (v : V) l :
  k <> k' -> getKey k (setKey k' v l) = getKey k l.
Proof.
  intros N. unfold getKey, setKey. f_equal.
  induction l as [|[k0 v0] l IH]; simpl.
  - assert (String.eqb k' k = false) as -> by (apply String.eqb_neq; congruence).
    reflexivity.
  - destruct (String.eqb k0 k') eqn:E; simpl.
    + apply String.eqb_eq in E. subst k0.
      assert (String.eqb k' k = false) as -> by (apply String.eqb_neq; congruence).
      exact IH.
    + destruct (String.eqb k0 k); [reflexivity | exact IH].
Qed.







(** *** Updating an address *)

Lemma indexOfId_nth id l i :
  indexOfId id l = Some i ->
  exists a, nth_error l i = Some a /\ a.(ua_id) = id.
Proof.
  revert i. induction l as [|x l IH]; intros i; simpl; [discriminate|].
  destruct (String.eqb (ua_id x) id) eqn:E.
  - intros H. injection H as <-. exists x. split; [reflexivity|].
    apply String.eqb_eq. exact E.
  - destruct (indexOfId id l) as [j|]; [|discriminate].
    intros H. injection H as <-. exact (IH j eq_refl).
Qed.

Lemma map_updateAt {A B} (g : A -> B) (f : A -> A) (f' : B -> B) i l :
  (forall a, nth_error l i = Some a -> g (f a) = f' (g a)) ->
  map g (updateAt i f l) = updateAt i f' (map g l).
Proof.
  revert i. induction l as [|a l IH]; intros [|i] H; simpl; try reflexivity.
  - rewrite (H a eq_refl). reflexivity.
  - rewrite IH; [reflexivity|]. intros x Hx. apply H. exact Hx.
Qed.

Lemma updateAt_same {A} (f : A -> A) i (l : list A) :
  (forall a, nth_error l i = Some a -> f a = a) -> updateAt i f l = l.
Proof.
  revert i. induction l as [|a l IH]; intros [|i] H; simpl; try reflexivity.
  - rewrite (H a eq_refl). reflexivity.
  - rewrite IH; [reflexivity|]. intros x Hx. apply H. exact Hx.
Qed.

Lemma updateAt_length {A} (f : A -> A) i l :
  List.length (updateAt i f l) = List.length l.
Proof.
  revert i. induction l as [|a l IH]; intros [|i]; simpl; try reflexivity.
  rewrite IH. reflexivity.
Qed.

Lemma defaults_flagged l : defaults l = flagged (map ua_isDefault l).
Proof.
  unfold defaults, flagged. induction l as [|a l IH]; simpl; [reflexivity|].
  cbv [Datatypes.id] in *. destruct (ua_isDefault a); simpl; rewrite IH; reflexivity.
Qed.

Lemma flagged_cleared i flags :
  flagged (updateAt i (fun _ => false) flags) <= flagged flags.
Proof.
  unfold flagged. revert i.
  induction flags as [|b flags IH]; intros [|i]; simpl; try lia.
  - cbv [Datatypes.id] in *. destruct b; simpl; lia.
  - specialize (IH i). cbv [Datatypes.id] in *. destruct b; simpl; lia.
Qed.

Lemma existsb_flagged flags :
  existsb id flags = negb (Nat.eqb (flagged flags) 0).
Proof.
  unfold flagged. induction flags as [|b flags IH]; simpl; [reflexivity|].
  cbv [Datatypes.id] in *. destruct b; simpl; [reflexivity | exact IH].
Qed.

Lemma flagged_named id l :
  NoDup (map ua_id l) -> In id (map ua_id l) ->
  flagged (map (fun addr => String.eqb addr.(ua_id) id) l) = 1.
Proof.
  assert (Z : forall l', ~ In id (map ua_id l') ->
              flagged (map (fun addr => String.eqb addr.(ua_id) id) l') = 0).
  { unfold flagged. induction l' as [|a l' IH]; simpl; [reflexivity|].
    intros N. cbv [Datatypes.id] in *. destruct (String.eqb (ua_id a) id) eqn:E.
    - apply String.eqb_eq in E. tauto.
    - apply IH. tauto. }
  induction l as [|a l IH]; simpl; [tauto|].
  intros Hnd Hin. inversion Hnd as [|? ? Hnotin Hnd']; subst.
  unfold flagged in *. simpl. cbv [Datatypes.id] in *.
  destruct (String.eqb (ua_id a) id) eqn:E; simpl.
  - apply String.eqb_eq in E. subst id. rewrite (Z l Hnotin). reflexivity.
  - apply String.eqb_neq in E. apply IH; [exact Hnd'|].
    destruct Hin as [Hin|Hin]; [congruence | exact Hin].
Qed.

Lemma flagged_unnamed id l :
  ~ In id (map ua_id l) ->
  flagged (map (fun addr => String.eqb addr.(ua_id) id) l) = 0.
Proof.
  unfold flagged. induction l as [|a l IH]; simpl; [reflexivity|].
  intros N. cbv [Datatypes.id] in *. destruct (String.eqb (ua_id a) id) eqn:E.
  - apply String.eqb_eq in E. tauto.
  - apply IH. tauto.
Qed.

Lemma find_flagged id l :
  map ua_isDefault l = map (fun addr => String.eqb addr.(ua_id) id) l ->
  In id (map ua_id l) ->
  exists a, find ua_isDefault l = Some a /\ a.(ua_id) = id /\ a.(ua_isDefault) = true.
Proof.
  induction l as [|x l IH]; simpl; [tauto|].
  intros H Hin. injection H as Hx Hl.
  destruct (ua_isDefault x) eqn:E.
  - exists x. split; [reflexivity|]. split; [|exact E].
    apply String.eqb_eq. symmetry. exact Hx.
  - symmetry in Hx. apply String.eqb_neq in Hx. apply IH; [exact Hl|].
    destruct Hin as [Hin|Hin]; [congruence | exact Hin].
Qed.

Lemma updateAddress_cases book (req : Request AddressBody) :
  (success (fst (updateAddress book req)) = false /\
   snd (updateAddress book req) = book) \/
  exists user addresses casted i,
    req.(req_user) = Some user /\
    getKey user.(u_id) book = Some addresses /\
    castObjectId req.(params_id) = Some casted /\
    indexOfId casted addresses = Some i /\
    let patched :=
      updateAt i
        (fun a => assignKeys req.(body)
                    (match writtenId req.(body) a.(ua_id) with
                     | Some id => id
                     | None => a.(ua_id)
                     end) a)
        addresses in
    let after :=
      match req.(body).(ab_isDefault) with
      | None => patched
      | Some isDefault =>
          if Json_truthy isDefault then
            map (fun addr =>
                   with_ua_isDefault (String.eqb addr.(ua_id) req.(params_id)) addr)
              patched
          else
            if negb (existsb ua_isDefault
                       (updateAt i (with_ua_isDefault false) patched))
            then updateAt 0 (with_ua_isDefault true)
                   (updateAt i (with_ua_isDefault false) patched)
            else updateAt i (with_ua_isDefault false) patched
      end in
    forallb validAddress after = true /\
    snd (updateAddress book req) = setKey user.(u_id) after book.
Proof.
  unfold updateAddress, protect, addresses_id.
  destruct (req_user req) as [user|]; [|left; split; reflexivity].
  destruct (getKey (u_id user) book) as [addresses|] eqn:Hg;
    [|left; split; reflexivity].
  destruct (castObjectId (params_id req)) as [casted|] eqn:Hc;
    [|left; split; reflexivity].
  destruct (indexOfId casted addresses) as [i|] eqn:Hi;
    [|left; split; reflexivity].
  cbv zeta.
  match goal with
  | |- context [if ?c && forallb validAddress ?l then _ else _] =>
      destruct c; [|left; split; reflexivity];
      destruct (forallb validAddress l) eqn:Hv; [|left; split; reflexivity]
  end.
  right. exists user, addresses, casted, i.
  repeat split; (reflexivity || assumption).
Qed.

(** PUT /api/users/addresses/:addressId, when it answers 200 to a body
    without an [_id]: the route parameter casts to an [ObjectId], the
    first address with that [_id] receives the body's keys, every
    address keeps its [_id] and its place, every other address keeps
    all its paths but the default flag, no other user's book changes
    and every address passes the validators.  Without [isDefault] the
    flags stay.  With a truthy [isDefault] an address is the default
    afterwards exactly when its [_id] equals the route parameter as it
    was sent: in a book with distinct [_id]s that is one default, the
    address named, when the parameter is the rendering of a stored
    [_id], and no default at all when it is not (an id written in
    upper case casts to the stored one but equals none).  With a falsy
    [isDefault] the address loses its flag and, if none is left, the
    first address receives it: a book with at most one default has
    exactly one afterwards. *)
Theorem updateAddress_marks_default book (req : Request AddressBody) :
  success (fst (updateAddress book req)) = true ->
  req.(body).(ab_id) = None ->
  exists user addresses after casted i a,
    req.(req_user) = Some user /\
    getKey user.(u_id) book = Some addresses /\
    getKey user.(u_id) (snd (updateAddress book req)) = Some after /\
    (forall other, other <> user.(u_id) ->
                   getKey other (snd (updateAddress book req)) = getKey other book) /\
    castObjectId req.(params_id) = Some casted /\
    indexOfId casted addresses = Some i /\
    nth_error addresses i = Some a /\ a.(ua_id) = casted /\
    map ua_id after = map ua_id addresses /\
    map (with_ua_isDefault false) after
      = updateAt i (fun _ => with_ua_isDefault false (assignKeys req.(body) casted a))
          (map (with_ua_isDefault false) addresses) /\
    forallb validAddress after = true /\
    (req.(body).(ab_isDefault) = None ->
     map ua_isDefault after = map ua_isDefault addresses) /\
    (asksDefault req.(body) = true ->
     map ua_isDefault after
     = map (fun addr => String.eqb addr.(ua_id) req.(params_id)) addresses) /\
    (req.(body).(ab_isDefault) <> None -> asksDefault req.(body) = false ->
     map ua_isDefault after
     = let cleared := updateAt i (fun _ => false) (map ua_isDefault addresses) in
       if existsb id cleared then cleared else updateAt 0 (fun _ => true) cleared) /\
    (asksDefault req.(body) = true ->
     NoDup (map ua_id addresses) -> In req.(params_id) (map ua_id addresses) ->
     defaults after = 1 /\
     exists named, getDefaultAddress after = Some named /\
                   named.(ua_id) = req.(params_id) /\ named.(ua_isDefault) = true) /\
    (asksDefault req.(body) = true ->
     ~ In req.(params_id) (map ua_id addresses) -> defaults after = 0) /\
    (req.(body).(ab_isDefault) <> None -> asksDefault req.(body) = false ->
     defaults addresses <= 1 -> defaults after = 1).
Proof.
  intros Hok Hnoid.
  destruct (updateAddress_cases book req) as
    [[Hfail _] | (user & addresses & casted & i & Hu & Hg & Hc & Hi & Hv & Hb)];
    [congruence|].
  cbv zeta in Hv, Hb. rewrite Hb. clear Hb.
  destruct (indexOfId_nth _ _ _ Hi) as (a & Hnth & Ha).
  revert Hv.
  set (patched := updateAt i _ addresses).
  assert (Hpids : map ua_id patched = map ua_id addresses).
  { unfold patched. rewrite (map_updateAt ua_id _ (fun x => x)).
    - apply updateAt_same. reflexivity.
    - intros x _. unfold writtenId. rewrite Hnoid. reflexivity. }
  assert (Hpflags : map ua_isDefault patched = map ua_isDefault addresses).
  { unfold patched. rewrite (map_updateAt ua_isDefault _ (fun x => x)).
    - apply updateAt_same. reflexivity.
    - intros x _. reflexivity. }
  assert (Hpcore : map (with_ua_isDefault false) patched
                   = updateAt i
                       (fun _ => with_ua_isDefault false (assignKeys (body req) casted a))
                       (map (with_ua_isDefault false) addresses)).
  { unfold patched. apply map_updateAt. intros x Hx.
    assert (x = a) as -> by congruence.
    unfold writtenId. rewrite Hnoid, Ha. reflexivity. }
  clearbody patched.
  set (after := match ab_isDefault (body req) with Some _ => _ | None => _ end).
  intros Hv.
  assert (Hcore : map (with_ua_isDefault false) after
                  = map (with_ua_isDefault false) patched).
  { unfold after. destruct (ab_isDefault (body req)) as [v|]; [|reflexivity].
    destruct (Json_truthy v).
    - rewrite map_map. apply map_ext. intros x. reflexivity.
    - assert (Hcl : forall j flag l,
                 map (with_ua_isDefault false) (updateAt j (with_ua_isDefault flag) l)
                 = map (with_ua_isDefault false) l).
      { intros j flag l. rewrite (map_updateAt _ _ (fun x => x)).
        - apply updateAt_same. reflexivity.
        - intros x _. reflexivity. }
      destruct (negb _); rewrite ?Hcl; reflexivity. }
  assert (Hids : map ua_id after = map ua_id addresses).
  { rewrite <- Hpids.
    transitivity (map ua_id (map (with_ua_isDefault false) after));
      [rewrite map_map; reflexivity|].
    rewrite Hcore, map_map. reflexivity. }
  assert (Htruthy : asksDefault (body req) = true ->
                    map ua_isDefault after
                    = map (fun addr => String.eqb addr.(ua_id) req.(params_id))
                        addresses).
  { unfold asksDefault, after. destruct (ab_isDefault (body req)) as [v|];
      [|discriminate].
    intros ->. rewrite map_map. cbn [with_ua_isDefault ua_isDefault].
    rewrite <- (map_map ua_id (fun x => String.eqb x (params_id req))), Hpids.
    rewrite map_map. reflexivity. }
  assert (Hfalsy : req.(body).(ab_isDefault) <> None ->
                   asksDefault (body req) = false ->
                   map ua_isDefault after
                   = let cleared :=
                       updateAt i (fun _ => false) (map ua_isDefault addresses) in
                     if existsb id cleared then cleared
                     else updateAt 0 (fun _ => true) cleared).
  { unfold asksDefault, after. destruct (ab_isDefault (body req)) as [v|];
      [|congruence].
    intros _ ->. cbv zeta. rewrite <- Hpflags.
    assert (Hm : forall j flag l,
               map ua_isDefault (updateAt j (with_ua_isDefault flag) l)
               = updateAt j (fun _ => flag) (map ua_isDefault l)).
    { intros j flag l. apply map_updateAt. reflexivity. }
    assert (He : forall l, existsb ua_isDefault l = existsb id (map ua_isDefault l)).
    { induction l as [|x l IH]; simpl; [reflexivity|]. rewrite IH. reflexivity. }
    rewrite He, Hm. destruct (existsb id _); cbn [negb]; rewrite ?Hm; reflexivity. }
  exists user, addresses, after, casted, i, a.
  split; [exact Hu|]. split; [exact Hg|]. split; [apply getKey_setKey|].
  split; [intros other N; apply getKey_setKey_other; exact N|].
  do 4 (split; [assumption|]).
  split; [exact Hids|]. split; [rewrite Hcore; exact Hpcore|].
  split; [exact Hv|].
  split; [|split; [exact Htruthy|split; [exact Hfalsy|split; [|split]]]].
  - unfold after. intros ->. exact Hpflags.
  - intros Ht Hnd Hin. split.
    + rewrite defaults_flagged, (Htruthy Ht). apply flagged_named; assumption.
    + unfold getDefaultAddress.
      destruct (find_flagged (params_id req) after) as (named & Hf & Hn).
      * rewrite (Htruthy Ht).
        rewrite <- (map_map ua_id (fun x => String.eqb x (params_id req)) after).
        rewrite Hids, map_map. reflexivity.
      * rewrite Hids. exact Hin.
      * rewrite Hf. exists named. split; [reflexivity | exact Hn].
  - intros Ht Hnin. rewrite defaults_flagged, (Htruthy Ht).
    apply flagged_unnamed. exact Hnin.
  - intros Hsome Hf Hle. rewrite defaults_flagged, (Hfalsy Hsome Hf). cbv zeta.
    rewrite defaults_flagged in Hle.
    pose proof (flagged_cleared i (map ua_isDefault addresses)) as Hcl.
    rewrite existsb_flagged.
    destruct (Nat.eqb (flagged (updateAt i (fun _ => false) (map ua_isDefault addresses)))
                0) eqn:E; simpl.
    + apply Nat.eqb_eq in E. revert E.
      pose proof (updateAt_length (fun _ : bool => false) i
                    (map ua_isDefault addresses)) as Hl.
      destruct (updateAt i (fun _ => false) (map ua_isDefault addresses)) as [|x rest].
      { rewrite length_map in Hl. destruct addresses; [destruct i; discriminate Hnth | discriminate Hl]. }
      unfold flagged. simpl. cbv [Datatypes.id] in *. destruct x; simpl; [discriminate|].
      intros ->. reflexivity.
    + apply Nat.eqb_neq in E. lia.
Qed.

End AddressProperties.

(* ================================================================= *)
(** ** Availability windows of menu items *)

Section AvailabilityProperties.

(** The order on strings that [<=] and [>=] use is transitive. *)
Lemma String_compare_trans (a b c : string) :
  String.compare a b <> Gt -> String.compare b c <> Gt -> String.compare a c <> Gt.
Proof.
  revert b c. induction a as [|x a IH]; intros b c.
  - destruct c; simpl; discriminate.
  - destruct b as [|y b]; simpl; [congruence|].
    destruct c as [|z c]; simpl.
    { destruct (Ascii.compare x y); intros _ H; exfalso; apply H; reflexivity. }
    unfold Ascii.compare.
    destruct (N.compare_spec (N_of_ascii x) (N_of_ascii y)) as [Exy|Lxy|Gxy];
      destruct (N.compare_spec (N_of_ascii y) (N_of_ascii z)) as [Eyz|Lyz|Gyz];
      destruct (N.compare_spec (N_of_ascii x) (N_of_ascii z)) as [Exz|Lxz|Gxz];
      try congruence; try lia; try discriminate.
    apply IH.
Qed.

Lemma String_leb_trans (a b c : string) :
  String.leb a b = true -> String.leb b c = true -> String.leb a c = true.
Proof.
  unfold String.leb. intros H1 H2.
  pose proof (String_compare_trans a b c) as T.
  destruct (String.compare a b); try discriminate;
    destruct (String.compare b c); try discriminate;
    destruct (String.compare a c); try reflexivity;
    exfalso; apply T; congruence.
Qed.

(** A window that runs over midnight (its end sorts before its start,
    as in 22:00 to 02:00) makes the item unavailable at every time of
    the day: [isAvailableNow] returns false whatever the clock
    shows. *)
Theorem isAvailableNow_never_in_overnight_window
    (this : MenuItem) (start end_ : string) (now : Date) :
  String.ltb end_ start = true ->
  end_ <> "" ->
  isAvailableNow this (mkAvailableHours (Some start) (Some end_)) now = Ret false.
Proof.
  intros Hlt Hne. unfold isAvailableNow.
  destruct (isAvailable this); [|reflexivity]. simpl.
  assert (String.eqb start "" = false) as ->.
  { apply String.eqb_neq. intros ->. unfold String.ltb in Hlt.
    destruct end_; discriminate. }
  assert (String.eqb end_ "" = false) as -> by (apply String.eqb_neq; exact Hne).
  simpl. f_equal.
  destruct (String.leb start _) eqn:H1; [|reflexivity].
  destruct (String.leb _ end_) eqn:H2; [|reflexivity].
  pose proof (String_leb_trans _ _ _ H1 H2) as H.
  unfold String.ltb in Hlt. unfold String.leb in H.
  rewrite String.compare_antisym in H.
  destruct (String.compare end_ start); discriminate.
Qed.

End AvailabilityProperties.

(* ================================================================= *)
(** ** The further properties on the example data *)

(** Confirming the succeeded intent of the pending order. *)
Lemma confirmPayment_writes_witness :
  exists o',
    snd (confirmPayment Sample.now Sample.shop (Sample.plainReq Sample.alice "pi_1")
           (Ret (Some Sample.succeededIntent)))
    = with_orders (replace_order o' Sample.shop.(orders)) Sample.shop /\
    o'.(status) = confirmed /\ o'.(payment).(pay_status) = pay_completed.
Proof.
  destruct (confirmPayment_writes (host := Sample.host) Sample.now Sample.shop
              (Sample.plainReq Sample.alice "pi_1")
              (Ret (Some Sample.succeededIntent)) ltac:(vm_compute; reflexivity))
    as (user & paymentIntent & order & o' & _ & Hr & _ & _ & Hdb & _ & Hs & _).
  injection Hr as <-. exists o'. split; [exact Hdb|].
  destruct (Hs eq_refl) as (H1 & H2 & _). split; assumption.
Defined.

Lemma webhook_after_confirmation_is_silent_witness :
  let db1 := snd (confirmPayment Sample.now Sample.shop
                    (Sample.plainReq Sample.alice "pi_1")
                    (Ret (Some Sample.succeededIntent))) in
  auditView (snd (webhook Sample.now db1
                    (Ret (payment_intent_succeeded Sample.paidIntent))))
  = auditView db1 /\
  http_status (fst (webhook Sample.now db1
                      (Ret (payment_intent_succeeded Sample.paidIntent)))) = 200.
Proof.
  split; [|vm_compute; reflexivity].
  exact (webhook_after_confirmation_is_silent (host := Sample.host)
           Sample.now Sample.now Sample.shop (Sample.plainReq Sample.alice "pi_1")
           Sample.succeededIntent Sample.paidIntent
           ltac:(vm_compute; reflexivity) ltac:(vm_compute; reflexivity)
           ltac:(vm_compute; reflexivity)).
Defined.


Lemma rateOrder_only_once_witness :
  success (fst (rateOrder Sample.now
                  (snd (rateOrder Sample.now Sample.rated Sample.fiveStars))
                  Sample.fiveStars)) = false.
Proof.
  exact (proj1 (rateOrder_only_once (host := Sample.host) Sample.now Sample.rated
                  Sample.fiveStars ltac:(vm_compute; reflexivity)
                  Sample.now Sample.fiveStars eq_refl)).
Defined.

(** Three wraps and a salad from the diner's lunch menu. *)
Lemma validated_lines_are_on_the_menu_witness :
  exists acc,
    validateItems Sample.lunchMenu "r_diner" Sample.lunch (mkItemsAcc 0%float 0%float [])
      = Continue acc /\
    map oi_name acc.(acc_validatedItems) = ["Wrap"; "Salad"] /\
    List.length acc.(acc_validatedItems) = List.length Sample.lunch.
Proof.
  eexists. split; [vm_compute; reflexivity|]. split; [vm_compute; reflexivity|].
  symmetry.
  refine (Forall2_length
            (validated_lines_are_on_the_menu Sample.lunchMenu "r_diner" Sample.lunch _
               ltac:(vm_compute; reflexivity))).
Defined.

(** The owner deletes the burger; it stays on file, unavailable. *)
Lemma deleteMenuItem_keeps_the_item_witness :
  MenuItem_findById
    (snd (deleteMenuItem Sample.shop (Sample.plainReq Sample.owner "m_burger")))
    "m_burger"
  = Some (with_isAvailable false Sample.burger).
Proof.
  destruct (deleteMenuItem_keeps_the_item Sample.shop
              (Sample.plainReq Sample.owner "m_burger") ltac:(vm_compute; reflexivity))
    as (user & menuItem & _ & _ & Hm & Hl & _).
  vm_compute in Hm. injection Hm as <-. exact Hl.
Defined.

Lemma deleted_item_cannot_be_ordered_witness :
  let db1 := snd (deleteMenuItem Sample.shop (Sample.plainReq Sample.owner "m_burger")) in
  success (fst (placeOrder Sample.now "o_new" db1 Sample.alice Sample.diner
                  "r_diner" delivery Sample.twoBurgers)) = false /\
  forall acc,
    validateItems db1 "r_diner" Sample.twoBurgers.(ob_items)
      (mkItemsAcc 0%float 0%float []) <> Continue acc.
Proof.
  destruct (deleted_item_cannot_be_ordered (host := Sample.host) Sample.shop
              (Sample.plainReq Sample.owner "m_burger")
              ltac:(vm_compute; reflexivity)
              Sample.now "o_new" Sample.alice Sample.diner "r_diner" delivery
              Sample.twoBurgers
              (ex_intro _ (mkReqItem "m_burger" None 2%float None None)
                 (conj (or_introl eq_refl) eq_refl)))
    as (Hfail & _ & Hloop).
  split; [exact Hfail|]. intros acc. apply Hloop.
Defined.

Lemma toggleAvailability_twice_restores_witness :
  let req := Sample.plainReq Sample.owner "m_burger" in
  MenuItem_findById
    (snd (toggleAvailability (snd (toggleAvailability Sample.shop req)) req))
    "m_burger"
  = MenuItem_findById Sample.shop "m_burger".
Proof.
  exact (proj1 (proj2 (toggleAvailability_twice_restores Sample.shop
                         (Sample.plainReq Sample.owner "m_burger")
                         ltac:(vm_compute; reflexivity)))
           "m_burger").
Defined.

Lemma toggle_revives_deleted_item_witness :
  let req := Sample.plainReq Sample.owner "m_burger" in
  exists menuItem,
    MenuItem_findById Sample.shop "m_burger" = Some menuItem /\
    MenuItem_findById
      (snd (toggleAvailability (snd (deleteMenuItem Sample.shop req)) req)) "m_burger"
    = Some (with_isAvailable true menuItem) /\
    message (fst (toggleAvailability (snd (deleteMenuItem Sample.shop req)) req))
    = "Menu item is now available".
Proof.
  exact (toggle_revives_deleted_item Sample.shop
           (Sample.plainReq Sample.owner "m_burger")
           (Sample.plainReq Sample.owner "m_burger")
           ltac:(vm_compute; reflexivity) eq_refl ltac:(vm_compute; reflexivity)).
Defined.

(** The owner deactivates the diner; the next cart is answered 404. *)
Lemma deactivated_restaurant_takes_no_orders_witness :
  let db1 := snd (deleteRestaurant Sample.shop (Sample.plainReq Sample.owner "r_diner")) in
  fst (createOrder Sample.now "o_new" db1 (Sample.orderReq Sample.alice Sample.twoBurgers))
  = fail 404 "Restaurant not found or inactive".
Proof.
  destruct (deactivated_restaurant_takes_no_orders (host := Sample.host) Sample.shop
              (Sample.plainReq Sample.owner "r_diner") ltac:(vm_compute; reflexivity)
              Sample.now "o_new" (Sample.orderReq Sample.alice Sample.twoBurgers)
              eq_refl) as [_ [H | [H | H]]].
  - vm_compute in H. discriminate H.
  - vm_compute in H. discriminate H.
  - exact H.
Defined.

(** The owner switches the diner to closed. *)
Lemma closed_restaurant_takes_no_orders_witness :
  message (fst (toggleRestaurantStatus Sample.shop
                  (Sample.plainReq Sample.owner "r_diner")))
  = "Restaurant is now closed".
Proof.
  exact (proj1 (closed_restaurant_takes_no_orders (host := Sample.host) Sample.shop
                  (Sample.plainReq Sample.owner "r_diner") Sample.diner
                  ltac:(vm_compute; reflexivity) ltac:(vm_compute; reflexivity)
                  eq_refl)).
Defined.

(** The customer reads her own order. *)
Lemma getOrder_discloses_to_parties_only_witness :
  exists user,
    (Sample.plainReq Sample.alice "o1").(req_user) = Some user /\
    Order_findById Sample.shop "o1" = Some Sample.pendingOrder /\
    (Sample.pendingOrder.(customer) = user.(u_id) \/
     (user.(role) = role_restaurant /\
      user.(restaurantId) = Some Sample.pendingOrder.(restaurant)) \/
     (user.(role) = role_delivery /\
      exists t, Sample.pendingOrder.(deliveryTracking) = Some t /\
                t.(dt_deliveryPerson) = Some user.(u_id)) \/
     user.(role) = role_admin).
Proof.
  exact (getOrder_discloses_to_parties_only ["u_alice"] Sample.shop
           (Sample.plainReq Sample.alice "o1") Sample.pendingOrder
           ltac:(vm_compute; reflexivity)).
Defined.

(** The customer asks for an intent of $1 on the delivered order,
    which is paid: its payment goes back to processing. *)
Lemma createIntent_takes_the_requests_amount_witness :
  exists o',
    Sample.deliveredOrder.(payment).(pay_status) = pay_completed /\
    Order_findById
      (snd (fst (createIntent Sample.now Sample.shop (Some (mkAccount None))
                   Sample.payAgain))) "o2" = Some o' /\
    o'.(payment).(pay_status) = pay_processing.
Proof.
  destruct (createIntent_takes_the_requests_amount
              (host := Sample.host) (stripe := Sample.stripe)
              Sample.now Sample.shop (Some (mkAccount None)) Sample.payAgain
              ltac:(vm_compute; reflexivity))
    as (user & amount & orderId & order & customerId & intentId & o'
        & _ & _ & Ho & Hf & _ & _ & Hdb & Hid & Hp & _).
  injection Ho as <-. vm_compute in Hf. injection Hf as <-.
  exists o'. split; [reflexivity|]. split; [|exact Hp].
  rewrite Hdb. unfold Order_findById, replace_order. simpl in *.
  rewrite Hid. simpl. rewrite Hid. reflexivity.
Defined.


(** Making the office address the default one moves the flag to it;
    the same request with the id written in upper case finds the
    address and leaves the book without a default. *)
Lemma updateAddress_marks_default_witness :
  (exists after,
     getKey "u_alice" (snd (updateAddress Sample.book Sample.officeDefault))
       = Some after /\
     map ua_isDefault after = [false; true] /\ defaults after = 1) /\
  (exists after,
     getKey "u_alice" (snd (updateAddress Sample.book Sample.officeDefaultUpper))
       = Some after /\
     map ua_isDefault after = [false; false] /\ defaults after = 0).
Proof.
  split.
  - destruct (updateAddress_marks_default (mongoose := Sample.mongoose)
                Sample.book Sample.officeDefault
                ltac:(vm_compute; reflexivity) eq_refl)
      as (user & addresses & after & casted & i & a & Hu & Hg & Hg' & _ & _ & _ & _
          & _ & _ & _ & _ & _ & Hflags & _ & Hone & _).
    injection Hu as <-. vm_compute in Hg. injection Hg as <-.
    exists after. split; [exact Hg'|]. split.
    + rewrite (Hflags eq_refl). reflexivity.
    + apply Hone; [reflexivity | |].
      * vm_compute. repeat constructor; simpl; intuition discriminate.
      * right. left. reflexivity.
  - destruct (updateAddress_marks_default (mongoose := Sample.mongoose)
                Sample.book Sample.officeDefaultUpper
                ltac:(vm_compute; reflexivity) eq_refl)
      as (user & addresses & after & casted & i & a & Hu & Hg & Hg' & _ & _ & _ & _
          & _ & _ & _ & _ & _ & Hflags & _ & _ & Hnone & _).
    injection Hu as <-. vm_compute in Hg. injection Hg as <-.
    exists after. split; [exact Hg'|]. split.
    + rewrite (Hflags eq_refl). reflexivity.
    + apply Hnone; [reflexivity|]. simpl. intuition discriminate.
Defined.

(** A burger offered from 22:00 to 02:00. *)
Lemma isAvailableNow_never_in_overnight_window_witness :
  isAvailableNow Sample.burger Sample.lateNight Sample.now = Ret false.
Proof.
  exact (isAvailableNow_never_in_overnight_window Sample.burger "22:00" "02:00"
           Sample.now ltac:(vm_compute; reflexivity) ltac:(discriminate)).
Defined.
